(** * web_scraper.py: a shallow embedding and its verified properties

    The development follows [src/web_scraper.py].  The class [WebScraper]
    becomes a record held in an explicit program state; its methods become
    computations in a state-and-exception monad whose state survives a raised
    exception, as Python's side effects do.  The libraries the program calls
    (requests, BeautifulSoup, json, csv, logging, random, time) are modelled
    by the part of their behaviour the program observes:

    - text is a sequence of code points below U+0100, held in [string];
      UTF-8 encodes every such text, so writing it to a file cannot fail
      (a lone surrogate, which [json.dump] cannot write, is outside this
      text);
    - integers are unbounded and printed in full, as [str] prints those of
      at most 4300 digits (it refuses longer ones);
    - a parsed page is a tree of tags and strings, searched in document
      order the way [find_all] and [find] search it; the parser may also
      reject the markup;
    - the network, the random generator and [urljoin] are an environment
      ([world]) the program reads;
    - delays are exact rationals, where the program computes them in
      binary64;
    - log lines, sleeps and GET requests are recorded as a trace of events,
      and written files are kept as their text; a file can always be
      opened for writing, and standard output takes every text. *)

From Stdlib Require Import String Ascii List ZArith QArith Lia Bool.
From Stdlib Require Import DecimalString Lqa.
Import ListNotations.

Set Warnings "-register-all".

Local Close Scope Q_scope.
Local Open Scope string_scope.
Local Open Scope list_scope.
Local Open Scope nat_scope.

(** String concatenation, written apart from list concatenation. *)
Infix "+++" := String.append (right associativity, at level 60).

(** ** Python text *)

Module PyStr.

Definition chr (n : nat) : string := String (ascii_of_nat n) EmptyString.

Definition dquote : string := chr 34.
Definition squote : string := chr 39.
Definition backslash : string := chr 92.
Definition newline : string := chr 10.
Definition crlf : string := chr 13 +++ chr 10.

(** [str.isspace] on one code point below U+0100. *)
Definition isspace (c : ascii) : bool :=
  let n := nat_of_ascii c in
  ((9 <=? n) && (n <=? 13)) || ((28 <=? n) && (n <=? 32))
  || (n =? 133) || (n =? 160).

Fixpoint lstrip (s : string) : string :=
  match s with
  | EmptyString => EmptyString
  | String c s' => if isspace c then lstrip s' else s
  end.

Fixpoint rstrip (s : string) : string :=
  match s with
  | EmptyString => EmptyString
  | String c s' =>
      match rstrip s' with
      | EmptyString => if isspace c then EmptyString else String c EmptyString
      | t => String c t
      end
  end.

(** [s.strip()] *)
Definition strip (s : string) : string := rstrip (lstrip s).

Definition is_empty (s : string) : bool :=
  match s with EmptyString => true | _ => false end.

(** [sep.join(parts)] *)
Definition join (sep : string) (parts : list string) : string :=
  String.concat sep parts.

(** [c in s] for a one-character [c]. *)
Fixpoint contains_char (c : ascii) (s : string) : bool :=
  match s with
  | EmptyString => false
  | String d s' => Ascii.eqb c d || contains_char c s'
  end.

(** [x in xs] for a list of strings. *)
Definition mem (x : string) (xs : list string) : bool :=
  existsb (String.eqb x) xs.

(** [str(n)] for an integer, printed in full whatever its length; [str]
    itself refuses an integer of more than 4300 digits with a ValueError. *)
Definition of_Z (z : Z) : string := NilZero.string_of_int (Z.to_int z).

Definition hex_digit (n : nat) : string :=
  chr (if n <? 10 then 48 + n else 87 + n).

(** Two lower-case hexadecimal digits of a code point below 256. *)
Definition hex2 (n : nat) : string :=
  hex_digit (n / 16) +++ hex_digit (n mod 16).

(** Maps every character through [f] and concatenates. *)
Fixpoint translate (f : ascii -> string) (s : string) : string :=
  match s with
  | EmptyString => EmptyString
  | String c s' => f c +++ translate f s'
  end.

End PyStr.

(** ** Python values

    The values the program stores in its records and receives from
    [response.json()]: [None], booleans, integers, text, lists and
    dictionaries with text keys in insertion order.  JSON numbers with a
    fraction are outside this model. *)

Inductive pyval : Type :=
| PNone
| PBool (b : bool)
| PInt (z : Z)
| PStr (s : string)
| PList (l : list pyval)
| PDict (d : list (string * pyval)).

(** [Dict[str, Any]], the type of every record the scrapers return. *)
Definition dict : Type := list (string * pyval).

Module Py.

(** [key in d] *)
Definition contains (key : string) (d : dict) : bool :=
  existsb (fun kv => String.eqb key (fst kv)) d.

Fixpoint lookup (key : string) (d : dict) : option pyval :=
  match d with
  | [] => None
  | (k, v) :: rest => if String.eqb key k then Some v else lookup key rest
  end.

(** [d.get(key, default)] *)
Definition get (d : dict) (key : string) (default : pyval) : pyval :=
  match lookup key d with
  | Some v => v
  | None => default
  end.

(** [bool(d)] for a dictionary: empty is false. *)
Definition dict_truthy (d : dict) : bool :=
  match d with [] => false | _ => true end.

Definition len_Z {A : Type} (l : list A) : Z := Z.of_nat (List.length l).

(** [repr(s)] for text. *)
Definition repr_str (s : string) : string :=
  let q :=
    if PyStr.contains_char (ascii_of_nat 39) s
       && negb (PyStr.contains_char (ascii_of_nat 34) s)
    then ascii_of_nat 34 else ascii_of_nat 39 in
  let esc (c : ascii) : string :=
    let n := nat_of_ascii c in
    if Ascii.eqb c q || (n =? 92)
    then PyStr.backslash +++ String c EmptyString
    else if n =? 9 then PyStr.backslash +++ "t"
    else if n =? 10 then PyStr.backslash +++ "n"
    else if n =? 13 then PyStr.backslash +++ "r"
    else if (n <? 32) || (n =? 127) || ((128 <=? n) && (n <=? 160))
            || (n =? 173)
    then PyStr.backslash +++ "x" +++ PyStr.hex2 n
    else String c EmptyString in
  String q EmptyString +++ PyStr.translate esc s +++ String q EmptyString.

(** [repr(v)] *)
Fixpoint repr (v : pyval) : string :=
  match v with
  | PNone => "None"
  | PBool true => "True"
  | PBool false => "False"
  | PInt z => PyStr.of_Z z
  | PStr s => repr_str s
  | PList l => "[" +++ PyStr.join ", " (map repr l) +++ "]"
  | PDict d =>
      "{" +++ PyStr.join ", "
               (map (fun kv => repr_str (fst kv) +++ ": " +++ repr (snd kv)) d)
          +++ "}"
  end.

(** [str(v)], which is also what an f-string field formats. *)
Definition str (v : pyval) : string :=
  match v with
  | PStr s => s
  | _ => repr v
  end.

End Py.

(** ** Parsed pages (BeautifulSoup)

    A page element is a string or a tag.  A tag has its name, the tokens of
    its [class] attribute (the parser keeps that attribute as a list; an
    absent attribute is the empty list), its other attributes and its
    contents.  The [BeautifulSoup] object is the root tag. *)

Inductive node : Type :=
| NavigableString (s : string)
| Tag (name : string) (class_ : list string)
      (attrs : list (string * string)) (contents : list node).

Module Soup.

(** [tag.descendants]: everything below a node, in document order. *)
Fixpoint descendants (n : node) : list node :=
  match n with
  | NavigableString _ => []
  | Tag _ _ _ cs => flat_map (fun c => c :: descendants c) cs
  end.

(** [tag.get_text()]: the strings below a node, concatenated. *)
Fixpoint get_text (n : node) : string :=
  match n with
  | NavigableString s => s
  | Tag _ _ _ cs => String.concat EmptyString (map get_text cs)
  end.

(** The name test of a search: the node is a tag with one of the names. *)
Definition named (names : list string) (n : node) : bool :=
  match n with
  | NavigableString _ => false
  | Tag nm _ _ _ => PyStr.mem nm names
  end.

(** [class_=c]: one token equals [c], or the tokens joined by a space do. *)
Definition has_class (c : string) (n : node) : bool :=
  match n with
  | NavigableString _ => false
  | Tag _ cl _ _ =>
      existsb (fun item => String.eqb item c) cl
      || String.eqb (PyStr.join " " cl) c
  end.

Fixpoint attr_lookup (key : string) (l : list (string * string))
  : option string :=
  match l with
  | [] => None
  | (k, v) :: rest => if String.eqb key k then Some v else attr_lookup key rest
  end.

(** [attr=True]: the attribute is present. *)
Definition has_attr (key : string) (n : node) : bool :=
  match n with
  | NavigableString _ => false
  | Tag _ _ at_ _ =>
      match attr_lookup key at_ with Some _ => true | None => false end
  end.

Definition any (n : node) : bool := true.

(** [tag.find_all(names, ...)] *)
Definition find_all (names : list string) (extra : node -> bool) (n : node)
  : list node :=
  filter (fun d => named names d && extra d) (descendants n).

(** [tag.find(name, ...)]: the first match, or [None]. *)
Definition find (name : string) (extra : node -> bool) (n : node)
  : option node :=
  hd_error (find_all [name] extra n).

(** [tag.get(key, default)] for an attribute other than [class]. *)
Definition get (n : node) (key : string) (default : string) : string :=
  match n with
  | NavigableString _ => default
  | Tag _ _ at_ _ =>
      match attr_lookup key at_ with Some v => v | None => default end
  end.

(** [tag.get('class', [])] *)
Definition get_class (n : node) : list string :=
  match n with
  | NavigableString _ => []
  | Tag _ cl _ _ => cl
  end.

End Soup.

(** ** Exceptions *)

Inductive exn_class : Type :=
| ConnectionError        (* requests.ConnectionError *)
| Timeout                (* requests.Timeout *)
| HTTPError              (* requests.HTTPError, from raise_for_status *)
| OtherRequestException  (* any other requests.RequestException *)
| JSONDecodeError        (* raised by response.json() *)
| ValueError
| TypeError
| KeyError
| OverflowError          (* raised by time.sleep *)
| RecursionError
| ParserRejectedMarkup   (* bs4.exceptions.ParserRejectedMarkup *)
| OtherException.

Record exn : Type := mkExn { exn_kind : exn_class; exn_msg : string }.

(** [isinstance(e, requests.RequestException)].  The decode error of
    [response.json()] derives from it as well. *)
Definition is_RequestException (e : exn) : bool :=
  match exn_kind e with
  | ConnectionError | Timeout | HTTPError | OtherRequestException
  | JSONDecodeError => true
  | _ => false
  end.

(** [isinstance(e, json.JSONDecodeError)] *)
Definition is_JSONDecodeError (e : exn) : bool :=
  match exn_kind e with
  | JSONDecodeError => true
  | _ => false
  end.

(** [isinstance(e, Exception)] *)
Definition is_Exception (e : exn) : bool := true.

Inductive result (A : Type) : Type :=
| Ok (a : A)
| Raise (e : exn).

Arguments Ok {A} a.
Arguments Raise {A} e.

(** [len(v)] *)
Definition py_len (v : pyval) : result Z :=
  match v with
  | PStr s => Ok (Z.of_nat (String.length s))
  | PList l => Ok (Py.len_Z l)
  | PDict d => Ok (Py.len_Z d)
  | PNone => Raise (mkExn TypeError "object of type 'NoneType' has no len()")
  | PBool _ => Raise (mkExn TypeError "object of type 'bool' has no len()")
  | PInt _ => Raise (mkExn TypeError "object of type 'int' has no len()")
  end.

(** [tag[key]] for an attribute other than [class]. *)
Definition soup_getitem (n : node) (key : string) : result string :=
  match n with
  | NavigableString _ =>
      Raise (mkExn TypeError "string indices must be integers")
  | Tag _ _ at_ _ =>
      match Soup.attr_lookup key at_ with
      | Some v => Ok v
      | None => Raise (mkExn KeyError (Py.repr_str key))
      end
  end.

(** ** The json and csv writers *)

Module Json.

(** One character of a JSON string, [ensure_ascii=False]. *)
Definition escape_char (c : ascii) : string :=
  let n := nat_of_ascii c in
  if n =? 92 then PyStr.backslash +++ PyStr.backslash
  else if n =? 34 then PyStr.backslash +++ PyStr.dquote
  else if n =? 8 then PyStr.backslash +++ "b"
  else if n =? 12 then PyStr.backslash +++ "f"
  else if n =? 10 then PyStr.backslash +++ "n"
  else if n =? 13 then PyStr.backslash +++ "r"
  else if n =? 9 then PyStr.backslash +++ "t"
  else if n <? 32 then PyStr.backslash +++ "u00" +++ PyStr.hex2 n
  else String c EmptyString.

Definition encode_string (s : string) : string :=
  PyStr.dquote +++ PyStr.translate escape_char s +++ PyStr.dquote.

Fixpoint spaces (n : nat) : string :=
  match n with
  | O => EmptyString
  | S k => " " +++ spaces k
  end.

(** A line break followed by the indentation of nesting depth [level],
    for [indent=2]. *)
Definition newline_indent (level : nat) : string :=
  PyStr.newline +++ spaces (2 * level).

(** [json.dumps(v, indent=2, ensure_ascii=False)], [v] at nesting depth
    [level]. *)
Fixpoint dumps_at (level : nat) (v : pyval) : string :=
  match v with
  | PNone => "null"
  | PBool true => "true"
  | PBool false => "false"
  | PInt z => PyStr.of_Z z
  | PStr s => encode_string s
  | PList [] => "[]"
  | PList l =>
      "[" +++ newline_indent (S level)
      +++ PyStr.join ("," +++ newline_indent (S level))
            (map (dumps_at (S level)) l)
      +++ newline_indent level +++ "]"
  | PDict [] => "{}"
  | PDict d =>
      "{" +++ newline_indent (S level)
      +++ PyStr.join ("," +++ newline_indent (S level))
            (map (fun kv => encode_string (fst kv) +++ ": "
                            +++ dumps_at (S level) (snd kv)) d)
      +++ newline_indent level +++ "}"
  end.

Definition dumps (v : pyval) : string := dumps_at 0 v.

End Json.

Module Csv.

(** The text of one field: [None] is empty, text is itself, anything
    else is its [str]. *)
Definition field_text (v : pyval) : string :=
  match v with
  | PNone => EmptyString
  | _ => Py.str v
  end.

(** Minimal quoting: a field is quoted when it holds the delimiter, the
    quote character or a character of the line terminator. *)
Definition needs_quotes (s : string) : bool :=
  PyStr.contains_char (ascii_of_nat 44) s
  || PyStr.contains_char (ascii_of_nat 34) s
  || PyStr.contains_char (ascii_of_nat 13) s
  || PyStr.contains_char (ascii_of_nat 10) s.

Definition double_quote (c : ascii) : string :=
  if nat_of_ascii c =? 34 then PyStr.dquote +++ PyStr.dquote
  else String c EmptyString.

Definition field (v : pyval) : string :=
  let s := field_text v in
  if needs_quotes s
  then PyStr.dquote +++ PyStr.translate double_quote s +++ PyStr.dquote
  else s.

(** The line [writer.writerow(row)] writes, default dialect. *)
Definition row_line (row : list pyval) : string :=
  let rec_ := PyStr.join "," (map field row) in
  (match row, rec_ with
   | _ :: _, EmptyString => PyStr.dquote +++ PyStr.dquote
   | _, _ => rec_
   end) +++ PyStr.crlf.

End Csv.

(** ** The environment and the program state *)

Inductive level : Type := INFO | WARNING | ERROR.

(** What a run does to the outside, in the order it does it. *)
Inductive event : Type :=
| Log (lvl : level) (msg : string)    (* logger.info / warning / error *)
| Sleep (seconds : Q)                 (* time.sleep *)
| Get (url : string).                 (* session.get *)

(** A response, with its body as the two parsers of the program see it:
    what [BeautifulSoup(response.content, 'html.parser')] gives, the tree
    of the page or the exception of a parser that rejects the markup, and
    what [response.json()] gives, the decoded value or the exception it
    raises: a JSONDecodeError when the body is not JSON, and also a plain
    ValueError or a RecursionError on numbers or nesting the decoder
    refuses. *)
Record response : Type := mkResponse {
  status_code : Z;
  reason : string;
  resp_url : string;
  content_soup : result node;
  content_json : result pyval
}.

Inductive get_outcome : Type :=
| GetRaises (e : exn)
| GetReturns (r : response).

Record world : Type := mkWorld {
  (** what [session.get(url, timeout=10)] does *)
  net : string -> get_outcome;
  (** the 53 random bits behind the n-th call of [random.random()] *)
  random_bits : nat -> Z;
  (** [urllib.parse.urljoin(base, url)] *)
  urljoin : string -> string -> result string
}.

(** The instance attributes the methods read and write. *)
Record WebScraper : Type := mkWebScraper {
  delay_range : Q * Q;
  scraped_data : list dict
}.

Record state : Type := mkState {
  self : WebScraper;
  draws : nat;                        (* random numbers drawn so far *)
  events : list event;                (* oldest first *)
  files : list (string * string)      (* file name, text *)
}.

(** ** The monad of methods *)

Definition M (A : Type) : Type := state -> result A * state.

Definition ret {A : Type} (a : A) : M A := fun st => (Ok a, st).

Definition bind {A B : Type} (m : M A) (k : A -> M B) : M B :=
  fun st =>
    match m st with
    | (Ok a, st') => k a st'
    | (Raise e, st') => (Raise e, st')
    end.

Definition raise {A : Type} (e : exn) : M A := fun st => (Raise e, st).

(** [try: body  except <catches> as e: handler e] *)
Definition try_except {A : Type} (body : M A) (catches : exn -> bool)
  (handler : exn -> M A) : M A :=
  fun st =>
    match body st with
    | (Ok a, st') => (Ok a, st')
    | (Raise e, st') => if catches e then handler e st' else (Raise e, st')
    end.

Definition lift {A : Type} (r : result A) : M A := fun st => (r, st).

Declare Scope monad_scope.
Delimit Scope monad_scope with monad.
Notation "x <- m ;; k" := (bind m (fun x => k))
  (at level 61, m at next level, right associativity) : monad_scope.
Notation "m ;; k" := (bind m (fun _ => k))
  (at level 61, right associativity) : monad_scope.
Local Open Scope monad_scope.

(** [for x in xs: acc = body acc x] *)
Fixpoint for_each {A B : Type} (body : B -> A -> M B) (xs : list A) (acc : B)
  : M B :=
  match xs with
  | [] => ret acc
  | x :: rest => acc' <- body acc x ;; for_each body rest acc'
  end.

Definition emit (e : event) : M unit :=
  fun st => (Ok tt, mkState (self st) (draws st) (events st ++ [e]) (files st)).

Definition logger_info (msg : string) : M unit := emit (Log INFO msg).
Definition logger_warning (msg : string) : M unit := emit (Log WARNING msg).
Definition logger_error (msg : string) : M unit := emit (Log ERROR msg).

Definition get_self : M WebScraper := fun st => (Ok (self st), st).

Definition set_scraped_data (d : list dict) : M unit :=
  fun st =>
    (Ok tt, mkState (mkWebScraper (delay_range (self st)) d)
                    (draws st) (events st) (files st)).

(** ** Files *)

Module Fs.

Fixpoint read (name : string) (fs : list (string * string)) : option string :=
  match fs with
  | [] => None
  | (n, t) :: rest => if String.eqb name n then Some t else read name rest
  end.

Fixpoint put (name text : string) (fs : list (string * string))
  : list (string * string) :=
  match fs with
  | [] => [(name, text)]
  | (n, t) :: rest =>
      if String.eqb name n then (n, text) :: rest
      else (n, t) :: put name text rest
  end.

End Fs.

(** [open(name, 'w')]: the file exists and is empty. *)
Definition open_w (name : string) : M unit :=
  fun st =>
    (Ok tt, mkState (self st) (draws st) (events st)
                    (Fs.put name EmptyString (files st))).

(** Writing [text] to the open file [name]. *)
Definition f_write (name text : string) : M unit :=
  fun st =>
    let old := match Fs.read name (files st) with
               | Some t => t
               | None => EmptyString
               end in
    (Ok tt, mkState (self st) (draws st) (events st)
                    (Fs.put name (old +++ text) (files st))).

(** [csv.writer(f).writerow(row)] *)
Definition writerow (name : string) (row : list pyval) : M unit :=
  f_write name (Csv.row_line row).

(** ** Time and chance *)

Definition two53 : positive := Eval vm_compute in (2 ^ 53)%positive.

Definition two63 : Z := Eval vm_compute in (2 ^ 63)%Z.

Definition nanoseconds (seconds : Q) : Q := (seconds * inject_Z 1000000000)%Q.

(** [time.sleep] counts the delay in nanoseconds, in a signed 64-bit
    number: from -2^63 up to, not including, 2^63. *)
Definition fits_clock (seconds : Q) : bool :=
  Qle_bool (inject_Z (- two63)) (nanoseconds seconds)
  && negb (Qle_bool (inject_Z two63) (nanoseconds seconds)).

(** The delays [time.sleep] accepts. *)
Definition can_sleep (seconds : Q) : bool :=
  fits_clock seconds && Qle_bool 0 seconds.

(** The longest whole number of seconds [time.sleep] accepts. *)
Definition longest_sleep : Q := inject_Z 9223372036.

Section Program.

Variable W : world.

(** [random.random()]: 53 random bits over 2^53, so in [0, 1). *)
Definition random_random : M Q :=
  fun st =>
    (Ok (Qmake (random_bits W (draws st) mod Zpos two53) two53),
     mkState (self st) (S (draws st)) (events st) (files st)).

(** [random.uniform(a, b)], that is [a + (b - a) * random()], computed
    here without the rounding of binary64. *)
Definition random_uniform (a b : Q) : M Q :=
  r <- random_random ;; ret (a + (b - a) * r)%Q.

(** [time.sleep(seconds)]: the delay is converted to nanoseconds first,
    which fails when they do not fit the clock, and refused next when it is
    negative. *)
Definition time_sleep (seconds : Q) : M unit :=
  if negb (fits_clock seconds) then
    raise (mkExn OverflowError "timestamp too large to convert to C _PyTime_t")
  else if Qle_bool 0 seconds then emit (Sleep seconds)
  else raise (mkExn ValueError "sleep length must be non-negative").

(** [self.session.get(url, timeout=10)] *)
Definition session_get (url : string) : M response :=
  emit (Get url) ;;
  match net W url with
  | GetRaises e => raise e
  | GetReturns r => ret r
  end.

(** [response.raise_for_status()] *)
Definition raise_for_status (r : response) : M unit :=
  let code := status_code r in
  if ((400 <=? code) && (code <? 500))%Z then
    raise (mkExn HTTPError
             (PyStr.of_Z code +++ " Client Error: " +++ reason r
              +++ " for url: " +++ resp_url r))
  else if ((500 <=? code) && (code <? 600))%Z then
    raise (mkExn HTTPError
             (PyStr.of_Z code +++ " Server Error: " +++ reason r
              +++ " for url: " +++ resp_url r))
  else ret tt.

(** [response.json()] *)
Definition response_json (r : response) : M pyval := lift (content_json r).

(** [BeautifulSoup(response.content, 'html.parser')] *)
Definition BeautifulSoup (r : response) : M node := lift (content_soup r).

(** ** class WebScraper *)

(** [WebScraper(delay_range)]: the attributes are stored as given. *)
Definition __init__ (range : Q * Q) : result WebScraper :=
  Ok (mkWebScraper range []).

Definition _rate_limit : M unit :=
  me <- get_self ;;
  delay <- random_uniform (fst (delay_range me)) (snd (delay_range me)) ;;
  time_sleep delay.

Definition _get_page (url : string) : M (option node) :=
  try_except
    (_rate_limit ;;
     response <- session_get url ;;
     raise_for_status response ;;
     soup <- BeautifulSoup response ;;
     ret (Some soup))
    is_RequestException
    (fun e =>
       logger_error ("Error fetching " +++ url +++ ": " +++ exn_msg e) ;;
       ret None).

(** *** scrape_news_site *)

Definition default_news_url : string := "https://httpbin.org/html".

(** One turn of the loop over the anchors that carry an [href]. *)
Definition links_step (url : string) (links : list pyval) (link : node)
  : M (list pyval) :=
  href <- lift (soup_getitem link "href") ;;
  full_url <- lift (urljoin W url href) ;;
  ret (links ++ [PDict [("text", PStr (PyStr.strip (Soup.get_text link)));
                        ("url", PStr full_url)]]).

Definition scrape_news_site (url : string) : M dict :=
  logger_info ("Scraping news site: " +++ url) ;;
  soup <- _get_page url ;;
  match soup with
  | None => ret []
  | Some soup =>
      let title := Soup.find "title" Soup.any soup in
      let title_text :=
        match title with
        | Some t => PyStr.strip (Soup.get_text t)
        | None => "No title found"
        end in
      let headings :=
        map (fun h => PyStr.strip (Soup.get_text h))
            (Soup.find_all ["h1"; "h2"; "h3"] Soup.any soup) in
      let paragraphs :=
        map (fun p => PyStr.strip (Soup.get_text p))
            (filter
               (fun p => negb (PyStr.is_empty (PyStr.strip (Soup.get_text p))))
               (Soup.find_all ["p"] Soup.any soup)) in
      links <- for_each (links_step url)
                 (Soup.find_all ["a"] (Soup.has_attr "href") soup) [] ;;
      ret [("url", PStr url);
           ("title", PStr title_text);
           ("headings", PList (map PStr headings));
           ("paragraphs", PList (map PStr paragraphs));
           ("links", PList (firstn 10 links));
           ("type", PStr "news_site")]
  end.

(** *** scrape_quotes_site *)

Definition default_quotes_url : string := "http://quotes.toscrape.com/".

(** One turn of the loop over the quote containers. *)
Definition quotes_step (quotes : list pyval) (quote_div : node)
  : list pyval :=
  let quote_text := Soup.find "span" (Soup.has_class "text") quote_div in
  let author := Soup.find "small" (Soup.has_class "author") quote_div in
  let tags := Soup.find_all ["a"] (Soup.has_class "tag") quote_div in
  match quote_text, author with
  | Some quote_text, Some author =>
      quotes ++
      [PDict [("text", PStr (PyStr.strip (Soup.get_text quote_text)));
              ("author", PStr (PyStr.strip (Soup.get_text author)));
              ("tags",
               PList (map (fun tag => PStr (PyStr.strip (Soup.get_text tag)))
                          tags))]]
  | _, _ => quotes
  end.

Definition scrape_quotes_site (url : string) : M dict :=
  logger_info ("Scraping quotes site: " +++ url) ;;
  soup <- _get_page url ;;
  match soup with
  | None => ret []
  | Some soup =>
      let quotes :=
        fold_left quotes_step
          (Soup.find_all ["div"] (Soup.has_class "quote") soup) [] in
      let title := Soup.find "title" Soup.any soup in
      let title_text :=
        match title with
        | Some t => PyStr.strip (Soup.get_text t)
        | None => "Quotes to Scrape"
        end in
      ret [("url", PStr url);
           ("title", PStr title_text);
           ("quotes", PList quotes);
           ("total_quotes", PInt (Py.len_Z quotes));
           ("type", PStr "quotes_site")]
  end.

(** *** scrape_books_site *)

Definition default_books_url : string := "http://books.toscrape.com/".

Definition rating_vocabulary : list string :=
  ["One"; "Two"; "Three"; "Four"; "Five"].

(** The loop over the class tokens of the rating element, left at the
    first token of the vocabulary. *)
Fixpoint rating_scan (rating : string) (rating_classes : list string)
  : string :=
  match rating_classes with
  | [] => rating
  | cls :: rest =>
      if PyStr.mem cls rating_vocabulary then cls
      else rating_scan rating rest
  end.

(** One turn of the loop over the product containers. *)
Definition books_step (books : list pyval) (book_article : node)
  : list pyval :=
  let title_elem :=
    match Soup.find "h3" Soup.any book_article with
    | Some h3 => Soup.find "a" Soup.any h3
    | None => None
    end in
  let price_elem :=
    Soup.find "p" (Soup.has_class "price_color") book_article in
  let rating_elem :=
    Soup.find "p" (Soup.has_class "star-rating") book_article in
  let availability_elem :=
    Soup.find "p" (Soup.has_class "instock availability") book_article in
  match title_elem, price_elem with
  | Some title_elem, Some price_elem =>
      let rating :=
        match rating_elem with
        | Some rating_elem =>
            rating_scan "Unknown" (Soup.get_class rating_elem)
        | None => "Unknown"
        end in
      books ++
      [PDict [("title",
               PStr (PyStr.strip (Soup.get title_elem "title" EmptyString)));
              ("price", PStr (PyStr.strip (Soup.get_text price_elem)));
              ("rating", PStr rating);
              ("availability",
               PStr (match availability_elem with
                     | Some a => PyStr.strip (Soup.get_text a)
                     | None => "Unknown"
                     end))]]
  | _, _ => books
  end.

Definition scrape_books_site (url : string) : M dict :=
  logger_info ("Scraping books site: " +++ url) ;;
  soup <- _get_page url ;;
  match soup with
  | None => ret []
  | Some soup =>
      let books :=
        fold_left books_step
          (Soup.find_all ["article"] (Soup.has_class "product_pod") soup)
          [] in
      let title := Soup.find "title" Soup.any soup in
      let title_text :=
        match title with
        | Some t => PyStr.strip (Soup.get_text t)
        | None => "Books to Scrape"
        end in
      ret [("url", PStr url);
           ("title", PStr title_text);
           ("books", PList books);
           ("total_books", PInt (Py.len_Z books));
           ("type", PStr "books_site")]
  end.

(** *** scrape_json_api *)

Definition default_api_url : string :=
  "https://jsonplaceholder.typicode.com/posts".

(** [data[:10]] when [data] is a list, [data] otherwise. *)
Definition limit_posts (data : pyval) : pyval :=
  match data with
  | PList l => PList (firstn 10 l)
  | _ => data
  end.

(** [len(data) if isinstance(data, list) else 1] *)
Definition total_items_of (data : pyval) : Z :=
  match data with
  | PList l => Py.len_Z l
  | _ => 1%Z
  end.

Definition scrape_json_api (url : string) : M dict :=
  logger_info ("Scraping JSON API: " +++ url) ;;
  try_except
    (_rate_limit ;;
     response <- session_get url ;;
     raise_for_status response ;;
     data <- response_json response ;;
     let data := limit_posts data in
     ret [("url", PStr url);
          ("title", PStr "JSON API Data");
          ("api_data", data);
          ("total_items", PInt (total_items_of data));
          ("type", PStr "json_api")])
    (fun e => is_RequestException e || is_JSONDecodeError e)
    (fun e =>
       logger_error ("Error fetching JSON API " +++ url +++ ": "
                     +++ exn_msg e) ;;
       ret []).

(** *** run_all_scrapers *)

(** The bound methods of the batch, each with its [__name__]; they are
    called without arguments, so each scrapes its default URL. *)
Definition scrapers : list (string * M dict) :=
  [("scrape_news_site", scrape_news_site default_news_url);
   ("scrape_quotes_site", scrape_quotes_site default_quotes_url);
   ("scrape_books_site", scrape_books_site default_books_url);
   ("scrape_json_api", scrape_json_api default_api_url)].

(** One turn of the loop over the scrapers. *)
Definition run_scraper (all_data : list dict) (scraper : string * M dict)
  : M (list dict) :=
  try_except
    (data <- snd scraper ;;
     if Py.dict_truthy data then
       logger_info ("Successfully scraped "
                    +++ Py.str (Py.get data "type" (PStr "unknown"))
                    +++ " from "
                    +++ Py.str (Py.get data "url" (PStr "unknown"))) ;;
       ret (all_data ++ [data])
     else ret all_data)
    is_Exception
    (fun e =>
       logger_error ("Error running scraper " +++ fst scraper +++ ": "
                     +++ exn_msg e) ;;
       ret all_data).

Definition run_all_scrapers : M (list dict) :=
  all_data <- for_each run_scraper scrapers [] ;;
  set_scraped_data all_data ;;
  ret all_data.

(** *** save_to_json, save_to_csv *)

Definition default_json_filename : string := "scraped_data.json".
Definition default_csv_filename : string := "scraped_summary.csv".

(** [json.dump(self.scraped_data, f, indent=2, ensure_ascii=False)] into
    the file opened for writing.  The text of this model is always
    encodable, so the dump always succeeds here; on a store that holds a
    lone surrogate the program raises UnicodeEncodeError at this point. *)
Definition save_to_json (filename : string) : M unit :=
  me <- get_self ;;
  open_w filename ;;
  f_write filename (Json.dumps (PList (map PDict (scraped_data me)))) ;;
  logger_info ("Data saved to " +++ filename).

Definition csv_header : list pyval :=
  [PStr "URL"; PStr "Title"; PStr "Type"; PStr "Items Count"].

(** The [if]/[elif] chain that picks the count of one record. *)
Definition items_count_of (data : dict) : M pyval :=
  if Py.contains "quotes" data then
    ret (Py.get data "total_quotes" (PInt 0))
  else if Py.contains "books" data then
    ret (Py.get data "total_books" (PInt 0))
  else if Py.contains "api_data" data then
    ret (Py.get data "total_items" (PInt 0))
  else if Py.contains "paragraphs" data then
    n <- lift (py_len (Py.get data "paragraphs" (PList []))) ;;
    ret (PInt n)
  else ret (PInt 0).

(** One turn of the loop over the stored records. *)
Definition csv_step (filename : string) (_ : unit) (data : dict) : M unit :=
  items_count <- items_count_of data ;;
  writerow filename [Py.get data "url" (PStr EmptyString);
                     Py.get data "title" (PStr EmptyString);
                     Py.get data "type" (PStr EmptyString);
                     items_count].

Definition save_to_csv (filename : string) : M unit :=
  me <- get_self ;;
  match scraped_data me with
  | [] => logger_warning "No data to save"
  | _ :: _ =>
      open_w filename ;;
      writerow filename csv_header ;;
      for_each (csv_step filename) (scraped_data me) tt ;;
      logger_info ("Summary saved to " +++ filename)
  end.

End Program.

(** ** Observations on a run *)

Definition is_error_line (e : event) : bool :=
  match e with
  | Log ERROR _ => true
  | _ => false
  end.

(** The number of ERROR lines logged so far. *)
Definition errors_logged (st : state) : nat :=
  List.length (filter is_error_line (events st)).

(** The URLs requested so far, oldest first. *)
Definition requests_of (evs : list event) : list string :=
  flat_map (fun e => match e with Get u => [u] | _ => [] end) evs.

(** The delays slept so far, oldest first. *)
Definition sleeps_of (evs : list event) : list Q :=
  flat_map (fun e => match e with Sleep d => [d] | _ => [] end) evs.

(** A direct call of a scraper fails when it raises or returns [{}]. *)
Definition failed (out : result dict * state) : bool :=
  match fst out with
  | Ok d => negb (Py.dict_truthy d)
  | Raise _ => true
  end.

(** What happens to each source of a batch whose loop is about to call the
    scrapers [l] in state [st]: whether the call of the scraper fails there,
    and how many ERROR lines its turn of the loop logs. *)
Fixpoint batch_report (l : list (string * M dict)) (all_data : list dict)
  (st : state) : list (bool * nat) :=
  match l with
  | [] => []
  | scraper :: rest =>
      let out := run_scraper all_data scraper st in
      (failed (snd scraper st), errors_logged (snd out) - errors_logged st)
      :: match fst out with
         | Ok all_data' => batch_report rest all_data' (snd out)
         | Raise _ => []
         end
  end.

(** A failed source logged exactly one ERROR line, another source none. *)
Definition logged_once (r : bool * nat) : Prop :=
  snd r = if fst r then 1 else 0.

Definition failures (report : list (bool * nat)) : nat :=
  List.length (filter fst report).

(** A computation that logs no ERROR line, whatever its outcome. *)
Definition quiet {A : Type} (m : M A) : Prop :=
  forall st, errors_logged (snd (m st)) = errors_logged st.

(** How a computation that may log accounts for its failures: [{}] comes
    with exactly one ERROR line, a record or an exception with none. *)
Definition logs_own_failure (m : M dict) : Prop :=
  forall st,
    match m st with
    | (Ok [], st') => errors_logged st' = S (errors_logged st)
    | (Ok (_ :: _), st') => errors_logged st' = errors_logged st
    | (Raise _, st') => errors_logged st' = errors_logged st
    end.

(** *** A fetch that succeeds *)

(** The delay the next call of [_rate_limit] draws. *)
Definition next_delay (W : world) (st : state) : Q :=
  let a := fst (delay_range (self st)) in
  let b := snd (delay_range (self st)) in
  (a + (b - a) * Qmake (random_bits W (draws st) mod Zpos two53) two53)%Q.

(** [raise_for_status] lets the response through. *)
Definition status_passes (r : response) : bool :=
  negb ((400 <=? status_code r)%Z && (status_code r <? 600)%Z).

(** In state [st] a fetch of [url] succeeds with response [r]: the drawn
    delay can be slept, the request returns [r], and its status is no
    error status. *)
Definition fetch_succeeds (W : world) (url : string) (st : state)
  (r : response) : Prop :=
  can_sleep (next_delay W st) = true
  /\ net W url = GetReturns r
  /\ status_passes r = true.

(** The state a successful fetch of [url] leaves. *)
Definition after_fetch (W : world) (url : string) (st : state) : state :=
  mkState (self st) (S (draws st))
          ((events st ++ [Sleep (next_delay W st)]) ++ [Get url]) (files st).

(** *** The quote and product containers of a page *)

Definition quote_containers (soup : node) : list node :=
  Soup.find_all ["div"] (Soup.has_class "quote") soup.

(** Some tag named [name] with class [cls] lies below [c]. *)
Definition has_node (name cls : string) (c : node) : bool :=
  existsb (fun d => Soup.named [name] d && Soup.has_class cls d)
          (Soup.descendants c).

(** A quote container with both a text node and an author node. *)
Definition well_formed_quote (c : node) : bool :=
  has_node "span" "text" c && has_node "small" "author" c.

(** [q] is the entry of the quote container [c]: its first text node, its
    first author node and the labels of all its tag elements, stripped. *)
Definition entry_of_quote (c : node) (q : pyval) : Prop :=
  exists t a,
    Soup.find "span" (Soup.has_class "text") c = Some t
    /\ Soup.find "small" (Soup.has_class "author") c = Some a
    /\ q = PDict
             [("text", PStr (PyStr.strip (Soup.get_text t)));
              ("author", PStr (PyStr.strip (Soup.get_text a)));
              ("tags",
               PList (map (fun tag => PStr (PyStr.strip (Soup.get_text tag)))
                          (Soup.find_all ["a"] (Soup.has_class "tag") c)))].

Definition product_containers (soup : node) : list node :=
  Soup.find_all ["article"] (Soup.has_class "product_pod") soup.

(** A product container with a titled anchor and a price: it is emitted. *)
Definition book_emitted (c : node) : bool :=
  match
    match Soup.find "h3" Soup.any c with
    | Some h3 => Soup.find "a" Soup.any h3
    | None => None
    end,
    Soup.find "p" (Soup.has_class "price_color") c
  with
  | Some _, Some _ => true
  | _, _ => false
  end.

Definition rating_element (c : node) : option node :=
  Soup.find "p" (Soup.has_class "star-rating") c.

Definition availability_element (c : node) : option node :=
  Soup.find "p" (Soup.has_class "instock availability") c.

(** The five words a rating is taken from. *)
Definition star_word (cls : string) : Prop :=
  cls = "One" \/ cls = "Two" \/ cls = "Three" \/ cls = "Four"
  \/ cls = "Five".

Definition no_star_word (cls : string) : Prop := ~ star_word cls.

(** What the entry [b] emitted for the product container [c] says about
    rating and availability: the rating is the first class token of the
    rating element that is one of the five words, and "Unknown" when that
    element has no such token or is absent; the availability is "Unknown"
    when its element is absent. *)
Definition rating_and_availability (c : node) (b : pyval) : Prop :=
  exists d,
    b = PDict d
    /\ (forall name classes attrs contents before cls after,
          rating_element c = Some (Tag name classes attrs contents) ->
          classes = before ++ cls :: after ->
          Forall no_star_word before ->
          star_word cls ->
          Py.lookup "rating" d = Some (PStr cls))
    /\ (forall name classes attrs contents,
          rating_element c = Some (Tag name classes attrs contents) ->
          Forall no_star_word classes ->
          Py.lookup "rating" d = Some (PStr "Unknown"))
    /\ (rating_element c = None ->
        Py.lookup "rating" d = Some (PStr "Unknown"))
    /\ (availability_element c = None ->
        Py.lookup "availability" d = Some (PStr "Unknown")).

(** *** Records and their counts *)

(** The four extractor variants and the method behind each. *)
Inductive extractor_kind : Type :=
| GenericDocument
| QuoteList
| Catalog
| JsonApi.

Definition run_extractor (W : world) (kind : extractor_kind) (url : string)
  : M dict :=
  match kind with
  | GenericDocument => scrape_news_site W url
  | QuoteList => scrape_quotes_site W url
  | Catalog => scrape_books_site W url
  | JsonApi => scrape_json_api W url
  end.

(** The records the four scrapers build. *)
Inductive is_record : dict -> Prop :=
| news_record (url title : string) (headings paragraphs links : list pyval) :
    is_record [("url", PStr url);
               ("title", PStr title);
               ("headings", PList headings);
               ("paragraphs", PList paragraphs);
               ("links", PList links);
               ("type", PStr "news_site")]
| quotes_record (url title : string) (quotes : list pyval) :
    is_record [("url", PStr url);
               ("title", PStr title);
               ("quotes", PList quotes);
               ("total_quotes", PInt (Py.len_Z quotes));
               ("type", PStr "quotes_site")]
| books_record (url title : string) (books : list pyval) :
    is_record [("url", PStr url);
               ("title", PStr title);
               ("books", PList books);
               ("total_books", PInt (Py.len_Z books));
               ("type", PStr "books_site")]
| api_record (url : string) (data : pyval) :
    is_record [("url", PStr url);
               ("title", PStr "JSON API Data");
               ("api_data", limit_posts data);
               ("total_items", PInt (total_items_of (limit_posts data)));
               ("type", PStr "json_api")].

(** The record of an extractor variant holds its collection, and beside
    it a count equal to the number of elements of that collection: the
    quotes of a quote list, the books of a catalog, and for the JSON API
    the elements of the payload when it is a list, 1 when it is anything
    else.  The record of a generic document holds no count under any of
    the three keys. *)
Definition counts_its_collection (kind : extractor_kind) (record : dict)
  : Prop :=
  match kind with
  | GenericDocument =>
      Py.lookup "total_quotes" record = None
      /\ Py.lookup "total_books" record = None
      /\ Py.lookup "total_items" record = None
  | QuoteList =>
      exists quotes,
        Py.lookup "quotes" record = Some (PList quotes)
        /\ Py.lookup "total_quotes" record
           = Some (PInt (Z.of_nat (List.length quotes)))
  | Catalog =>
      exists books,
        Py.lookup "books" record = Some (PList books)
        /\ Py.lookup "total_books" record
           = Some (PInt (Z.of_nat (List.length books)))
  | JsonApi =>
      exists payload,
        Py.lookup "api_data" record = Some payload
        /\ Py.lookup "total_items" record
           = Some (PInt (match payload with
                         | PList items => Z.of_nat (List.length items)
                         | _ => 1%Z
                         end))
  end.

(** The payload as the specification words it for a single object: the
    object is wrapped, so that the payload is a collection whose one
    element the count 1 counts. *)
Definition single_object_wrapped (record : dict) (object : pyval) : Prop :=
  Py.lookup "api_data" record = Some (PList [object])
  /\ Py.lookup "total_items" record = Some (PInt 1).

(** *** The exports *)

(** The text of a file written line by line. *)
Definition lines_text (lines : list string) : string :=
  fold_right String.append EmptyString lines.

(** The count a record stores, under whichever of the three count keys it
    has. *)
Definition stored_item_count (record : dict) : option pyval :=
  match Py.lookup "total_quotes" record with
  | Some v => Some v
  | None =>
      match Py.lookup "total_books" record with
      | Some v => Some v
      | None => Py.lookup "total_items" record
      end
  end.

(** The summary as the specification words it: the header row
    URL,Title,Type,ItemsCount, then one row per record, in store order,
    whose last cell is the count stored in that record. *)
Definition summary_as_specified (store : list dict) (text : string) : Prop :=
  exists rows,
    text = "URL,Title,Type,ItemsCount" +++ PyStr.crlf
           +++ lines_text (map Csv.row_line rows)
    /\ Forall2
         (fun record row =>
            exists url title type_ count,
              row = [url; title; type_; count]
              /\ stored_item_count record = Some count)
         store rows.

(** Where the count cell of a summary row comes from. *)
Definition count_cell_source (record : dict) (count : pyval) : Prop :=
  (Py.contains "quotes" record = true ->
   Py.lookup "total_quotes" record = Some count)
  /\ (Py.contains "books" record = true ->
      Py.lookup "total_books" record = Some count)
  /\ (Py.contains "api_data" record = true ->
      Py.lookup "total_items" record = Some count)
  /\ (forall paragraphs,
        Py.lookup "type" record = Some (PStr "news_site") ->
        Py.lookup "paragraphs" record = Some (PList paragraphs) ->
        count = PInt (Py.len_Z paragraphs)
        /\ stored_item_count record = None).

(** [row] is the summary row of [record]. *)
Definition summary_row_of (record : dict) (row : list pyval) : Prop :=
  exists count,
    row = [Py.get record "url" (PStr EmptyString);
           Py.get record "title" (PStr EmptyString);
           Py.get record "type" (PStr EmptyString);
           count]
    /\ count_cell_source record count.

(** Exporting as the specification words it for an empty store: the CSV
    file holds the header row alone and the JSON file holds []. *)
Definition empty_exports_as_specified (csv_name json_name : string)
  (st : state) : Prop :=
  exists header,
    Fs.read csv_name (files (snd (save_to_csv csv_name st))) = Some header
    /\ Fs.read json_name (files (snd (save_to_json json_name st)))
       = Some "[]".

(** *** Failures of a single scraper *)

(** The fetch every scraper starts with. *)
Definition fetch_attempt (W : world) (url : string) : M response :=
  _rate_limit W ;;
  response <- session_get W url ;;
  raise_for_status response ;;
  ret response.

(** The exceptions a scraper of the given variant catches itself: the
    request errors, and for the JSON API the decode error as well. *)
Definition handled (kind : extractor_kind) (e : exn) : bool :=
  match kind with
  | JsonApi => is_RequestException e || is_JSONDecodeError e
  | _ => is_RequestException e
  end.

(** How a scraper ends on the failure [e]: when it catches [e] it logs one
    ERROR line and returns [{}]; otherwise [e] reaches its caller and no
    ERROR line is logged. *)
Definition ends_on_failure (W : world) (kind : extractor_kind)
  (url : string) (st : state) (e : exn) : Prop :=
  if handled kind e
  then exists st',
      run_extractor W kind url st = (Ok [], st')
      /\ errors_logged st' = S (errors_logged st)
  else exists st',
      run_extractor W kind url st = (Raise e, st')
      /\ errors_logged st' = errors_logged st.

(** The kind of the error behind a failed fetch can be read off what the
    scraper returns. *)
Definition surfaces_error_kind (scraper : world -> string -> M dict) : Prop :=
  exists kind_of : result dict -> option exn_class,
    forall W url st e st1,
      fetch_attempt W url st = (Raise e, st1) ->
      kind_of (fst (scraper W url st)) = Some (exn_kind e).

(** *** Delay ranges *)

Definition fresh_state (scraper : WebScraper) : state :=
  mkState scraper 0 [] [].


(** [m] draws no random number, sleeps not and sends no request. *)
Definition offline {A : Type} (m : M A) : Prop :=
  forall st,
    delay_range (self (snd (m st))) = delay_range (self st)
    /\ draws (snd (m st)) = draws st
    /\ requests_of (events (snd (m st))) = requests_of (events st)
    /\ sleeps_of (events (snd (m st))) = sleeps_of (events st).



(** Whatever [m] returns is [{}] or a record. *)
Definition returns_records (m : M dict) : Prop :=
  forall st d st', m st = (Ok d, st') -> d = [] \/ is_record d.

(** ** Sample pages and networks *)

Module Sample.

Definition text (s : string) : node := NavigableString s.

(** A quote container; the text, the author or the tags may be left out. *)
Definition quote_div (quote author : option string) (tags : list string)
  : node :=
  Tag "div" ["quote"] []
      ((match quote with
        | Some s => [Tag "span" ["text"] [] [text s]]
        | None => []
        end)
       ++ (match author with
           | Some s =>
               [Tag "span" [] []
                    [text "by "; Tag "small" ["author"] [] [text s]]]
           | None => []
           end)
       ++ [Tag "div" ["tags"] []
               (map (fun t => Tag "a" ["tag"] [("href", "/tag/" +++ t)]
                                  [text t]) tags)]).

(** Three well-formed containers, the third without tags, and one
    container without an author. *)
Definition untagged : node := quote_div (Some "Less is more.") (Some "Mies") [].

Definition quotes_page : node :=
  Tag "[document]" [] []
      [Tag "html" [] []
           [Tag "head" [] [] [Tag "title" [] [] [text "Quotes to Scrape"]];
            Tag "body" [] []
                [quote_div (Some " Know thyself. ") (Some "Thales")
                           ["wisdom"; "self"];
                 quote_div (Some "No author here.") None ["orphan"];
                 quote_div (Some "I think.") (Some "Descartes") ["mind"];
                 untagged]]].

(** A product container with the given classes on its rating element
    ([None]: no rating element) and with or without availability. *)
Definition product (title : string) (rating : option (list string))
  (in_stock : bool) : node :=
  Tag "article" ["product_pod"] []
      ((match rating with
        | Some cl => [Tag "p" cl [] []]
        | None => []
        end)
       ++ [Tag "h3" [] [] [Tag "a" [] [("href", "b.html"); ("title", title)]
                               [text title]];
           Tag "div" ["product_price"] []
               ([Tag "p" ["price_color"] [] [text "51.77"]]
                ++ (if in_stock
                    then [Tag "p" ["instock"; "availability"] []
                              [text " In stock "]]
                    else []))]).

Definition three_stars : node :=
  product "A Light in the Attic" (Some ["star-rating"; "Three"]) true.
Definition odd_stars : node :=
  product "Tipping the Velvet" (Some ["star-rating"; "Six"]) true.
Definition bare : node := product "Soumission" None false.

Definition books_page : node :=
  Tag "[document]" [] []
      [Tag "html" [] []
           [Tag "body" [] [] [three_stars; odd_stars; bare]]].

Definition news_page : node :=
  Tag "[document]" [] []
      [Tag "html" [] []
           [Tag "head" [] [] [Tag "title" [] [] [text "Herman Melville"]];
            Tag "body" [] []
                [Tag "h1" [] [] [text "Moby-Dick"];
                 Tag "p" [] [] [text "Availing himself of the mild weather."];
                 Tag "a" [] [("href", "/next")] [text "next"]]]].

Definition post (n : Z) : pyval :=
  PDict [("id", PInt n); ("title", PStr "post")].

Definition fifteen_posts : pyval :=
  PList (map post [1; 2; 3; 4; 5; 6; 7; 8; 9; 10; 11; 12; 13; 14; 15]%Z).

Definition one_object : pyval := post 1.

Definition ok_response (url : string) (page : node) (json : result pyval)
  : response :=
  mkResponse 200 "OK" url (Ok page) json.

Definition not_json : result pyval :=
  Raise (mkExn JSONDecodeError "Expecting value: line 1 column 1 (char 0)").

(** What the parser makes of a body that is JSON: one string. *)
Definition as_text (body : string) : node :=
  Tag "[document]" [] [] [NavigableString body].

Definition quotes_response : response :=
  ok_response default_quotes_url quotes_page not_json.
Definition books_response : response :=
  ok_response default_books_url books_page not_json.
Definition news_response : response :=
  ok_response default_news_url news_page not_json.
Definition posts_response : response :=
  ok_response default_api_url (as_text (Json.dumps fifteen_posts))
              (Ok fifteen_posts).
Definition object_response : response :=
  ok_response default_api_url (as_text (Json.dumps one_object))
              (Ok one_object).

(** The scheme and host of a URL: its text up to the third slash. *)
Fixpoint origin_at (slashes : nat) (url : string) : string :=
  match url with
  | EmptyString => EmptyString
  | String c rest =>
      if Ascii.eqb c "/"%char then
        match slashes with
        | O => EmptyString
        | S k => String c (origin_at k rest)
        end
      else String c (origin_at slashes rest)
  end.

Definition origin (url : string) : string := origin_at 2 url.

(** [urljoin] on the links of the sample pages, which begin with one slash:
    such a reference replaces the path of the base. *)
Definition glue (base ref : string) : result string :=
  Ok (origin base +++ ref).

(** Every source answers. *)
Definition all_up : world :=
  mkWorld
    (fun url =>
       if String.eqb url default_quotes_url then GetReturns quotes_response
       else if String.eqb url default_books_url then GetReturns books_response
       else if String.eqb url default_api_url then GetReturns posts_response
       else GetReturns news_response)
    (fun n => 4503599627370496%Z)
    glue.

(** The API answers with a single object. *)
Definition object_api : world :=
  mkWorld (fun url => GetReturns object_response)
          (fun n => 4503599627370496%Z) glue.

(** Only the generic page answers. *)
Definition only_news : world :=
  mkWorld
    (fun url =>
       if String.eqb url default_news_url then GetReturns news_response
       else GetRaises (mkExn ConnectionError "Connection refused"))
    (fun n => 0%Z)
    glue.

(** Every request times out. *)
Definition all_time_out : world :=
  mkWorld (fun url => GetRaises (mkExn Timeout "Read timed out."))
          (fun n => 0%Z) glue.

(** Every connection is refused. *)
Definition all_refuse : world :=
  mkWorld (fun url => GetRaises (mkExn ConnectionError "Connection refused"))
          (fun n => 0%Z) glue.

(** A scraper as [main] builds it, before any run. *)
Definition start : state := fresh_state (mkWebScraper (1, 2)%Q []).


End Sample.

(** ** Further observations *)

(** A delay lies between the bounds of a range given in order. *)
Definition delay_between (range : Q * Q) (d : Q) : Prop :=
  (fst range <= d /\ d <= snd range)%Q.

(** One ERROR line of the batch loop for the scraper called [name], on a
    sleep that was refused. *)
Definition refused_sleep_line (name : string) : event :=
  Log ERROR ("Error running scraper " +++ name
             +++ ": sleep length must be non-negative").

(** The anchors of a page that carry an [href], in document order. *)
Definition anchors (soup : node) : list node :=
  Soup.find_all ["a"] (Soup.has_attr "href") soup.

(** [urljoin] resolves the reference of [link] against [url] to [full]. *)
Definition resolves_to (W : world) (url : string) (link : node)
  (full : string) : Prop :=
  exists href,
    soup_getitem link "href" = Ok href /\ urljoin W url href = Ok full.

(** [e] is the entry of the anchor [link] on the page at [url]. *)
Definition entry_of_link (W : world) (url : string) (link : node)
  (e : pyval) : Prop :=
  exists full,
    resolves_to W url link full
    /\ e = PDict [("text", PStr (PyStr.strip (Soup.get_text link)));
                  ("url", PStr full)].

(** [urljoin] raises [e] on the reference of [link]. *)
Definition fails_to_resolve (W : world) (url : string) (link : node)
  (e : exn) : Prop :=
  exists href,
    soup_getitem link "href" = Ok href /\ urljoin W url href = Raise e.

(** A text that is not empty, as a stored value. *)
Definition nonempty_text (v : pyval) : Prop :=
  exists s, v = PStr s /\ s <> EmptyString.

(** The anchor a product container takes its title from: the first anchor
    below its first [h3]. *)
Definition title_anchor (c : node) : option node :=
  match Soup.find "h3" Soup.any c with
  | Some h3 => Soup.find "a" Soup.any h3
  | None => None
  end.

(** [b] is the entry of the product container [c], as to title and price. *)
Definition entry_of_book (c : node) (b : pyval) : Prop :=
  exists a p rating availability,
    title_anchor c = Some a
    /\ Soup.find "p" (Soup.has_class "price_color") c = Some p
    /\ b = PDict
             [("title",
               PStr (PyStr.strip (Soup.get a "title" EmptyString)));
              ("price", PStr (PyStr.strip (Soup.get_text p)));
              ("rating", PStr rating);
              ("availability", PStr availability)].

(** The record a source of the batch stores: its type and its URL. *)
Definition record_of_source (type_ url : string) (record : dict) : Prop :=
  Py.lookup "type" record = Some (PStr type_)
  /\ Py.lookup "url" record = Some (PStr url).

(** At most one record, and that one of the given source. *)
Definition at_most_one (type_ url : string) (records : list dict) : Prop :=
  records = [] \/ exists record,
      records = [record] /\ record_of_source type_ url record.

(** *** Sleeps and requests, in the order they happen *)

Definition is_traffic (e : event) : bool :=
  match e with
  | Log _ _ => false
  | Sleep _ => true
  | Get _ => true
  end.

(** The sleeps and requests of a trace, in order, without the log lines. *)
Definition traffic_of (evs : list event) : list event := filter is_traffic evs.

(** [m] draws no random number and adds no sleep and no request. *)
Definition silent {A : Type} (m : M A) : Prop :=
  forall st,
    delay_range (self (snd (m st))) = delay_range (self st)
    /\ draws (snd (m st)) = draws st
    /\ traffic_of (events (snd (m st))) = traffic_of (events st).

(** Where the drawn delay can be slept, [m] sleeps it and then sends one
    request, for [url], and nothing else. *)
Definition sleeps_then_gets (W : world) (url : string) {A : Type} (m : M A)
  : Prop :=
  forall st,
    can_sleep (next_delay W st) = true ->
    delay_range (self (snd (m st))) = delay_range (self st)
    /\ draws (snd (m st)) = S (draws st)
    /\ traffic_of (events (snd (m st)))
       = traffic_of (events st) ++ [Sleep (next_delay W st); Get url].

(** The sleeps and requests of a batch: before the request of each URL, one
    sleep, for a delay that satisfies [ok]. *)
Inductive paced (ok : Q -> Prop) : list string -> list event -> Prop :=
| paced_nil : paced ok [] []
| paced_cons (url : string) (urls : list string) (d : Q) (rest : list event) :
    ok d -> paced ok urls rest ->
    paced ok (url :: urls) (Sleep d :: Get url :: rest).

(** The exception of a sleep that was refused. *)
Definition sleep_error : exn :=
  mkExn ValueError "sleep length must be non-negative".

(** The state a scraper leaves when its sleep is refused: its announcement
    is logged and one random number is drawn. *)
Definition after_refused_sleep (announcement : string) (st : state) : state :=
  mkState (self st) (S (draws st)) (events st ++ [Log INFO announcement])
          (files st).

(** Whatever [m] returns is [{}] or the record of the given source. *)
Definition returns_source (type_ url : string) (m : M dict) : Prop :=
  forall st d st',
    m st = (Ok d, st') -> d = [] \/ record_of_source type_ url d.

(** *** Stores assigned by hand *)

(** The value the [if]/[elif] chain of [save_to_csv] gives for a record,
    or the exception [len] raises in its last branch. *)
Definition count_of (record : dict) : result pyval :=
  if Py.contains "quotes" record then
    Ok (Py.get record "total_quotes" (PInt 0))
  else if Py.contains "books" record then
    Ok (Py.get record "total_books" (PInt 0))
  else if Py.contains "api_data" record then
    Ok (Py.get record "total_items" (PInt 0))
  else if Py.contains "paragraphs" record then
    match py_len (Py.get record "paragraphs" (PList [])) with
    | Ok n => Ok (PInt n)
    | Raise e => Raise e
    end
  else Ok (PInt 0).

(** The record has [paragraphs] as its only collection and the value
    there has no length: it is [None], a boolean or an integer. *)
Definition unsized_paragraphs (record : dict) : bool :=
  negb (Py.contains "quotes" record)
  && negb (Py.contains "books" record)
  && negb (Py.contains "api_data" record)
  && match Py.lookup "paragraphs" record with
     | Some PNone | Some (PBool _) | Some (PInt _) => true
     | _ => false
     end.

(** [row] is the row written for [record]: the three texts, empty where
    the key is missing, and the count the chain gives. *)
Definition row_of (record : dict) (row : list pyval) : Prop :=
  exists count,
    count_of record = Ok count
    /\ row = [Py.get record "url" (PStr EmptyString);
              Py.get record "title" (PStr EmptyString);
              Py.get record "type" (PStr EmptyString);
              count].

(** The rows written for a store, up to the first record on which the
    chain raises, and how the loop over the store ends. *)
Fixpoint rows_written (store : list dict) : result unit * list (list pyval) :=
  match store with
  | [] => (Ok tt, [])
  | record :: rest =>
      match count_of record with
      | Raise e => (Raise e, [])
      | Ok count =>
          (fst (rows_written rest),
           [Py.get record "url" (PStr EmptyString);
            Py.get record "title" (PStr EmptyString);
            Py.get record "type" (PStr EmptyString);
            count] :: snd (rows_written rest))
      end
  end.



(** Two file systems hold the same text under every name but [name]. *)
Definition same_files_but (name : string) (fs fs' : list (string * string))
  : Prop :=
  forall other, other <> name -> Fs.read other fs' = Fs.read other fs.

(** ** The callers of the scraper *)

(** The name under which the text printed to standard output is kept. *)
Definition stdout : string := "<stdout>".

(** [print(s)] *)
Definition print_ (s : string) : M unit := f_write stdout (s +++ PyStr.newline).

(** [s * n] *)
Fixpoint str_times (s : string) (n : nat) : string :=
  match n with
  | O => EmptyString
  | S k => s +++ str_times s k
  end.

(** [scraper = WebScraper(delay_range=range)]: the new object is the one
    the methods called next work on. *)
Definition new_scraper (range : Q * Q) : M unit :=
  scraper <- lift (__init__ range) ;;
  fun st => (Ok tt, mkState scraper (draws st) (events st) (files st)).

(** *** web_scraper.main *)

(** The [if]/[elif] chain that prints the count of one record. *)
Definition print_found (item : dict) : M unit :=
  if Py.contains "quotes" item then
    print_ ("Quotes found: " +++ Py.str (Py.get item "total_quotes" (PInt 0)))
  else if Py.contains "books" item then
    print_ ("Books found: " +++ Py.str (Py.get item "total_books" (PInt 0)))
  else if Py.contains "api_data" item then
    print_ ("API items: " +++ Py.str (Py.get item "total_items" (PInt 0)))
  else if Py.contains "paragraphs" item then
    n <- lift (py_len (Py.get item "paragraphs" (PList []))) ;;
    print_ ("Paragraphs found: " +++ PyStr.of_Z n)
  else ret tt.

(** One turn of the loop that prints the summary. *)
Definition summary_step (_ : unit) (item : dict) : M unit :=
  print_ ("Site: " +++ Py.str (Py.get item "title" (PStr "Unknown"))) ;;
  print_ ("URL: " +++ Py.str (Py.get item "url" (PStr "Unknown"))) ;;
  print_ ("Type: " +++ Py.str (Py.get item "type" (PStr "Unknown"))) ;;
  print_found item ;;
  print_ (str_times "-" 30).

Definition main (W : world) : M unit :=
  logger_info "Starting web scraping session..." ;;
  new_scraper (1, 2)%Q ;;
  data <- run_all_scrapers W ;;
  match data with
  | _ :: _ =>
      save_to_json default_json_filename ;;
      save_to_csv default_csv_filename ;;
      logger_info ("Scraping completed! Collected data from "
                   +++ PyStr.of_Z (Py.len_Z data) +++ " sites") ;;
      print_ (PyStr.newline +++ str_times "=" 50) ;;
      print_ "SCRAPING SUMMARY" ;;
      print_ (str_times "=" 50) ;;
      for_each summary_step data tt
  | [] => logger_warning "No data was scraped successfully"
  end.

(** The state in which [main] starts its run. *)
Definition main_start (st : state) : state :=
  mkState (mkWebScraper (1, 2)%Q []) (draws st)
          (events st ++ [Log INFO "Starting web scraping session..."])
          (files st).

(** The block [main] prints for a record: its title, URL and type, the
    count under the label of its collection, and a rule. *)
Definition block_of (record : dict) (block : string) : Prop :=
  exists label count,
    count_of record = Ok count
    /\ ((Py.contains "quotes" record = true /\ label = "Quotes found: ")
        \/ (Py.contains "quotes" record = false
            /\ Py.contains "books" record = true
            /\ label = "Books found: ")
        \/ (Py.contains "quotes" record = false
            /\ Py.contains "books" record = false
            /\ Py.contains "api_data" record = true
            /\ label = "API items: ")
        \/ (Py.contains "quotes" record = false
            /\ Py.contains "books" record = false
            /\ Py.contains "api_data" record = false
            /\ Py.contains "paragraphs" record = true
            /\ label = "Paragraphs found: "))
    /\ block
       = lines_text
           (map (fun line => line +++ PyStr.newline)
              ["Site: " +++ Py.str (Py.get record "title" (PStr "Unknown"));
               "URL: " +++ Py.str (Py.get record "url" (PStr "Unknown"));
               "Type: " +++ Py.str (Py.get record "type" (PStr "Unknown"));
               label +++ Py.str count;
               str_times "-" 30]).

(** The text standard output holds, empty when nothing was printed. *)
Definition printed (st : state) : string :=
  match Fs.read stdout (files st) with
  | Some text => text
  | None => EmptyString
  end.

(** [m] leaves every file as it is. *)
Definition keeps_files {A : Type} (m : M A) : Prop :=
  forall st, files (snd (m st)) = files st.

(** The heading [main] prints above the blocks of its summary. *)
Definition summary_heading : string :=
  lines_text
    (map (fun line => line +++ PyStr.newline)
       [PyStr.newline +++ str_times "=" 50;
        "SCRAPING SUMMARY";
        str_times "=" 50]).

(** A step from [st] to [st'] that only prints [text]. *)
Definition only_prints (text : string) (st st' : state) : Prop :=
  printed st' = printed st +++ text
  /\ same_files_but stdout (files st) (files st')
  /\ self st' = self st
  /\ draws st' = draws st
  /\ events st' = events st.

(** ** example_usage.py *)





Definition example_json_filename : string := "example_output.json".
Definition example_csv_filename : string := "example_summary.csv".

Definition example_basic_usage (W : world) : M (list dict) :=
  print_ "=== Basic Usage Example ===" ;;
  new_scraper (1, 2)%Q ;;
  print_ "Running all scrapers..." ;;
  data <- run_all_scrapers W ;;
  save_to_json example_json_filename ;;
  save_to_csv example_csv_filename ;;
  print_ ("Successfully scraped " +++ PyStr.of_Z (Py.len_Z data) +++ " sites") ;;
  ret data.



Definition quotes_page2_url : string := "http://quotes.toscrape.com/page/2/".
Definition users_url : string := "https://jsonplaceholder.typicode.com/users".

Definition example_custom_configuration (W : world) : M (list dict) :=
  print_ (PyStr.newline +++ "=== Custom Configuration Example ===") ;;
  new_scraper (2, 4)%Q ;;
  let custom_data := [] in
  quotes_page2 <- scrape_quotes_site W quotes_page2_url ;;
  custom_data <-
    (if Py.dict_truthy quotes_page2 then
       print_ ("Page 2 quotes: "
               +++ Py.str (Py.get quotes_page2 "total_quotes" (PInt 0))) ;;
       ret (custom_data ++ [quotes_page2])
     else ret custom_data) ;;
  api_data <- scrape_json_api W users_url ;;
  (if Py.dict_truthy api_data then
     print_ ("API users: " +++ Py.str (Py.get api_data "total_items" (PInt 0))) ;;
     ret (custom_data ++ [api_data])
   else ret custom_data).

(** The [if]/[elif] chain of [display_summary]. *)
Definition print_data (item : dict) : M unit :=
  if Py.contains "quotes" item then
    print_ ("Data: " +++ Py.str (Py.get item "total_quotes" (PInt 0))
            +++ " quotes found")
  else if Py.contains "books" item then
    print_ ("Data: " +++ Py.str (Py.get item "total_books" (PInt 0))
            +++ " books found")
  else if Py.contains "api_data" item then
    print_ ("Data: " +++ Py.str (Py.get item "total_items" (PInt 0))
            +++ " API items found")
  else if Py.contains "paragraphs" item then
    n <- lift (py_len (Py.get item "paragraphs" (PList []))) ;;
    print_ ("Data: " +++ PyStr.of_Z n +++ " paragraphs found")
  else ret tt.

Definition display_step (_ : unit) (item : dict) : M unit :=
  print_ ("Site: " +++ Py.str (Py.get item "title" (PStr "Unknown"))) ;;
  print_ ("URL: " +++ Py.str (Py.get item "url" (PStr "Unknown"))) ;;
  print_ ("Type: " +++ Py.str (Py.get item "type" (PStr "Unknown"))) ;;
  print_data item ;;
  print_ (str_times "-" 40).

Definition display_summary (data : list dict) : M unit :=
  print_ (PyStr.newline +++ "=== SCRAPING SUMMARY ===") ;;
  print_ (str_times "-" 40) ;;
  for_each display_step data tt.


(** A network on which a page scraper fails in no way but those it
    handles: a request raises nothing but request errors, and the parser
    accepts the markup of every response. *)
Definition serves_pages (W : world) : Prop :=
  forall url,
    match net W url with
    | GetRaises e => is_RequestException e = true
    | GetReturns r => exists soup, content_soup r = Ok soup
    end.

(** A network on which the API scraper fails in no way but those it
    handles: a request raises nothing but request errors, and
    [response.json()] raises nothing but the decode error. *)
Definition serves_json (W : world) : Prop :=
  forall url,
    match net W url with
    | GetRaises e => is_RequestException e = true
    | GetReturns r =>
        match content_json r with
        | Ok _ => True
        | Raise e => handled JsonApi e = true
        end
    end.

(** A quote entry, a catalog entry: dictionaries with their text fields. *)
Definition quote_shaped (q : pyval) : Prop :=
  exists text author tags,
    q = PDict [("text", PStr text); ("author", PStr author);
               ("tags", PList tags)].


(** What a scraper of quotes or of books returns when it does not raise:
    [{}], or a record whose list under [key] holds entries of shape
    [shaped]. *)
Definition well_shaped (key : string) (shaped : pyval -> Prop) (d : dict)
  : Prop :=
  d = [] \/ exists entries,
      Py.lookup key d = Some (PList entries) /\ Forall shaped entries.




(** ** Further sample states and networks *)

Module Cases.

(** A scraper whose two bounds are negative. *)
Definition below_zero : state := fresh_state (mkWebScraper (-2, -1)%Q []).

(** Every request is answered 404, with the quotes page as body. *)
Definition not_found_response : response :=
  mkResponse 404 "Not Found" default_quotes_url (Ok Sample.quotes_page)
             Sample.not_json.

Definition not_found : world :=
  mkWorld (fun url => GetReturns not_found_response)
          (fun n => 0%Z) Sample.glue.

(** Every request is answered 302, with the quotes page as body. *)
Definition moved_response : response :=
  mkResponse 302 "Found" default_quotes_url (Ok Sample.quotes_page)
             Sample.not_json.

Definition moved : world :=
  mkWorld (fun url => GetReturns moved_response)
          (fun n => 0%Z) Sample.glue.

(** Every request is answered 200, with markup the parser rejects. *)
Definition rejected_markup : exn :=
  mkExn ParserRejectedMarkup "AssertionError: expected name token".

Definition rejected_response : response :=
  mkResponse 200 "OK" default_quotes_url (Raise rejected_markup)
             Sample.not_json.

Definition rejecting : world :=
  mkWorld (fun url => GetReturns rejected_response)
          (fun n => 0%Z) Sample.glue.

(** Every request is answered 200, with a JSON body that holds a number of
    5000 digits. *)
Definition long_number : exn :=
  mkExn ValueError
    "Exceeds the limit (4300 digits) for integer string conversion: value has 5000 digits; use sys.set_int_max_str_digits() to increase the limit".

Definition long_number_response : response :=
  mkResponse 200 "OK" default_api_url
             (Ok (Sample.as_text (PyStr.of_Z (10 ^ 4999))))
             (Raise long_number).

Definition long_numbers : world :=
  mkWorld (fun url => GetReturns long_number_response)
          (fun n => 0%Z) Sample.glue.

(** The generic page with a second link, whose reference [urljoin]
    refuses. *)
Definition next_link : node :=
  Tag "a" [] [("href", "/next")] [Sample.text "next"].

Definition broken_link : node :=
  Tag "a" [] [("href", "http://[::1")] [Sample.text "broken"].

Definition broken_page : node :=
  Tag "[document]" [] []
      [Tag "html" [] []
           [Tag "body" [] [] [next_link; broken_link]]].

Definition broken_response : response :=
  Sample.ok_response default_news_url broken_page Sample.not_json.

Definition strict_join (base ref : string) : result string :=
  if String.eqb ref "http://[::1"
  then Raise (mkExn ValueError "Invalid IPv6 URL")
  else Sample.glue base ref.

Definition strict : world :=
  mkWorld (fun url => GetReturns broken_response)
          (fun n => 0%Z) strict_join.




(** The API answers with a list of two posts. *)
Definition two_posts : list pyval := [Sample.post 1; Sample.post 2].

Definition two_posts_response : response :=
  Sample.ok_response default_api_url
    (Sample.as_text (Json.dumps (PList two_posts))) (Ok (PList two_posts)).

Definition short_api : world :=
  mkWorld (fun url => GetReturns two_posts_response)
          (fun n => 0%Z) Sample.glue.

(** The states in which [main] and [example_basic_usage] leave the sample
    scraper on the sample network. *)
Definition after_main : state := snd (main Sample.all_up Sample.start).

Definition after_basic : state :=
  snd (example_basic_usage Sample.all_up Sample.start).

End Cases.

Create HintDb quiet.

(** ** Properties *)

Lemma errors_logged_emit (e : event) (st : state) :
  errors_logged (snd (emit e st))
  = errors_logged st + (if is_error_line e then 1 else 0).
Proof.
  unfold errors_logged, emit; simpl.
  rewrite filter_app, length_app; simpl.
  destruct (is_error_line e); reflexivity.
Qed.

Lemma bind_emit {B : Type} (e : event) (k : M B) (st : state) :
  (emit e ;; k) st = k (snd (emit e st)).
Proof. reflexivity. Qed.

Lemma quiet_ret {A : Type} (a : A) : quiet (ret a).
Proof. intro st; reflexivity. Qed.

Lemma quiet_raise {A : Type} (e : exn) : quiet (@raise A e).
Proof. intro st; reflexivity. Qed.

Lemma quiet_lift {A : Type} (r : result A) : quiet (lift r).
Proof. intro st; reflexivity. Qed.

Lemma quiet_bind {A B : Type} (m : M A) (k : A -> M B) :
  quiet m -> (forall a, quiet (k a)) -> quiet (bind m k).
Proof.
  intros Hm Hk st. unfold bind.
  specialize (Hm st). destruct (m st) as [[a | e] st']; simpl in *.
  - rewrite Hk. exact Hm.
  - exact Hm.
Qed.

Lemma quiet_emit (e : event) : is_error_line e = false -> quiet (emit e).
Proof.
  intros He st. rewrite errors_logged_emit, He. lia.
Qed.

Lemma quiet_for_each {A B : Type} (body : B -> A -> M B) (xs : list A) :
  (forall acc x, quiet (body acc x)) -> forall acc, quiet (for_each body xs acc).
Proof.
  intros Hbody. induction xs as [| x rest IH]; intro acc; simpl.
  - apply quiet_ret.
  - apply quiet_bind; [apply Hbody | intro; apply IH].
Qed.

#[local] Hint Resolve quiet_ret quiet_raise quiet_lift : quiet.

Lemma quiet_rate_limit (W : world) : quiet (_rate_limit W).
Proof.
  unfold _rate_limit. apply quiet_bind; [intro st; reflexivity |].
  intro me. apply quiet_bind.
  - unfold random_uniform. apply quiet_bind; [intro st; reflexivity |].
    intro; apply quiet_ret.
  - intro d. unfold time_sleep.
    destruct (negb (fits_clock d)); [apply quiet_raise |].
    destruct (Qle_bool 0 d).
    + apply quiet_emit; reflexivity.
    + apply quiet_raise.
Qed.

Lemma quiet_session_get (W : world) (url : string) : quiet (session_get W url).
Proof.
  unfold session_get. apply quiet_bind; [apply quiet_emit; reflexivity |].
  intros _. destruct (net W url); auto with quiet.
Qed.

Lemma quiet_raise_for_status (r : response) : quiet (raise_for_status r).
Proof.
  unfold raise_for_status.
  destruct (_ && _)%bool; [apply quiet_raise |].
  destruct (_ && _)%bool; auto with quiet.
Qed.

Lemma quiet_response_json (r : response) : quiet (response_json r).
Proof. unfold response_json. apply quiet_lift. Qed.

Lemma quiet_BeautifulSoup (r : response) : quiet (BeautifulSoup r).
Proof. unfold BeautifulSoup. apply quiet_lift. Qed.

Lemma _get_page_errors (W : world) (url : string) (st : state) :
  match _get_page W url st with
  | (Ok None, st') => errors_logged st' = S (errors_logged st)
  | (_, st') => errors_logged st' = errors_logged st
  end.
Proof.
  unfold _get_page, try_except.
  set (body := bind (_rate_limit W) _).
  assert (Hq : quiet body).
  { subst body. apply quiet_bind; [apply quiet_rate_limit | intros _].
    apply quiet_bind; [apply quiet_session_get | intro r].
    apply quiet_bind; [apply quiet_raise_for_status | intros _].
    apply quiet_bind; [apply quiet_BeautifulSoup | intros soup].
    apply quiet_ret. }
  specialize (Hq st).
  assert (Hsome : forall o st', body st = (Ok o, st') -> o <> None).
  { subst body. unfold bind. intros o st'.
    destruct (_rate_limit W st) as [[[] | e] s1]; [| discriminate].
    destruct (session_get W url s1) as [[r | e] s2]; [| discriminate].
    destruct (raise_for_status r s2) as [[[] | e] s3]; [| discriminate].
    destruct (BeautifulSoup r s3) as [[soup | e] s4]; [| discriminate].
    unfold ret. intros [= <- <-]. discriminate. }
  destruct (body st) as [[o | e] st'] eqn:Hb; simpl in Hq.
  - destruct o; [exact Hq | exfalso; eapply Hsome; eauto].
  - destruct (is_RequestException e); [| exact Hq].
    unfold logger_error. rewrite bind_emit. cbv [ret].
    rewrite errors_logged_emit. simpl. lia.
Qed.

(** The shape shared by the three page scrapers: announce, fetch, give
    [{}] back when there is no page, extract otherwise. *)
Lemma page_scraper_logs_own_failure (W : world) (url msg : string)
  (extract : node -> M dict) :
  (forall soup, quiet (extract soup)) ->
  (forall soup st d st', extract soup st = (Ok d, st') -> d <> []) ->
  logs_own_failure
    (logger_info msg ;;
     soup <- _get_page W url ;;
     match soup with
     | None => ret []
     | Some soup => extract soup
     end).
Proof.
  intros Hquiet Hrecord st.
  unfold logger_info. rewrite bind_emit.
  assert (H0 : errors_logged (snd (emit (Log INFO msg) st)) = errors_logged st)
    by (apply quiet_emit; reflexivity).
  set (s0 := snd (emit (Log INFO msg) st)) in *.
  unfold bind. pose proof (_get_page_errors W url s0) as Hp.
  destruct (_get_page W url s0) as [[[soup |] | e] s1].
  - specialize (Hquiet soup s1). specialize (Hrecord soup s1).
    destruct (extract soup s1) as [[d | e] s2]; simpl in Hquiet.
    + destruct d; [exfalso; eapply Hrecord; eauto | lia].
    + lia.
  - unfold ret. lia.
  - lia.
Qed.

Lemma quiet_links_step (W : world) (url : string) (links : list pyval)
  (link : node) : quiet (links_step W url links link).
Proof.
  unfold links_step.
  apply quiet_bind; [apply quiet_lift | intro].
  apply quiet_bind; [apply quiet_lift | intro].
  apply quiet_ret.
Qed.

Lemma scrape_news_site_logs_own_failure (W : world) (url : string) :
  logs_own_failure (scrape_news_site W url).
Proof.
  unfold scrape_news_site. apply page_scraper_logs_own_failure.
  - intro soup. apply quiet_bind; [| intro; apply quiet_ret].
    apply quiet_for_each. intros; apply quiet_links_step.
  - intros soup st d st'. unfold bind.
    destruct (for_each _ _ _ st) as [[links | e] s1]; [| discriminate].
    unfold ret. intros [= <- _]. discriminate.
Qed.

Lemma scrape_quotes_site_logs_own_failure (W : world) (url : string) :
  logs_own_failure (scrape_quotes_site W url).
Proof.
  unfold scrape_quotes_site. apply page_scraper_logs_own_failure.
  - intro soup. apply quiet_ret.
  - intros soup st d st'. unfold ret. intros [= <- _]. discriminate.
Qed.

Lemma scrape_books_site_logs_own_failure (W : world) (url : string) :
  logs_own_failure (scrape_books_site W url).
Proof.
  unfold scrape_books_site. apply page_scraper_logs_own_failure.
  - intro soup. apply quiet_ret.
  - intros soup st d st'. unfold ret. intros [= <- _]. discriminate.
Qed.

Lemma scrape_json_api_logs_own_failure (W : world) (url : string) :
  logs_own_failure (scrape_json_api W url).
Proof.
  intro st. unfold scrape_json_api, logger_info. rewrite bind_emit.
  assert (H0 : errors_logged (snd (emit (Log INFO ("Scraping JSON API: " +++ url)) st))
               = errors_logged st)
    by (apply quiet_emit; reflexivity).
  set (s0 := snd (emit _ st)) in *.
  unfold try_except.
  set (body := bind (_rate_limit W) _).
  assert (Hq : quiet body).
  { subst body. apply quiet_bind; [apply quiet_rate_limit | intros _].
    apply quiet_bind; [apply quiet_session_get | intro r].
    apply quiet_bind; [apply quiet_raise_for_status | intros _].
    apply quiet_bind; [apply quiet_response_json | intro].
    apply quiet_ret. }
  specialize (Hq s0).
  assert (Hrec : forall d st', body s0 = (Ok d, st') -> d <> []).
  { subst body. unfold bind. intros d st'.
    destruct (_rate_limit W s0) as [[[] | e] s1]; [| discriminate].
    destruct (session_get W url s1) as [[r | e] s2]; [| discriminate].
    destruct (raise_for_status r s2) as [[[] | e] s3]; [| discriminate].
    destruct (response_json r s3) as [[v | e] s4]; [| discriminate].
    unfold ret. intros [= <- _]. discriminate. }
  destruct (body s0) as [[d | e] s1] eqn:Hb; simpl in Hq.
  - destruct d; [exfalso; eapply Hrec; eauto | lia].
  - destruct (_ || _)%bool; [| lia].
    unfold logger_error. rewrite bind_emit. cbv [ret].
    rewrite errors_logged_emit. simpl. lia.
Qed.

(** One turn of the batch loop never raises; it stores the record of a
    scraper that succeeds and logs one ERROR line for one that fails. *)
Lemma run_scraper_turn (all_data : list dict) (scraper : string * M dict)
  (st : state) :
  logs_own_failure (snd scraper) ->
  exists all_data' st',
    run_scraper all_data scraper st = (Ok all_data', st')
    /\ List.length all_data' + (if failed (snd scraper st) then 1 else 0)
       = S (List.length all_data)
    /\ errors_logged st'
       = errors_logged st + (if failed (snd scraper st) then 1 else 0).
Proof.
  intro Hs. specialize (Hs st).
  unfold run_scraper, try_except, failed. unfold bind at 1.
  destruct (snd scraper st) as [[d | e] s1]; simpl fst.
  - destruct d as [| kv d]; cbn [Py.dict_truthy negb].
    + eexists _, _. split; [reflexivity |]. split; lia.
    + unfold logger_info. rewrite bind_emit. cbv [ret].
      eexists _, _. split; [reflexivity |].
      rewrite length_app, errors_logged_emit. simpl. split; lia.
  - unfold is_Exception, logger_error. rewrite bind_emit. cbv [ret].
    eexists _, _. split; [reflexivity |].
    rewrite errors_logged_emit. simpl. split; lia.
Qed.

Lemma batch_loop (l : list (string * M dict)) :
  Forall (fun scraper : string * M dict => logs_own_failure (snd scraper)) l ->
  forall all_data st,
    let report := batch_report l all_data st in
    exists all_data' st',
      for_each run_scraper l all_data st = (Ok all_data', st')
      /\ List.length report = List.length l
      /\ List.length all_data' + failures report
         = List.length all_data + List.length l
      /\ Forall logged_once report
      /\ errors_logged st' = errors_logged st + failures report.
Proof.
  induction 1 as [| scraper rest Hs _ IH]; intros all_data st; simpl.
  - eexists _, _. split; [reflexivity |]. unfold failures; simpl.
    repeat split; auto; lia.
  - destruct (run_scraper_turn all_data scraper st Hs)
      as (d1 & s1 & Hrun & Hlen & Herr).
    unfold bind at 1. rewrite Hrun; simpl fst; simpl snd.
    destruct (IH d1 s1) as (d2 & s2 & Hloop & Hrl & Hl2 & Hall & He2).
    exists d2, s2. split; [exact Hloop |].
    unfold failures in *; simpl.
    split; [lia |].
    destruct (failed (snd scraper st)); simpl.
    + repeat split; try lia. constructor; [unfold logged_once; simpl; lia | exact Hall].
    + repeat split; try lia. constructor; [unfold logged_once; simpl; lia | exact Hall].
Qed.

(** C1.  In every batch run, from any state and against any network,
    [run_all_scrapers] returns normally: no fetch or extraction error
    reaches its caller.  With k the number of the four sources whose scraper
    fails (raises, or gives [{}] after a failed fetch), the returned store,
    which is also what [self.scraped_data] then holds, has exactly 4 - k
    records; the turn of every failed source logs exactly one ERROR line
    and the turn of every other source logs none, so k ERROR lines are
    logged in all. *)
Theorem run_all_scrapers_isolates_failures (W : world) (st : state) :
  let report := batch_report (scrapers W) [] st in
  let k := failures report in
  List.length report = 4
  /\ exists all_data st',
       run_all_scrapers W st = (Ok all_data, st')
       /\ scraped_data (self st') = all_data
       /\ List.length all_data + k = 4
       /\ Forall logged_once report
       /\ errors_logged st' = errors_logged st + k.
Proof.
  intros report k.
  assert (Hall : Forall (fun scraper : string * M dict => logs_own_failure (snd scraper))
                        (scrapers W)).
  { unfold scrapers. repeat constructor; simpl.
    - apply scrape_news_site_logs_own_failure.
    - apply scrape_quotes_site_logs_own_failure.
    - apply scrape_books_site_logs_own_failure.
    - apply scrape_json_api_logs_own_failure. }
  destruct (batch_loop (scrapers W) Hall [] st)
    as (d & s1 & Hloop & Hrl & Hlen & Hrep & Herr).
  split; [exact Hrl |].
  unfold run_all_scrapers, bind. rewrite Hloop.
  unfold set_scraped_data, ret.
  eexists _, _. split; [reflexivity |]. simpl.
  repeat split; auto.
Qed.

(** *** Successful fetches *)

Lemma raise_for_status_passes (r : response) (st : state) :
  status_passes r = true -> raise_for_status r st = (Ok tt, st).
Proof.
  unfold status_passes, raise_for_status. intro H.
  destruct (Z.leb_spec 400 (status_code r)), (Z.ltb_spec (status_code r) 600),
    (Z.ltb_spec (status_code r) 500), (Z.leb_spec 500 (status_code r));
    simpl in *; try discriminate; try reflexivity; lia.
Qed.

Lemma time_sleep_accepts (d : Q) :
  can_sleep d = true -> time_sleep d = emit (Sleep d).
Proof.
  unfold can_sleep, time_sleep. intro H.
  apply andb_prop in H as [Hfit Hpos]. rewrite Hfit, Hpos. reflexivity.
Qed.

(** The common prefix of every fetch, when the fetch succeeds. *)
Lemma fetch_prefix {A : Type} (W : world) (url : string) (st : state)
  (r : response) (k : response -> M A) :
  fetch_succeeds W url st r ->
  (_rate_limit W ;;
   response <- session_get W url ;;
   raise_for_status response ;;
   k response) st
  = k r (after_fetch W url st).
Proof.
  intros (Hsleep & Hnet & Hstatus).
  unfold _rate_limit, get_self, random_uniform, random_random,
    session_get, bind, ret.
  fold (next_delay W st). rewrite (time_sleep_accepts _ Hsleep).
  unfold emit; simpl. rewrite Hnet.
  rewrite (raise_for_status_passes r _ Hstatus).
  reflexivity.
Qed.

Lemma fetch_succeeds_after_log (W : world) (url : string) (st : state)
  (r : response) (e : event) :
  fetch_succeeds W url st r -> fetch_succeeds W url (snd (emit e st)) r.
Proof. intro H; exact H. Qed.

Lemma _get_page_ok (W : world) (url : string) (st : state) (r : response)
  (soup : node) :
  fetch_succeeds W url st r ->
  content_soup r = Ok soup ->
  _get_page W url st = (Ok (Some soup), after_fetch W url st).
Proof.
  intros H Hsoup. unfold _get_page, try_except.
  rewrite (fetch_prefix W url st r _ H).
  unfold BeautifulSoup, lift, bind. rewrite Hsoup. reflexivity.
Qed.

Lemma scrape_quotes_site_ok (W : world) (url : string) (st : state)
  (r : response) (soup : node) :
  fetch_succeeds W url st r ->
  content_soup r = Ok soup ->
  exists title st',
    scrape_quotes_site W url st
    = (Ok [("url", PStr url);
           ("title", PStr title);
           ("quotes",
            PList (fold_left quotes_step (quote_containers soup) []));
           ("total_quotes",
            PInt (Py.len_Z
                    (fold_left quotes_step (quote_containers soup) [])));
           ("type", PStr "quotes_site")], st').
Proof.
  intros H Hsoup. unfold scrape_quotes_site, logger_info. rewrite bind_emit.
  unfold bind.
  rewrite (_get_page_ok W url _ r soup
             (fetch_succeeds_after_log W url st r _ H) Hsoup).
  unfold ret. eexists _, _. reflexivity.
Qed.

Lemma scrape_books_site_ok (W : world) (url : string) (st : state)
  (r : response) (soup : node) :
  fetch_succeeds W url st r ->
  content_soup r = Ok soup ->
  exists title st',
    scrape_books_site W url st
    = (Ok [("url", PStr url);
           ("title", PStr title);
           ("books",
            PList (fold_left books_step (product_containers soup) []));
           ("total_books",
            PInt (Py.len_Z
                    (fold_left books_step (product_containers soup) [])));
           ("type", PStr "books_site")], st').
Proof.
  intros H Hsoup. unfold scrape_books_site, logger_info. rewrite bind_emit.
  unfold bind.
  rewrite (_get_page_ok W url _ r soup
             (fetch_succeeds_after_log W url st r _ H) Hsoup).
  unfold ret. eexists _, _. reflexivity.
Qed.

(** *** Searching below a tag *)

Lemma hd_error_filter_none {A : Type} (p : A -> bool) (l : list A) :
  hd_error (filter p l) = None <-> existsb p l = false.
Proof.
  induction l as [| x l IH]; simpl.
  - tauto.
  - destruct (p x); simpl; [split; discriminate | exact IH].
Qed.

Lemma find_none_iff (name cls : string) (c : node) :
  Soup.find name (Soup.has_class cls) c = None <-> has_node name cls c = false.
Proof. unfold Soup.find, Soup.find_all, has_node. apply hd_error_filter_none. Qed.

Lemma find_some_iff (name cls : string) (c : node) :
  (exists x, Soup.find name (Soup.has_class cls) c = Some x)
  <-> has_node name cls c = true.
Proof.
  split.
  - intros [x Hx]. destruct (has_node name cls c) eqn:E; [reflexivity |].
    apply find_none_iff in E. congruence.
  - intro E. destruct (Soup.find name (Soup.has_class cls) c) eqn:F; eauto.
    apply find_none_iff in F. congruence.
Qed.

(** *** The quote loop *)

Lemma quotes_step_well_formed (quotes : list pyval) (c : node) :
  well_formed_quote c = true ->
  exists q, entry_of_quote c q /\ quotes_step quotes c = quotes ++ [q].
Proof.
  unfold well_formed_quote. intro H. apply andb_prop in H as [Ht Ha].
  apply find_some_iff in Ht as [t Ht]. apply find_some_iff in Ha as [a Ha].
  unfold quotes_step. rewrite Ht, Ha.
  eexists. split; [| reflexivity].
  exists t, a. auto.
Qed.

Lemma quotes_step_incomplete (quotes : list pyval) (c : node) :
  well_formed_quote c = false -> quotes_step quotes c = quotes.
Proof.
  unfold well_formed_quote, quotes_step. intro H.
  apply andb_false_iff in H as [H | H]; apply find_none_iff in H; rewrite H.
  - reflexivity.
  - destruct (Soup.find "span" _ c); reflexivity.
Qed.

Lemma quotes_loop (cs : list node) :
  forall quotes,
  exists emitted,
    fold_left quotes_step cs quotes = quotes ++ emitted
    /\ Forall2 entry_of_quote (filter well_formed_quote cs) emitted.
Proof.
  induction cs as [| c cs IH]; intro quotes; simpl.
  - exists []. rewrite app_nil_r. auto.
  - destruct (well_formed_quote c) eqn:Hc.
    + destruct (quotes_step_well_formed quotes c Hc) as (q & Hq & Hstep).
      rewrite Hstep. destruct (IH (quotes ++ [q])) as (em & Hfold & Hall).
      exists (q :: em). rewrite Hfold, <- app_assoc. simpl. auto.
    + rewrite (quotes_step_incomplete quotes c Hc). apply IH.
Qed.

(** C5.  When the page is fetched and parsed, the quote extractor returns a
    record and raises nothing.  Its [quotes] list holds, in document order, exactly
    one entry for each quote container that has both a text node and an
    author node; a container that lacks either leaves no entry; and
    [total_quotes] is the number of entries.  In particular a page whose
    containers are three well-formed ones and one without an author gives
    three entries and [total_quotes] 3. *)
Theorem quote_extractor_skips_incomplete (W : world) (url : string)
  (st : state) (r : response) (soup : node) :
  fetch_succeeds W url st r ->
  content_soup r = Ok soup ->
  let complete := filter well_formed_quote (quote_containers soup) in
  exists record st' quotes,
    scrape_quotes_site W url st = (Ok record, st')
    /\ Py.lookup "quotes" record = Some (PList quotes)
    /\ Forall2 entry_of_quote complete quotes
    /\ Py.lookup "total_quotes" record = Some (PInt (Py.len_Z quotes))
    /\ List.length quotes = List.length complete
    /\ (List.length complete = 3 ->
        List.length quotes = 3
        /\ Py.lookup "total_quotes" record = Some (PInt 3)).
Proof.
  intros H Hsoup complete.
  destruct (scrape_quotes_site_ok W url st r soup H Hsoup)
    as (title & st' & Hrun).
  destruct (quotes_loop (quote_containers soup) [])
    as (emitted & Hfold & Hall).
  simpl in Hfold. rewrite Hfold in Hrun.
  eexists _, st', emitted. split; [exact Hrun |].
  assert (Hlen : List.length emitted = List.length complete)
    by (symmetry; eapply Forall2_length; exact Hall).
  repeat split; auto.
  - lia.
  - simpl. unfold Py.len_Z. replace (List.length emitted) with 3 by lia.
    reflexivity.
Qed.

Lemma quotes_loop_keeps (cs : list node) (quotes : list pyval) (q : pyval) :
  In q quotes -> In q (fold_left quotes_step cs quotes).
Proof.
  intro Hq. destruct (quotes_loop cs quotes) as (emitted & Hfold & _).
  rewrite Hfold. apply in_or_app. left; exact Hq.
Qed.

Lemma quotes_loop_emits (cs : list node) (c t a : node) :
  In c cs ->
  Soup.find "span" (Soup.has_class "text") c = Some t ->
  Soup.find "small" (Soup.has_class "author") c = Some a ->
  Soup.find_all ["a"] (Soup.has_class "tag") c = [] ->
  forall quotes,
    In (PDict [("text", PStr (PyStr.strip (Soup.get_text t)));
               ("author", PStr (PyStr.strip (Soup.get_text a)));
               ("tags", PList [])])
       (fold_left quotes_step cs quotes).
Proof.
  intros Hin Ht Ha Htags.
  induction cs as [| c' cs IH]; [contradiction |].
  intro quotes. simpl. destruct Hin as [-> | Hin].
  - apply quotes_loop_keeps. unfold quotes_step. rewrite Ht, Ha, Htags.
    apply in_or_app. right. left. reflexivity.
  - apply IH. exact Hin.
Qed.

(** C10.  When the page is fetched and parsed, every quote container that has a text
    node and an author node but no tag element has its entry in the [quotes]
    list of the returned record, with [tags] the empty list: having no tags
    never makes the extractor skip a container. *)
Theorem quote_without_tags_is_emitted (W : world) (url : string) (st : state)
  (r : response) (soup c t a : node) :
  fetch_succeeds W url st r ->
  content_soup r = Ok soup ->
  In c (quote_containers soup) ->
  Soup.find "span" (Soup.has_class "text") c = Some t ->
  Soup.find "small" (Soup.has_class "author") c = Some a ->
  Soup.find_all ["a"] (Soup.has_class "tag") c = [] ->
  exists record st' quotes,
    scrape_quotes_site W url st = (Ok record, st')
    /\ Py.lookup "quotes" record = Some (PList quotes)
    /\ In (PDict [("text", PStr (PyStr.strip (Soup.get_text t)));
                  ("author", PStr (PyStr.strip (Soup.get_text a)));
                  ("tags", PList [])]) quotes.
Proof.
  intros H Hsoup Hin Ht Ha Htags.
  destruct (scrape_quotes_site_ok W url st r soup H Hsoup)
    as (title & st' & Hrun).
  eexists _, st', _. split; [exact Hrun |]. split; [reflexivity |].
  apply (quotes_loop_emits _ c t a); assumption.
Qed.

(** *** The product loop *)

Lemma in_vocabulary_iff (cls : string) :
  PyStr.mem cls rating_vocabulary = true <-> star_word cls.
Proof.
  unfold PyStr.mem, rating_vocabulary, star_word. cbn [existsb].
  rewrite !orb_true_iff, !String.eqb_eq. intuition discriminate.
Qed.

Lemma outside_vocabulary (cls : string) :
  no_star_word cls -> PyStr.mem cls rating_vocabulary = false.
Proof.
  intro H. destruct (PyStr.mem cls rating_vocabulary) eqn:E; [| reflexivity].
  apply in_vocabulary_iff in E. contradiction.
Qed.

Lemma rating_scan_first (rating : string) (before : list string)
  (cls : string) (after : list string) :
  Forall no_star_word before ->
  star_word cls ->
  rating_scan rating (before ++ cls :: after) = cls.
Proof.
  intros Hbefore Hcls. apply in_vocabulary_iff in Hcls.
  induction Hbefore as [| x before Hx _ IH]; cbn [rating_scan app].
  - rewrite Hcls. reflexivity.
  - rewrite (outside_vocabulary x Hx). exact IH.
Qed.

Lemma rating_scan_none (rating : string) (classes : list string) :
  Forall no_star_word classes -> rating_scan rating classes = rating.
Proof.
  induction 1 as [| x classes Hx _ IH]; cbn [rating_scan].
  - reflexivity.
  - rewrite (outside_vocabulary x Hx). exact IH.
Qed.

Lemma books_step_emitted (books : list pyval) (c : node) :
  book_emitted c = true ->
  exists b, rating_and_availability c b /\ books_step books c = books ++ [b].
Proof.
  unfold book_emitted, books_step. intro H.
  destruct (match Soup.find "h3" Soup.any c with
            | Some h3 => Soup.find "a" Soup.any h3
            | None => None
            end) as [title_elem |]; [| discriminate].
  destruct (Soup.find "p" (Soup.has_class "price_color") c) as [price_elem |];
    [| discriminate].
  eexists. split; [| reflexivity].
  eexists. split; [reflexivity |].
  fold (rating_element c). fold (availability_element c).
  repeat split.
  - intros name classes attrs contents before cls after Hre Hcl Hbefore Hcls.
    rewrite Hre. cbn [Soup.get_class].
    rewrite Hcl, (rating_scan_first _ _ _ _ Hbefore Hcls). reflexivity.
  - intros name classes attrs contents Hre Hnone.
    rewrite Hre. cbn [Soup.get_class].
    rewrite (rating_scan_none _ _ Hnone). reflexivity.
  - intro Hre. rewrite Hre. reflexivity.
  - intro Hav. rewrite Hav. reflexivity.
Qed.

Lemma books_step_skipped (books : list pyval) (c : node) :
  book_emitted c = false -> books_step books c = books.
Proof.
  unfold book_emitted, books_step. intro H.
  destruct (match Soup.find "h3" Soup.any c with
            | Some h3 => Soup.find "a" Soup.any h3
            | None => None
            end) as [title_elem |]; [| reflexivity].
  destruct (Soup.find "p" (Soup.has_class "price_color") c) as [price_elem |];
    [discriminate | reflexivity].
Qed.

Lemma books_loop (cs : list node) :
  forall books,
  exists emitted,
    fold_left books_step cs books = books ++ emitted
    /\ Forall2 rating_and_availability (filter book_emitted cs) emitted.
Proof.
  induction cs as [| c cs IH]; intro books; simpl.
  - exists []. rewrite app_nil_r. auto.
  - destruct (book_emitted c) eqn:Hc.
    + destruct (books_step_emitted books c Hc) as (b & Hb & Hstep).
      rewrite Hstep. destruct (IH (books ++ [b])) as (em & Hfold & Hall).
      exists (b :: em). rewrite Hfold, <- app_assoc. simpl. auto.
    + rewrite (books_step_skipped books c Hc). apply IH.
Qed.

(** C6.  When the page is fetched and parsed, the catalog extractor returns
    a record whose [books] list has one entry for each emitted product
    container, in document order, and in every such entry: [rating] is the
    first of the class tokens of the rating element (the first [p] of class
    star-rating) that is one of the words One, Two, Three, Four, Five; it
    is "Unknown" when no class token of the rating element is one of them
    and when the container has no rating element; and [availability] is
    "Unknown" when the container has no availability element. *)
Theorem catalog_rating_and_availability (W : world) (url : string)
  (st : state) (r : response) (soup : node) :
  fetch_succeeds W url st r ->
  content_soup r = Ok soup ->
  exists record st' books,
    scrape_books_site W url st = (Ok record, st')
    /\ Py.lookup "books" record = Some (PList books)
    /\ Forall2 rating_and_availability
         (filter book_emitted (product_containers soup)) books.
Proof.
  intros H Hsoup.
  destruct (scrape_books_site_ok W url st r soup H Hsoup)
    as (title & st' & Hrun).
  destruct (books_loop (product_containers soup) [])
    as (emitted & Hfold & Hall).
  simpl in Hfold. rewrite Hfold in Hrun.
  eexists _, st', emitted. split; [exact Hrun |].
  split; [reflexivity | exact Hall].
Qed.

(** *** The JSON API extractor *)

Lemma scrape_json_api_ok (W : world) (url : string) (st : state)
  (r : response) (data : pyval) :
  fetch_succeeds W url st r ->
  content_json r = Ok data ->
  exists st',
    scrape_json_api W url st
    = (Ok [("url", PStr url);
           ("title", PStr "JSON API Data");
           ("api_data", limit_posts data);
           ("total_items", PInt (total_items_of (limit_posts data)));
           ("type", PStr "json_api")], st').
Proof.
  intros H Hjson. unfold scrape_json_api, logger_info. rewrite bind_emit.
  unfold try_except.
  rewrite (fetch_prefix W url _ r _ (fetch_succeeds_after_log W url st r _ H)).
  unfold response_json, lift. rewrite Hjson. unfold bind, ret.
  eexists. reflexivity.
Qed.

(** C4 (as the code has it).  When the endpoint is fetched and
    [response.json()] decodes its body, the JSON-API extractor returns a
    record.  If the top-level value is a list, [api_data] is its first 10
    elements (the whole list when it is shorter) and [total_items] is the
    length of that truncated list, so a list of 15 elements gives 10
    elements and [total_items] 10.  If the top-level value is anything
    else, such as a single object, the record holds it under [api_data] as
    it is, not wrapped in a list, and [total_items] is 1. *)
Theorem json_api_truncates_to_ten (W : world) (url : string) (st : state)
  (r : response) (data : pyval) :
  fetch_succeeds W url st r ->
  content_json r = Ok data ->
  exists record st',
    scrape_json_api W url st = (Ok record, st')
    /\ (forall items,
          data = PList items ->
          Py.lookup "api_data" record = Some (PList (firstn 10 items))
          /\ Py.lookup "total_items" record
             = Some (PInt (Z.of_nat (List.length (firstn 10 items))))
          /\ List.length (firstn 10 items) = Nat.min 10 (List.length items)
          /\ (List.length items = 15 ->
              List.length (firstn 10 items) = 10
              /\ Py.lookup "total_items" record = Some (PInt 10)))
    /\ ((forall items, data <> PList items) ->
        Py.lookup "api_data" record = Some data
        /\ Py.lookup "total_items" record = Some (PInt 1)
        /\ ~ single_object_wrapped record data).
Proof.
  intros H Hjson.
  destruct (scrape_json_api_ok W url st r data H Hjson) as (st' & Hrun).
  eexists _, st'. split; [exact Hrun |]. split.
  - intros items ->.
    pose proof (length_firstn 10 items) as Hlen.
    split; [reflexivity |]. split; [reflexivity |]. split; [exact Hlen |].
    intro H15. split; [lia |].
    change (Some (PInt (Py.len_Z (firstn 10 items))) = Some (PInt 10)).
    unfold Py.len_Z. replace (List.length (firstn 10 items)) with 10 by lia.
    reflexivity.
  - intro Hother.
    assert (Hsame : limit_posts data = data)
      by (destruct data; try reflexivity; exfalso; eapply Hother; reflexivity).
    assert (Hone : total_items_of data = 1%Z)
      by (destruct data; try reflexivity; exfalso; eapply Hother; reflexivity).
    cbn [Py.lookup String.eqb Ascii.eqb Bool.eqb]. rewrite Hsame, Hone.
    split; [reflexivity |]. split; [reflexivity |].
    intros [Hwrapped _]. cbn [Py.lookup String.eqb Ascii.eqb Bool.eqb] in Hwrapped.
    injection Hwrapped as Hwrapped.
    eapply Hother. exact Hwrapped.
Qed.

(** *** What a scraper can return *)

Lemma page_scraper_result (W : world) (url msg : string)
  (extract : node -> M dict) (st : state) (d : dict) (st' : state) :
  (logger_info msg ;;
   soup <- _get_page W url ;;
   match soup with
   | None => ret []
   | Some soup => extract soup
   end) st = (Ok d, st') ->
  d = [] \/ exists soup s1, extract soup s1 = (Ok d, st').
Proof.
  unfold logger_info. rewrite bind_emit. unfold bind.
  destruct (_get_page W url _) as [[[soup |] | e] s1]; intro H.
  - right. eauto.
  - left. unfold ret in H. congruence.
  - discriminate.
Qed.

Lemma scrape_news_site_result (W : world) (url : string) (st : state)
  (d : dict) (st' : state) :
  scrape_news_site W url st = (Ok d, st') -> d = [] \/ is_record d.
Proof.
  intro H. apply page_scraper_result in H as [-> | (soup & s1 & H)]; auto.
  right. unfold bind in H.
  destruct (for_each _ _ _ s1) as [[links | e] s2]; [| discriminate].
  unfold ret in H. injection H as <- _.
  apply news_record.
Qed.

Lemma scrape_quotes_site_result (W : world) (url : string) (st : state)
  (d : dict) (st' : state) :
  scrape_quotes_site W url st = (Ok d, st') -> d = [] \/ is_record d.
Proof.
  intro H. apply page_scraper_result in H as [-> | (soup & s1 & H)]; auto.
  right. unfold ret in H. injection H as <- _. apply quotes_record.
Qed.

Lemma scrape_books_site_result (W : world) (url : string) (st : state)
  (d : dict) (st' : state) :
  scrape_books_site W url st = (Ok d, st') -> d = [] \/ is_record d.
Proof.
  intro H. apply page_scraper_result in H as [-> | (soup & s1 & H)]; auto.
  right. unfold ret in H. injection H as <- _. apply books_record.
Qed.

Lemma scrape_json_api_result (W : world) (url : string) (st : state)
  (d : dict) (st' : state) :
  scrape_json_api W url st = (Ok d, st') -> d = [] \/ is_record d.
Proof.
  unfold scrape_json_api, logger_info. rewrite bind_emit.
  unfold try_except, bind.
  destruct (_rate_limit W _) as [[[] | e] s1].
  - destruct (session_get W url s1) as [[r | e] s2].
    + destruct (raise_for_status r s2) as [[[] | e] s3].
      * destruct (response_json r s3) as [[v | e] s4].
        -- unfold ret. intros [= <- _]. right. apply api_record.
        -- destruct (_ || _)%bool; [| discriminate].
           unfold logger_error, emit, ret. intros [= <- _]. auto.
      * destruct (_ || _)%bool; [| discriminate].
        unfold logger_error, emit, ret. intros [= <- _]. auto.
    + destruct (_ || _)%bool; [| discriminate].
      unfold logger_error, emit, ret. intros [= <- _]. auto.
  - destruct (_ || _)%bool; [| discriminate].
    unfold logger_error, emit, ret. intros [= <- _]. auto.
Qed.

Lemma run_extractor_result (W : world) (kind : extractor_kind)
  (url : string) (st : state) (d : dict) (st' : state) :
  run_extractor W kind url st = (Ok d, st') -> d = [] \/ is_record d.
Proof.
  destruct kind; simpl.
  - apply scrape_news_site_result.
  - apply scrape_quotes_site_result.
  - apply scrape_books_site_result.
  - apply scrape_json_api_result.
Qed.

(** The record of each extractor variant, field by field. *)
Lemma run_extractor_shape (W : world) (kind : extractor_kind)
  (url : string) (st : state) (record : dict) (st' : state) :
  run_extractor W kind url st = (Ok record, st') ->
  record <> [] ->
  match kind with
  | GenericDocument =>
      exists title headings paragraphs links,
        record = [("url", PStr url);
                  ("title", PStr title);
                  ("headings", PList headings);
                  ("paragraphs", PList paragraphs);
                  ("links", PList links);
                  ("type", PStr "news_site")]
  | QuoteList =>
      exists title quotes,
        record = [("url", PStr url);
                  ("title", PStr title);
                  ("quotes", PList quotes);
                  ("total_quotes", PInt (Py.len_Z quotes));
                  ("type", PStr "quotes_site")]
  | Catalog =>
      exists title books,
        record = [("url", PStr url);
                  ("title", PStr title);
                  ("books", PList books);
                  ("total_books", PInt (Py.len_Z books));
                  ("type", PStr "books_site")]
  | JsonApi =>
      exists data,
        record = [("url", PStr url);
                  ("title", PStr "JSON API Data");
                  ("api_data", limit_posts data);
                  ("total_items", PInt (total_items_of (limit_posts data)));
                  ("type", PStr "json_api")]
  end.
Proof.
  destruct kind; cbn [run_extractor]; intros H Hne.
  - apply page_scraper_result in H as [-> | (soup & s1 & H)];
      [contradiction |].
    unfold bind in H.
    destruct (for_each _ _ _ s1) as [[links | e] s2]; [| discriminate].
    unfold ret in H. injection H as <- _. eauto.
  - apply page_scraper_result in H as [-> | (soup & s1 & H)];
      [contradiction |].
    unfold ret in H. injection H as <- _. eauto.
  - apply page_scraper_result in H as [-> | (soup & s1 & H)];
      [contradiction |].
    unfold ret in H. injection H as <- _. eauto.
  - revert H. unfold scrape_json_api, logger_info. rewrite bind_emit.
    unfold try_except, bind.
    destruct (_rate_limit W _) as [[[] | e] s1].
    + destruct (session_get W url s1) as [[r | e] s2].
      * destruct (raise_for_status r s2) as [[[] | e] s3].
        -- destruct (response_json r s3) as [[v | e] s4].
           ++ unfold ret. intros [= <- _]. eauto.
           ++ destruct (_ || _)%bool; [| discriminate].
              unfold logger_error, emit, ret. intros [= <- _]. contradiction.
        -- destruct (_ || _)%bool; [| discriminate].
           unfold logger_error, emit, ret. intros [= <- _]. contradiction.
      * destruct (_ || _)%bool; [| discriminate].
        unfold logger_error, emit, ret. intros [= <- _]. contradiction.
    + destruct (_ || _)%bool; [| discriminate].
      unfold logger_error, emit, ret. intros [= <- _]. contradiction.
Qed.

(** C2.  Every record returned by an extractor variant, for any network,
    URL and state, holds the collection of its variant and beside it a
    count equal to the number of elements of that collection: the record of
    the quote extractor holds [quotes] and [total_quotes], the length of
    [quotes]; the record of the catalog extractor holds [books] and
    [total_books], the length of [books]; the record of the JSON-API
    extractor holds [api_data] and [total_items], the length of [api_data]
    when that is a list (it is the truncated list) and 1 when it is
    anything else, such as a single object.  The record of the generic
    extractor stores no count under any of the three keys. *)
Theorem record_count_matches_collection (W : world) (kind : extractor_kind)
  (url : string) (st : state) (record : dict) (st' : state) :
  run_extractor W kind url st = (Ok record, st') ->
  record <> [] ->
  counts_its_collection kind record.
Proof.
  intros H Hne. pose proof (run_extractor_shape W kind url st record st' H Hne)
    as Hshape.
  destruct kind; cbn [counts_its_collection].
  - destruct Hshape as (title & headings & paragraphs & links & ->).
    repeat split; reflexivity.
  - destruct Hshape as (title & quotes & ->).
    exists quotes. split; reflexivity.
  - destruct Hshape as (title & books & ->).
    exists books. split; reflexivity.
  - destruct Hshape as (data & ->).
    exists (limit_posts data). split; reflexivity.
Qed.

(** *** Files and text *)

Lemma append_assoc (a b c : string) : (a +++ b) +++ c = a +++ (b +++ c).
Proof. induction a as [| x a IH]; simpl; [reflexivity | now rewrite IH]. Qed.

Lemma append_empty_r (a : string) : a +++ EmptyString = a.
Proof. induction a as [| x a IH]; simpl; [reflexivity | now rewrite IH]. Qed.

Lemma read_put (name text : string) (fs : list (string * string)) :
  Fs.read name (Fs.put name text fs) = Some text.
Proof.
  induction fs as [| [n t] fs IH]; simpl.
  - rewrite String.eqb_refl. reflexivity.
  - destruct (String.eqb name n) eqn:E; simpl; rewrite E; auto.
Qed.

Lemma f_write_appends (name text old : string) (st : state) :
  Fs.read name (files st) = Some old ->
  exists st',
    f_write name text st = (Ok tt, st')
    /\ Fs.read name (files st') = Some (old +++ text).
Proof.
  intro H. unfold f_write. rewrite H. eexists. split; [reflexivity |].
  simpl. apply read_put.
Qed.

(** *** The CSV summary *)

Lemma items_count_of_record (record : dict) :
  is_record record ->
  exists count,
    items_count_of record = ret count /\ count_cell_source record count.
Proof.
  destruct 1; eexists; (split; [reflexivity |]);
    unfold count_cell_source; simpl;
    (split; [| split; [| split]]);
    try (intro; discriminate); try (intro; reflexivity);
    try (intros ps Htype; discriminate Htype).
  intros ps _ [= <-]. split; reflexivity.
Qed.

Lemma csv_loop (filename : string) (store : list dict) :
  Forall is_record store ->
  forall st old,
    Fs.read filename (files st) = Some old ->
    exists st' rows,
      for_each (csv_step filename) store tt st = (Ok tt, st')
      /\ Fs.read filename (files st')
         = Some (old +++ lines_text (map Csv.row_line rows))
      /\ Forall2 summary_row_of store rows.
Proof.
  induction 1 as [| record store Hrec _ IH]; intros st old Hold; simpl.
  - exists st, []. simpl. rewrite append_empty_r. auto.
  - destruct (items_count_of_record record Hrec) as (count & Hcount & Hsrc).
    unfold csv_step at 1. rewrite Hcount. unfold bind at 1 2, ret at 1.
    unfold writerow.
    destruct (f_write_appends filename
                (Csv.row_line [Py.get record "url" (PStr EmptyString);
                               Py.get record "title" (PStr EmptyString);
                               Py.get record "type" (PStr EmptyString);
                               count]) old st Hold)
      as (s1 & Hw & Hread).
    rewrite Hw.
    destruct (IH s1 _ Hread) as (s2 & rows & Hloop & Hread2 & Hrows).
    exists s2, ([Py.get record "url" (PStr EmptyString);
                 Py.get record "title" (PStr EmptyString);
                 Py.get record "type" (PStr EmptyString);
                 count] :: rows).
    split; [exact Hloop |]. split.
    + rewrite Hread2. simpl. rewrite append_assoc. reflexivity.
    + constructor; [| exact Hrows]. exists count. auto.
Qed.

(** C3 (as the code has it).  For every non-empty store of records built
    by the scrapers, [save_to_csv] writes the header row
    [URL,Title,Type,Items Count] followed by exactly one row per record, in
    store order.  The last cell of the row of a quotes, books or JSON-API
    record is the [total_quotes], [total_books] or [total_items] value
    stored in that record, the record [save_to_json] serialises from the
    same store; a generic-document record stores no count, and the last
    cell of its row is the number of its paragraphs, taken when the row is
    written. *)
Theorem csv_summary_layout (csv_name json_name : string) (st : state) :
  scraped_data (self st) <> [] ->
  Forall is_record (scraped_data (self st)) ->
  exists st' rows,
    save_to_csv csv_name st = (Ok tt, st')
    /\ Fs.read csv_name (files st')
       = Some ("URL,Title,Type,Items Count" +++ PyStr.crlf
               +++ lines_text (map Csv.row_line rows))
    /\ Forall2 summary_row_of (scraped_data (self st)) rows
    /\ exists st'',
         save_to_json json_name st = (Ok tt, st'')
         /\ Fs.read json_name (files st'')
            = Some (Json.dumps (PList (map PDict (scraped_data (self st))))).
Proof.
  intros Hne Hall.
  unfold save_to_csv, get_self. unfold bind at 1.
  destruct (scraped_data (self st)) as [| record store] eqn:Hstore;
    [contradiction |].
  unfold open_w. unfold bind at 1.
  set (s1 := mkState _ _ _ _).
  assert (H1 : Fs.read csv_name (files s1) = Some EmptyString)
    by (apply read_put).
  unfold writerow at 1.
  destruct (f_write_appends csv_name (Csv.row_line csv_header) _ s1 H1)
    as (s2 & Hw & H2).
  unfold bind at 1. rewrite Hw.
  destruct (csv_loop csv_name (record :: store) Hall s2 _ H2)
    as (s3 & rows & Hloop & H3 & Hrows).
  unfold bind at 1. rewrite Hloop.
  unfold logger_info, emit.
  eexists _, rows. split; [reflexivity |]. split; [| split].
  - simpl files. rewrite H3. reflexivity.
  - exact Hrows.
  - unfold save_to_json, get_self, open_w, f_write, logger_info, emit, bind.
    simpl. eexists. split; [reflexivity |]. simpl.
    rewrite read_put. simpl. rewrite read_put, Hstore. reflexivity.
Qed.

(** C7 (as the code has it).  Exporting an empty store raises nothing.
    [save_to_csv] then logs the warning "No data to save" and returns
    without opening the file, so the files stay as they were and no CSV
    document is produced; [save_to_json] writes the document []. *)
Theorem empty_store_exports (csv_name json_name : string) (st : state) :
  scraped_data (self st) = [] ->
  (exists st',
      save_to_csv csv_name st = (Ok tt, st')
      /\ files st' = files st
      /\ events st' = events st ++ [Log WARNING "No data to save"])
  /\ (exists st'',
        save_to_json json_name st = (Ok tt, st'')
        /\ Fs.read json_name (files st'') = Some "[]").
Proof.
  intro Hempty. split.
  - unfold save_to_csv, get_self. unfold bind at 1. rewrite Hempty.
    unfold logger_warning, emit. eexists. split; [reflexivity |].
    simpl. auto.
  - unfold save_to_json, get_self, open_w, f_write, logger_info, emit, bind.
    simpl. eexists. split; [reflexivity |]. simpl.
    rewrite read_put. simpl. rewrite read_put, Hempty. reflexivity.
Qed.

(** *** Failed fetches *)

Lemma fetch_prefix_raises {A : Type} (W : world) (url : string) (st : state)
  (e : exn) (st1 : state) (k : response -> M A) :
  fetch_attempt W url st = (Raise e, st1) ->
  (_rate_limit W ;;
   response <- session_get W url ;;
   raise_for_status response ;;
   k response) st
  = (Raise e, st1).
Proof.
  unfold fetch_attempt, bind.
  destruct (_rate_limit W st) as [[[] | e0] s1]; [| intros [= -> ->]; reflexivity].
  destruct (session_get W url s1) as [[r | e1] s2]; [| intros [= -> ->]; reflexivity].
  destruct (raise_for_status r s2) as [[[] | e2] s3]; [| intros [= -> ->]; reflexivity].
  unfold ret. discriminate.
Qed.

Lemma quiet_fetch_attempt (W : world) (url : string) :
  quiet (fetch_attempt W url).
Proof.
  unfold fetch_attempt.
  apply quiet_bind; [apply quiet_rate_limit | intros _].
  apply quiet_bind; [apply quiet_session_get | intro r].
  apply quiet_bind; [apply quiet_raise_for_status | intros _].
  apply quiet_ret.
Qed.

(** Lines logged before a fetch do not change how it ends. *)
Lemma fetch_attempt_after_log (W : world) (url : string) (st : state)
  (ev : event) :
  fst (fetch_attempt W url (snd (emit ev st))) = fst (fetch_attempt W url st).
Proof.
  unfold fetch_attempt, _rate_limit, get_self, random_uniform, random_random,
    time_sleep, session_get, raise_for_status, emit, raise, bind, ret.
  simpl. destruct (negb (fits_clock _)); [reflexivity |].
  destruct (Qle_bool 0 _); [| reflexivity]. simpl.
  destruct (net W url) as [e | r]; [reflexivity |].
  destruct (_ && _)%bool; [reflexivity |].
  destruct (_ && _)%bool; reflexivity.
Qed.

Lemma fetch_attempt_raises_after_log (W : world) (url : string) (st : state)
  (e : exn) (st1 : state) (ev : event) :
  fetch_attempt W url st = (Raise e, st1) ->
  is_error_line ev = false ->
  exists st1',
    fetch_attempt W url (snd (emit ev st)) = (Raise e, st1')
    /\ errors_logged st1' = errors_logged st.
Proof.
  intros H Hev.
  pose proof (fetch_attempt_after_log W url st ev) as Hfst.
  pose proof (quiet_fetch_attempt W url (snd (emit ev st))) as Hq.
  rewrite H in Hfst.
  destruct (fetch_attempt W url (snd (emit ev st))) as [res s1'].
  cbn [fst snd] in Hfst, Hq. subst res. exists s1'. split; [reflexivity |].
  rewrite Hq. apply quiet_emit. exact Hev.
Qed.

Lemma page_scraper_failed_fetch (W : world) (url msg : string)
  (extract : node -> M dict) (st : state) (e : exn) (st1 : state) :
  fetch_attempt W url st = (Raise e, st1) ->
  if is_RequestException e
  then exists st',
      (logger_info msg ;;
       soup <- _get_page W url ;;
       match soup with
       | None => ret []
       | Some soup => extract soup
       end) st = (Ok [], st')
      /\ errors_logged st' = S (errors_logged st)
  else exists st',
      (logger_info msg ;;
       soup <- _get_page W url ;;
       match soup with
       | None => ret []
       | Some soup => extract soup
       end) st = (Raise e, st')
      /\ errors_logged st' = errors_logged st.
Proof.
  intro H.
  destruct (fetch_attempt_raises_after_log W url st e st1 (Log INFO msg) H
              eq_refl) as (s1 & Hf & Herr).
  destruct (is_RequestException e) eqn:He;
    unfold logger_info; rewrite bind_emit; unfold bind at 1;
    unfold _get_page, try_except;
    rewrite (fetch_prefix_raises W url _ e s1 _ Hf), He.
  - unfold logger_error. rewrite bind_emit. cbv [ret].
    eexists. split; [reflexivity |].
    rewrite errors_logged_emit. simpl. lia.
  - eexists. split; [reflexivity | exact Herr].
Qed.

Lemma scrape_json_api_failed_fetch (W : world) (url : string) (st : state)
  (e : exn) (st1 : state) :
  fetch_attempt W url st = (Raise e, st1) ->
  if handled JsonApi e
  then exists st',
      scrape_json_api W url st = (Ok [], st')
      /\ errors_logged st' = S (errors_logged st)
  else exists st',
      scrape_json_api W url st = (Raise e, st')
      /\ errors_logged st' = errors_logged st.
Proof.
  intro H.
  destruct (fetch_attempt_raises_after_log W url st e st1
              (Log INFO ("Scraping JSON API: " +++ url)) H eq_refl)
    as (s1 & Hf & Herr).
  unfold scrape_json_api, logger_info. rewrite bind_emit.
  unfold try_except.
  rewrite (fetch_prefix_raises W url _ e s1 _ Hf).
  cbn [handled]. destruct (is_RequestException e || is_JSONDecodeError e).
  - unfold logger_error. rewrite bind_emit. cbv [ret].
    eexists. split; [reflexivity |].
    rewrite errors_logged_emit. simpl. lia.
  - eexists. split; [reflexivity | exact Herr].
Qed.

Lemma bind_lift_raise {A B : Type} (e : exn) (k : A -> M B) (st : state) :
  (x <- lift (Raise e) ;; k x) st = (Raise e, st).
Proof. reflexivity. Qed.

Lemma bind_lift_ok {A B : Type} (a : A) (k : A -> M B) (st : state) :
  (x <- lift (Ok a) ;; k x) st = k a st.
Proof. reflexivity. Qed.

Lemma errors_after_fetch (W : world) (url : string) (st : state) :
  errors_logged (after_fetch W url st) = errors_logged st.
Proof.
  unfold errors_logged, after_fetch. cbn [events].
  rewrite !filter_app. cbn [filter is_error_line]. rewrite !app_nil_r.
  reflexivity.
Qed.

Lemma errors_after_announcement (W : world) (url msg : string) (st : state) :
  errors_logged (after_fetch W url (snd (emit (Log INFO msg) st)))
  = errors_logged st.
Proof.
  rewrite errors_after_fetch. apply quiet_emit. reflexivity.
Qed.

(** Markup the parser rejects: the exception is raised inside [_get_page],
    whose handler catches request errors only. *)
Lemma page_scraper_rejected_markup (W : world) (url msg : string)
  (extract : node -> M dict) (st : state) (r : response) (e : exn) :
  fetch_succeeds W url st r ->
  content_soup r = Raise e ->
  if is_RequestException e
  then exists st',
      (logger_info msg ;;
       soup <- _get_page W url ;;
       match soup with
       | None => ret []
       | Some soup => extract soup
       end) st = (Ok [], st')
      /\ errors_logged st' = S (errors_logged st)
  else exists st',
      (logger_info msg ;;
       soup <- _get_page W url ;;
       match soup with
       | None => ret []
       | Some soup => extract soup
       end) st = (Raise e, st')
      /\ errors_logged st' = errors_logged st.
Proof.
  intros H Hsoup.
  pose proof (errors_after_announcement W url msg st) as Herr.
  destruct (is_RequestException e) eqn:He;
    unfold logger_info; rewrite bind_emit; unfold bind at 1;
    unfold _get_page, try_except;
    rewrite (fetch_prefix W url _ r _ (fetch_succeeds_after_log W url st r _ H));
    unfold BeautifulSoup; rewrite Hsoup, bind_lift_raise, He.
  - unfold logger_error. rewrite bind_emit. cbv [ret].
    eexists. split; [reflexivity |].
    rewrite errors_logged_emit, Herr. simpl. lia.
  - eexists. split; [reflexivity | exact Herr].
Qed.

(** A body [response.json()] refuses: the decode error is handled like a
    failed fetch, any other exception reaches the caller. *)
Lemma scrape_json_api_refused_body (W : world) (url : string) (st : state)
  (r : response) (e : exn) :
  fetch_succeeds W url st r ->
  content_json r = Raise e ->
  if handled JsonApi e
  then exists st',
      scrape_json_api W url st = (Ok [], st')
      /\ errors_logged st' = S (errors_logged st)
  else exists st',
      scrape_json_api W url st = (Raise e, st')
      /\ errors_logged st' = errors_logged st.
Proof.
  intros H Hjson.
  pose proof (errors_after_announcement W url ("Scraping JSON API: " +++ url)
                st) as Herr.
  unfold scrape_json_api, logger_info. rewrite bind_emit.
  unfold try_except.
  rewrite (fetch_prefix W url _ r _ (fetch_succeeds_after_log W url st r _ H)).
  unfold response_json. rewrite Hjson, bind_lift_raise.
  cbn [handled]. destruct (is_RequestException e || is_JSONDecodeError e).
  - unfold logger_error. rewrite bind_emit. cbv [ret].
    eexists. split; [reflexivity |].
    rewrite errors_logged_emit, Herr. simpl. lia.
  - eexists. split; [reflexivity | exact Herr].
Qed.

Lemma links_loop_raises (W : world) (url : string) (before : list node)
  (link : node) (after : list node) (e : exn) :
  Forall (fun link => exists full, resolves_to W url link full) before ->
  fails_to_resolve W url link e ->
  forall acc st,
    for_each (links_step W url) (before ++ link :: after) acc st
    = (Raise e, st).
Proof.
  intros Hbefore (href & Hhref & Hjoin).
  induction Hbefore as [| l before (full & h & Hh & Hj) _ IH];
    intros acc st; simpl.
  - unfold bind at 1. unfold links_step at 1.
    unfold bind, lift. rewrite Hhref, Hjoin. reflexivity.
  - unfold bind at 1. unfold links_step at 1.
    unfold bind, lift, ret. rewrite Hh, Hj. apply IH.
Qed.

(** A link [urljoin] cannot resolve: the loop over the links stands outside
    every handler of the scraper. *)
Lemma scrape_news_site_unresolvable (W : world) (url : string)
  (st : state) (r : response) (soup : node) (before : list node)
  (link : node) (after : list node) (e : exn) :
  fetch_succeeds W url st r ->
  content_soup r = Ok soup ->
  anchors soup = before ++ link :: after ->
  Forall (fun l => exists full, resolves_to W url l full) before ->
  fails_to_resolve W url link e ->
  exists st',
    scrape_news_site W url st = (Raise e, st')
    /\ errors_logged st' = errors_logged st.
Proof.
  intros H Hsoup Hanchors Hbefore Hfail.
  pose proof (errors_after_announcement W url ("Scraping news site: " +++ url)
                st) as Herr.
  unfold scrape_news_site, logger_info. rewrite bind_emit.
  unfold bind at 1.
  rewrite (_get_page_ok W url _ r soup
             (fetch_succeeds_after_log W url st r _ H) Hsoup).
  fold (anchors soup). rewrite Hanchors.
  unfold bind at 1.
  rewrite (links_loop_raises W url before link after e Hbefore Hfail).
  eexists. split; [reflexivity | exact Herr].
Qed.

(** C8 (as the code has it).  A single-source scraper ends on a failure in
    one of two ways, and in neither does it hand its caller the kind of the
    error as a value.  An exception it catches itself, that is a request
    error of the fetch whatever its kind (connection, timeout, HTTP
    status) and, for the JSON-API scraper, the decode error of a body that
    is not JSON, makes it log one ERROR line and return the empty
    dictionary.  Any other exception reaches the caller as it is, with no
    ERROR line logged: from the fetch, such as a refused sleep; from the
    extraction, when the parser rejects the markup of a page, when
    [response.json()] refuses a body for another reason than its syntax,
    and when [urljoin] cannot resolve a link of the generic page. *)
Theorem failed_fetch_returns_empty_dict (W : world) (kind : extractor_kind)
  (url : string) (st : state) :
  (forall e st1,
      fetch_attempt W url st = (Raise e, st1) ->
      ends_on_failure W kind url st e)
  /\ (forall r e,
        fetch_succeeds W url st r ->
        content_soup r = Raise e ->
        kind <> JsonApi ->
        ends_on_failure W kind url st e)
  /\ (forall r e,
        fetch_succeeds W url st r ->
        content_json r = Raise e ->
        kind = JsonApi ->
        ends_on_failure W kind url st e)
  /\ (forall r soup before link after e,
        fetch_succeeds W url st r ->
        content_soup r = Ok soup ->
        anchors soup = before ++ link :: after ->
        Forall (fun l => exists full, resolves_to W url l full) before ->
        fails_to_resolve W url link e ->
        kind = GenericDocument ->
        exists st',
          run_extractor W kind url st = (Raise e, st')
          /\ errors_logged st' = errors_logged st).
Proof.
  split; [| split; [| split]].
  - intros e st1 H. unfold ends_on_failure. destruct kind; cbn [handled run_extractor].
    + apply (page_scraper_failed_fetch W url _ _ st e st1 H).
    + apply (page_scraper_failed_fetch W url _ _ st e st1 H).
    + apply (page_scraper_failed_fetch W url _ _ st e st1 H).
    + apply (scrape_json_api_failed_fetch W url st e st1 H).
  - intros r e H Hsoup Hkind. unfold ends_on_failure.
    destruct kind; cbn [handled run_extractor]; [| | | contradiction].
    + apply (page_scraper_rejected_markup W url _ _ st r e H Hsoup).
    + apply (page_scraper_rejected_markup W url _ _ st r e H Hsoup).
    + apply (page_scraper_rejected_markup W url _ _ st r e H Hsoup).
  - intros r e H Hjson ->. unfold ends_on_failure. cbn [run_extractor].
    apply (scrape_json_api_refused_body W url st r e H Hjson).
  - intros r soup before link after e H Hsoup Hanchors Hbefore Hfail ->.
    cbn [run_extractor].
    apply (scrape_news_site_unresolvable W url st r soup before link after e);
      assumption.
Qed.

(** *** What a run sends and sleeps *)


Lemma offline_raise {A : Type} (e : exn) : offline (@raise A e).
Proof. intro st; simpl; auto. Qed.





Lemma next_delay_same (W : world) (st st' : state) :
  delay_range (self st') = delay_range (self st) ->
  draws st' = draws st ->
  next_delay W st' = next_delay W st.
Proof. unfold next_delay. intros -> ->. reflexivity. Qed.









Lemma run_scraper_returns (all_data : list dict) (scraper : string * M dict)
  (st : state) :
  exists all_data' st', run_scraper all_data scraper st = (Ok all_data', st').
Proof.
  unfold run_scraper, try_except, bind.
  destruct (snd scraper st) as [[d | e] s1].
  - destruct (Py.dict_truthy d); unfold logger_info, emit, ret; eauto.
  - unfold is_Exception, logger_error, emit, ret. eauto.
Qed.

(** *** Delays drawn from an inverted range *)

Lemma random_in_unit (z : Z) :
  (0 <= Qmake (z mod Zpos two53) two53 /\ Qmake (z mod Zpos two53) two53 <= 1)%Q.
Proof.
  pose proof (Z.mod_pos_bound z (Zpos two53) eq_refl) as [Hlo Hhi].
  unfold Qle; simpl. split; lia.
Qed.


Lemma can_sleep_within (d hi : Q) :
  (0 <= d)%Q -> (d <= hi)%Q -> (hi <= longest_sleep)%Q -> can_sleep d = true.
Proof.
  intros H0 Hd Hhi. unfold can_sleep, fits_clock.
  assert (Hlo : Qle_bool (inject_Z (- two63)) (nanoseconds d) = true).
  { apply Qle_bool_iff. unfold nanoseconds.
    change (inject_Z (- two63)) with (-9223372036854775808 # 1)%Q.
    unfold inject_Z. lra. }
  assert (Hup : Qle_bool (inject_Z two63) (nanoseconds d) = false).
  { destruct (Qle_bool (inject_Z two63) (nanoseconds d)) eqn:E;
      [| reflexivity].
    apply Qle_bool_iff in E. unfold nanoseconds, longest_sleep in *.
    change (inject_Z two63) with (9223372036854775808 # 1)%Q in E.
    unfold inject_Z in *. lra. }
  rewrite Hlo, Hup. cbn [negb andb]. apply Qle_bool_iff. exact H0.
Qed.




(** *** The store a run leaves *)

Lemma run_scraper_keeps_records (all_data : list dict)
  (scraper : string * M dict) (st : state) (all_data' : list dict)
  (st' : state) :
  returns_records (snd scraper) ->
  Forall is_record all_data ->
  run_scraper all_data scraper st = (Ok all_data', st') ->
  Forall is_record all_data'.
Proof.
  intros Hs Hall. unfold run_scraper, try_except. unfold bind at 1.
  specialize (Hs st).
  destruct (snd scraper st) as [[d | e] s1].
  - destruct (Hs d s1 eq_refl) as [-> | Hd].
    + cbn [Py.dict_truthy]. unfold ret. intros [= <- _]. exact Hall.
    + destruct d as [| kv d]; cbn [Py.dict_truthy].
      * unfold ret. intros [= <- _]. exact Hall.
      * unfold logger_info. rewrite bind_emit. unfold ret.
        intros [= <- _]. apply Forall_app. split; [exact Hall |].
        constructor; [exact Hd | constructor].
  - unfold is_Exception, logger_error. rewrite bind_emit. unfold ret.
    intros [= <- _]. exact Hall.
Qed.

Lemma batch_keeps_records (l : list (string * M dict)) :
  Forall (fun scraper : string * M dict => returns_records (snd scraper)) l ->
  forall all_data st all_data' st',
    Forall is_record all_data ->
    for_each run_scraper l all_data st = (Ok all_data', st') ->
    Forall is_record all_data'.
Proof.
  induction 1 as [| scraper l Hs _ IH]; intros all_data st all_data' st' Hall;
    simpl.
  - unfold ret. intros [= <- _]. exact Hall.
  - unfold bind.
    destruct (run_scraper all_data scraper st) as [[d1 | e] s1] eqn:Hrun;
      [| discriminate].
    apply IH. eapply run_scraper_keeps_records; eauto.
Qed.

Lemma run_all_scrapers_stores_records (W : world) (st : state)
  (all_data : list dict) (st' : state) :
  run_all_scrapers W st = (Ok all_data, st') ->
  Forall is_record all_data /\ scraped_data (self st') = all_data.
Proof.
  unfold run_all_scrapers. unfold bind at 1.
  destruct (for_each run_scraper (scrapers W) [] st) as [[d | e] s1] eqn:Hloop;
    [| discriminate].
  unfold set_scraped_data, bind, ret. intros [= <- <-]. split; [| reflexivity].
  eapply (batch_keeps_records (scrapers W)); [| constructor | exact Hloop].
  unfold scrapers.
  apply Forall_cons; [| apply Forall_cons; [| apply Forall_cons;
    [| apply Forall_cons; [| apply Forall_nil]]]]; cbn [snd];
    intros s0 d0 s0'.
  - apply scrape_news_site_result.
  - apply scrape_quotes_site_result.
  - apply scrape_books_site_result.
  - apply scrape_json_api_result.
Qed.

(** ** Concrete runs *)

Lemma sample_fetch_succeeds_quotes :
  fetch_succeeds Sample.all_up default_quotes_url Sample.start
                 Sample.quotes_response.
Proof. repeat split; vm_compute; reflexivity. Defined.

Lemma sample_fetch_succeeds_books :
  fetch_succeeds Sample.all_up default_books_url Sample.start
                 Sample.books_response.
Proof. repeat split; vm_compute; reflexivity. Defined.

Lemma sample_fetch_succeeds_posts :
  fetch_succeeds Sample.all_up default_api_url Sample.start
                 Sample.posts_response.
Proof. repeat split; vm_compute; reflexivity. Defined.

Lemma sample_fetch_succeeds_object :
  fetch_succeeds Sample.object_api default_api_url Sample.start
                 Sample.object_response.
Proof. repeat split; vm_compute; reflexivity. Defined.

Lemma sample_fetch_succeeds_news :
  fetch_succeeds Sample.all_up default_news_url Sample.start
                 Sample.news_response.
Proof. repeat split; vm_compute; reflexivity. Defined.

Lemma sample_no_star_word : no_star_word "star-rating".
Proof.
  intros [H | [H | [H | [H | H]]]]; discriminate H.
Defined.

(** The sample page of three well-formed containers and one without an
    author gives three quotes and [total_quotes] 3. *)
Lemma quote_extractor_skips_incomplete_witness :
  fetch_succeeds Sample.all_up default_quotes_url Sample.start
                 Sample.quotes_response
  /\ content_soup Sample.quotes_response = Ok Sample.quotes_page
  /\ List.length (quote_containers Sample.quotes_page) = 4
  /\ exists record st' quotes,
       scrape_quotes_site Sample.all_up default_quotes_url Sample.start
       = (Ok record, st')
       /\ Py.lookup "quotes" record = Some (PList quotes)
       /\ List.length quotes = 3
       /\ Py.lookup "total_quotes" record = Some (PInt 3).
Proof.
  split; [exact sample_fetch_succeeds_quotes |].
  split; [reflexivity |].
  split; [vm_compute; reflexivity |].
  destruct (quote_extractor_skips_incomplete
              Sample.all_up default_quotes_url Sample.start
              Sample.quotes_response Sample.quotes_page
              sample_fetch_succeeds_quotes eq_refl)
    as (record & st' & quotes & Hrun & Hq & _ & _ & _ & H3).
  exists record, st', quotes.
  split; [exact Hrun |]. split; [exact Hq |].
  apply H3. vm_compute. reflexivity.
Defined.

(** The sample container without tags is emitted with an empty tag list. *)
Lemma quote_without_tags_is_emitted_witness :
  In Sample.untagged (quote_containers Sample.quotes_page)
  /\ Soup.find_all ["a"] (Soup.has_class "tag") Sample.untagged = []
  /\ exists record st' quotes,
       scrape_quotes_site Sample.all_up default_quotes_url Sample.start
       = (Ok record, st')
       /\ Py.lookup "quotes" record = Some (PList quotes)
       /\ In (PDict [("text", PStr "Less is more.");
                     ("author", PStr "Mies");
                     ("tags", PList [])]) quotes.
Proof.
  assert (Hin : In Sample.untagged (quote_containers Sample.quotes_page))
    by (vm_compute; auto 10).
  assert (Htags : Soup.find_all ["a"] (Soup.has_class "tag") Sample.untagged
                  = [])
    by (vm_compute; reflexivity).
  split; [exact Hin |]. split; [exact Htags |].
  exact (quote_without_tags_is_emitted
           Sample.all_up default_quotes_url Sample.start
           Sample.quotes_response Sample.quotes_page Sample.untagged
           (Tag "span" ["text"] [] [Sample.text "Less is more."])
           (Tag "small" ["author"] [] [Sample.text "Mies"])
           sample_fetch_succeeds_quotes eq_refl Hin eq_refl eq_refl Htags).
Defined.

(** The sample catalog: the rating element of the first product has the
    classes star-rating and Three, and the product is rated "Three"; that
    of the second has star-rating and Six, and the product is rated
    "Unknown"; the third has neither a rating element nor an availability
    element, and both fields are "Unknown". *)
Lemma catalog_rating_and_availability_witness :
  fetch_succeeds Sample.all_up default_books_url Sample.start
                 Sample.books_response
  /\ content_soup Sample.books_response = Ok Sample.books_page
  /\ exists record st' d1 d2 d3,
       scrape_books_site Sample.all_up default_books_url Sample.start
       = (Ok record, st')
       /\ Py.lookup "books" record
          = Some (PList [PDict d1; PDict d2; PDict d3])
       /\ Py.lookup "rating" d1 = Some (PStr "Three")
       /\ Py.lookup "rating" d2 = Some (PStr "Unknown")
       /\ Py.lookup "rating" d3 = Some (PStr "Unknown")
       /\ Py.lookup "availability" d3 = Some (PStr "Unknown").
Proof.
  split; [exact sample_fetch_succeeds_books |]. split; [reflexivity |].
  destruct (catalog_rating_and_availability
              Sample.all_up default_books_url Sample.start
              Sample.books_response Sample.books_page
              sample_fetch_succeeds_books eq_refl)
    as (record & st' & books & Hrun & Hbooks & Hall).
  assert (Hemitted : filter book_emitted
                       (product_containers Sample.books_page)
                     = [Sample.three_stars; Sample.odd_stars; Sample.bare])
    by (vm_compute; reflexivity).
  rewrite Hemitted in Hall.
  inversion Hall as [| c1 b1 cs1 bs1 H1 Hall1]; subst.
  inversion Hall1 as [| c2 b2 cs2 bs2 H2 Hall2]; subst.
  inversion Hall2 as [| c3 b3 cs3 bs3 H3 Hall3]; subst.
  inversion Hall3; subst.
  destruct H1 as (d1 & -> & Hfirst & _ & _ & _).
  destruct H2 as (d2 & -> & _ & Hnone & _ & _).
  destruct H3 as (d3 & -> & _ & _ & Habsent & Havailability).
  exists record, st', d1, d2, d3.
  split; [exact Hrun |]. split; [exact Hbooks |].
  split; [| split; [| split]].
  - apply (Hfirst "p" ["star-rating"; "Three"] [] [] ["star-rating"]
                  "Three" []).
    + vm_compute. reflexivity.
    + reflexivity.
    + apply Forall_cons; [exact sample_no_star_word | apply Forall_nil].
    + right. right. left. reflexivity.
  - apply (Hnone "p" ["star-rating"; "Six"] [] []).
    + vm_compute. reflexivity.
    + apply Forall_cons; [exact sample_no_star_word |].
      apply Forall_cons; [| apply Forall_nil].
      intros [H | [H | [H | [H | H]]]]; discriminate H.
  - apply Habsent. vm_compute. reflexivity.
  - apply Havailability. vm_compute. reflexivity.
Defined.

(** Fifteen posts give ten items and [total_items] 10; a single object is
    stored as it is, with [total_items] 1. *)
Lemma json_api_truncates_to_ten_witness :
  fetch_succeeds Sample.all_up default_api_url Sample.start
                 Sample.posts_response
  /\ content_json Sample.posts_response = Ok Sample.fifteen_posts
  /\ (exists record st' payload,
         scrape_json_api Sample.all_up default_api_url Sample.start
         = (Ok record, st')
         /\ Py.lookup "api_data" record = Some (PList payload)
         /\ List.length payload = 10
         /\ Py.lookup "total_items" record = Some (PInt 10))
  /\ (exists record st',
         scrape_json_api Sample.object_api default_api_url Sample.start
         = (Ok record, st')
         /\ Py.lookup "api_data" record = Some Sample.one_object
         /\ Py.lookup "total_items" record = Some (PInt 1)).
Proof.
  split; [exact sample_fetch_succeeds_posts |]. split; [reflexivity |].
  split.
  - destruct (json_api_truncates_to_ten
                Sample.all_up default_api_url Sample.start
                Sample.posts_response Sample.fifteen_posts
                sample_fetch_succeeds_posts eq_refl)
      as (record & st' & Hrun & Hlist & _).
    destruct (Hlist _ eq_refl) as (Hdata & _ & _ & H15).
    destruct (H15 eq_refl) as (Hlen & Htotal).
    eexists record, st', _.
    split; [exact Hrun |]. split; [exact Hdata |]. split; [exact Hlen |].
    exact Htotal.
  - destruct (json_api_truncates_to_ten
                Sample.object_api default_api_url Sample.start
                Sample.object_response Sample.one_object
                sample_fetch_succeeds_object eq_refl)
      as (record & st' & Hrun & _ & Hother).
    assert (Hobject : forall items, Sample.one_object <> PList items)
      by (intros items Heq; discriminate Heq).
    destruct (Hother Hobject) as (Hdata & Htotal & _).
    exists record, st'. auto.
Defined.

(** The record of the sample quotes page holds a list of three quotes and
    [total_quotes] 3. *)
Lemma record_count_matches_collection_witness :
  exists record st' quotes,
    run_extractor Sample.all_up QuoteList default_quotes_url Sample.start
    = (Ok record, st')
    /\ record <> []
    /\ Py.lookup "quotes" record = Some (PList quotes)
    /\ List.length quotes = 3
    /\ Py.lookup "total_quotes" record = Some (PInt 3).
Proof.
  destruct (run_extractor Sample.all_up QuoteList default_quotes_url
              Sample.start) as [[record | e] st'] eqn:Hrun;
    [| vm_compute in Hrun; discriminate Hrun].
  assert (Hne : record <> [])
    by (intros ->; vm_compute in Hrun; discriminate Hrun).
  destruct (record_count_matches_collection
              Sample.all_up QuoteList default_quotes_url Sample.start
              record st' Hrun Hne) as (quotes & Hquotes & Htotal).
  assert (Hlen : List.length quotes = 3).
  { vm_compute in Hrun. injection Hrun as Hrecord _. subst record.
    vm_compute in Hquotes. injection Hquotes as Hq. subst quotes.
    reflexivity. }
  exists record, st', quotes.
  split; [reflexivity |]. split; [exact Hne |]. split; [exact Hquotes |].
  split; [exact Hlen |].
  rewrite Htotal, Hlen. reflexivity.
Defined.

(** The store left by a run in which every source answers is summarised
    row by row. *)
Lemma csv_summary_layout_witness :
  let st := snd (run_all_scrapers Sample.all_up Sample.start) in
  List.length (scraped_data (self st)) = 4
  /\ exists st' rows,
       save_to_csv default_csv_filename st = (Ok tt, st')
       /\ Fs.read default_csv_filename (files st')
          = Some ("URL,Title,Type,Items Count" +++ PyStr.crlf
                  +++ lines_text (map Csv.row_line rows))
       /\ Forall2 summary_row_of (scraped_data (self st)) rows.
Proof.
  intro st.
  assert (Hne : scraped_data (self st) <> [])
    by (vm_compute; discriminate).
  assert (Hrec : Forall is_record (scraped_data (self st))).
  { destruct (run_all_scrapers Sample.all_up Sample.start)
      as [[all_data | e] s1] eqn:Hrun; [| vm_compute in Hrun; discriminate].
    destruct (run_all_scrapers_stores_records _ _ _ _ Hrun) as [Hall Hstore].
    subst st. cbn [snd]. rewrite Hstore. exact Hall. }
  split; [vm_compute; reflexivity |].
  destruct (csv_summary_layout default_csv_filename default_json_filename
              st Hne Hrec)
    as (st' & rows & Hrun & Hread & Hrows & _).
  exists st', rows. auto.
Defined.

(** A scraper that has not run exports an empty store. *)
Lemma empty_store_exports_witness :
  scraped_data (self Sample.start) = []
  /\ (exists st',
         save_to_csv default_csv_filename Sample.start = (Ok tt, st')
         /\ files st' = files Sample.start
         /\ events st'
            = events Sample.start ++ [Log WARNING "No data to save"])
  /\ (exists st'',
         save_to_json default_json_filename Sample.start = (Ok tt, st'')
         /\ Fs.read default_json_filename (files st'') = Some "[]").
Proof.
  split; [reflexivity |].
  exact (empty_store_exports default_csv_filename default_json_filename
           Sample.start eq_refl).
Defined.

(** A timeout leaves the caller of the quotes scraper with [{}], and so
    does a body that is not JSON the caller of the API scraper; markup the
    parser rejects, a number [response.json()] refuses and a link
    [urljoin] cannot resolve reach the caller as exceptions. *)
Lemma failed_fetch_returns_empty_dict_witness :
  (exists st',
      scrape_quotes_site Sample.all_time_out default_quotes_url Sample.start
      = (Ok [], st')
      /\ errors_logged st' = 1)
  /\ (exists st',
        scrape_quotes_site Cases.rejecting default_quotes_url Sample.start
        = (Raise Cases.rejected_markup, st')
        /\ errors_logged st' = 0)
  /\ (exists st',
        scrape_json_api Sample.all_up default_news_url Sample.start
        = (Ok [], st')
        /\ errors_logged st' = 1)
  /\ (exists st',
        scrape_json_api Cases.long_numbers default_api_url Sample.start
        = (Raise Cases.long_number, st')
        /\ errors_logged st' = 0)
  /\ (exists st',
        scrape_news_site Cases.strict default_news_url Sample.start
        = (Raise (mkExn ValueError "Invalid IPv6 URL"), st')
        /\ errors_logged st' = 0).
Proof.
  split; [| split; [| split; [| split]]].
  - destruct (failed_fetch_returns_empty_dict
                Sample.all_time_out QuoteList default_quotes_url Sample.start)
      as (Hfetch & _).
    exact (Hfetch (mkExn Timeout "Read timed out.")
             (snd (fetch_attempt Sample.all_time_out default_quotes_url
                                 Sample.start))
             eq_refl).
  - destruct (failed_fetch_returns_empty_dict
                Cases.rejecting QuoteList default_quotes_url Sample.start)
      as (_ & Hmarkup & _).
    assert (Hfetch : fetch_succeeds Cases.rejecting default_quotes_url
                       Sample.start Cases.rejected_response)
      by (repeat split; vm_compute; reflexivity).
    assert (Hkind : QuoteList <> JsonApi) by discriminate.
    exact (Hmarkup Cases.rejected_response Cases.rejected_markup Hfetch
             eq_refl Hkind).
  - destruct (failed_fetch_returns_empty_dict
                Sample.all_up JsonApi default_news_url Sample.start)
      as (_ & _ & Hjson & _).
    exact (Hjson Sample.news_response
             (mkExn JSONDecodeError
                    "Expecting value: line 1 column 1 (char 0)")
             sample_fetch_succeeds_news eq_refl eq_refl).
  - destruct (failed_fetch_returns_empty_dict
                Cases.long_numbers JsonApi default_api_url Sample.start)
      as (_ & _ & Hjson & _).
    assert (Hfetch : fetch_succeeds Cases.long_numbers default_api_url
                       Sample.start Cases.long_number_response)
      by (repeat split; vm_compute; reflexivity).
    exact (Hjson Cases.long_number_response Cases.long_number Hfetch
             eq_refl eq_refl).
  - destruct (failed_fetch_returns_empty_dict
                Cases.strict GenericDocument default_news_url Sample.start)
      as (_ & _ & _ & Hjoin).
    assert (Hfetch : fetch_succeeds Cases.strict default_news_url
                       Sample.start Cases.broken_response)
      by (repeat split; vm_compute; reflexivity).
    assert (Hanchors : anchors Cases.broken_page
                       = [Cases.next_link] ++ Cases.broken_link :: [])
      by (vm_compute; reflexivity).
    assert (Hbefore : Forall (fun l =>
                                exists full,
                                  resolves_to Cases.strict default_news_url
                                              l full)
                             [Cases.next_link]).
    { apply Forall_cons; [| apply Forall_nil].
      exists "https://httpbin.org/next", "/next".
      split; vm_compute; reflexivity. }
    assert (Hfails : fails_to_resolve Cases.strict default_news_url
                       Cases.broken_link
                       (mkExn ValueError "Invalid IPv6 URL"))
      by (exists "http://[::1"; split; vm_compute; reflexivity).
    exact (Hjoin Cases.broken_response Cases.broken_page [Cases.next_link]
             Cases.broken_link [] _ Hfetch eq_refl Hanchors Hbefore Hfails
             eq_refl).
Defined.


(** ** Where the code differs from the specification *)

(** C3, counterexample.  The run in which only the generic page answers
    leaves a store of one record.  Its summary is written, but not as
    specified: the header row reads [Items Count], and the record stores no
    count for the last cell to be taken from. *)
Lemma csv_summary_not_as_specified :
  let st := snd (run_all_scrapers Sample.only_news Sample.start) in
  exists st' text,
    save_to_csv default_csv_filename st = (Ok tt, st')
    /\ Fs.read default_csv_filename (files st') = Some text
    /\ text = "URL,Title,Type,Items Count" +++ PyStr.crlf
              +++ "https://httpbin.org/html,Herman Melville,news_site,1"
              +++ PyStr.crlf
    /\ map stored_item_count (scraped_data (self st)) = [None]
    /\ ~ summary_as_specified (scraped_data (self st)) text.
Proof.
  intro st. eexists _, _.
  split; [vm_compute; reflexivity |].
  split; [vm_compute; reflexivity |].
  split; [vm_compute; reflexivity |].
  split; [vm_compute; reflexivity |].
  intros (rows & Htext & _).
  apply (f_equal (String.get 20)) in Htext.
  rewrite <- (append_correct1 "URL,Title,Type,ItemsCount"
                (PyStr.crlf +++ lines_text (map Csv.row_line rows)) 20)
    in Htext by (vm_compute; lia).
  vm_compute in Htext. discriminate Htext.
Qed.

(** C4, counterexample.  The endpoint that answers with a single object: the
    record holds the object itself under [api_data], not a list with the
    object as its one element, and [total_items] is 1 although the payload,
    an object of two members, has length 2. *)
Lemma single_object_is_not_wrapped :
  content_json Sample.object_response = Ok Sample.one_object
  /\ exists record st',
       scrape_json_api Sample.object_api default_api_url Sample.start
       = (Ok record, st')
       /\ Py.lookup "api_data" record = Some Sample.one_object
       /\ py_len Sample.one_object = Ok 2%Z
       /\ Py.lookup "total_items" record = Some (PInt 1)
       /\ ~ single_object_wrapped record Sample.one_object.
Proof.
  split; [reflexivity |]. eexists _, _.
  split; [vm_compute; reflexivity |].
  split; [vm_compute; reflexivity |].
  split; [vm_compute; reflexivity |].
  split; [vm_compute; reflexivity |].
  intros [Hwrapped _]. vm_compute in Hwrapped. discriminate Hwrapped.
Qed.

(** C7, counterexample.  Exporting the empty store of a scraper that has
    not run writes no CSV file at all, so no header-only document. *)
Lemma empty_csv_export_writes_nothing :
  scraped_data (self Sample.start) = []
  /\ Fs.read default_csv_filename
       (files (snd (save_to_csv default_csv_filename Sample.start))) = None
  /\ ~ empty_exports_as_specified default_csv_filename default_json_filename
         Sample.start.
Proof.
  split; [reflexivity |]. split; [vm_compute; reflexivity |].
  intros (header & Hcsv & _). vm_compute in Hcsv. discriminate Hcsv.
Qed.

(** C8, counterexample.  A timeout and a refused connection give the caller
    of the quotes scraper the same value, [{}]: the kind of the error
    cannot be read off it. *)
Lemma error_kind_not_surfaced : ~ surfaces_error_kind scrape_quotes_site.
Proof.
  intros (kind_of & H).
  pose proof (H Sample.all_time_out default_quotes_url Sample.start
                (mkExn Timeout "Read timed out.") _ eq_refl) as Htimeout.
  pose proof (H Sample.all_refuse default_quotes_url Sample.start
                (mkExn ConnectionError "Connection refused") _ eq_refl)
    as Hrefused.
  vm_compute in Htimeout, Hrefused. congruence.
Qed.


(** *** The pace of a run *)

Lemma traffic_of_log (evs : list event) (lvl : level) (msg : string) :
  traffic_of (evs ++ [Log lvl msg]) = traffic_of evs.
Proof. unfold traffic_of. rewrite filter_app. simpl. apply app_nil_r. Qed.

Lemma silent_ret {A : Type} (a : A) : silent (ret a).
Proof. intro st; simpl; auto. Qed.

Lemma silent_raise {A : Type} (e : exn) : silent (@raise A e).
Proof. intro st; simpl; auto. Qed.

Lemma silent_lift {A : Type} (r : result A) : silent (lift r).
Proof. intro st; simpl; auto. Qed.

Lemma silent_log (lvl : level) (msg : string) : silent (emit (Log lvl msg)).
Proof.
  intro st; unfold emit; simpl. rewrite traffic_of_log. auto.
Qed.

Lemma silent_bind {A B : Type} (m : M A) (k : A -> M B) :
  silent m -> (forall a, silent (k a)) -> silent (bind m k).
Proof.
  intros Hm Hk st. unfold bind. specialize (Hm st).
  destruct (m st) as [[a | e] s1]; simpl in Hm.
  - specialize (Hk a s1). destruct Hm as (? & ? & ?).
    destruct Hk as (? & ? & ?). repeat split; congruence.
  - exact Hm.
Qed.


Lemma sleeps_then_gets_after_log {B : Type} (W : world) (url : string)
  (lvl : level) (msg : string) (k : M B) :
  sleeps_then_gets W url k ->
  sleeps_then_gets W url (emit (Log lvl msg) ;; k).
Proof.
  intros Hk st Hsleep. rewrite bind_emit.
  destruct (silent_log lvl msg st) as (Hr & Hd & Ht).
  assert (Hnext : next_delay W (snd (emit (Log lvl msg) st)) = next_delay W st)
    by (apply next_delay_same; assumption).
  specialize (Hk (snd (emit (Log lvl msg) st))). rewrite Hnext in Hk.
  destruct (Hk Hsleep) as (? & ? & ?). repeat split; congruence.
Qed.

Lemma sleeps_then_gets_then {A B : Type} (W : world) (url : string)
  (m : M A) (k : A -> M B) :
  sleeps_then_gets W url m -> (forall a, silent (k a)) ->
  sleeps_then_gets W url (bind m k).
Proof.
  intros Hm Hk st Hsleep. unfold bind. specialize (Hm st Hsleep).
  destruct (m st) as [[a | e] s1]; simpl in Hm.
  - destruct Hm as (? & ? & ?).
    destruct (Hk a s1) as (? & ? & ?). repeat split; congruence.
  - exact Hm.
Qed.

Lemma sleeps_then_gets_try {A : Type} (W : world) (url : string)
  (body : M A) (catches : exn -> bool) (handler : exn -> M A) :
  sleeps_then_gets W url body -> (forall e, silent (handler e)) ->
  sleeps_then_gets W url (try_except body catches handler).
Proof.
  intros Hm Hh st Hsleep. unfold try_except. specialize (Hm st Hsleep).
  destruct (body st) as [[a | e] s1]; simpl in Hm.
  - exact Hm.
  - destruct (catches e); [| exact Hm].
    destruct Hm as (? & ? & ?).
    destruct (Hh e s1) as (? & ? & ?). repeat split; congruence.
Qed.

Lemma sleeps_then_gets_prefix {A : Type} (W : world) (url : string)
  (k : response -> M A) :
  (forall r, silent (k r)) ->
  sleeps_then_gets W url
    (_rate_limit W ;;
     response <- session_get W url ;;
     raise_for_status response ;;
     k response).
Proof.
  intros Hk st Hsleep.
  unfold _rate_limit, get_self, random_uniform, random_random,
    session_get, bind, ret.
  fold (next_delay W st). rewrite (time_sleep_accepts _ Hsleep).
  unfold emit; simpl.
  set (s2 := mkState _ _ _ _).
  assert (H2 : delay_range (self s2) = delay_range (self st)
               /\ draws s2 = S (draws st)
               /\ traffic_of (events s2)
                  = traffic_of (events st)
                    ++ [Sleep (next_delay W st); Get url]).
  { subst s2; unfold traffic_of; simpl.
    rewrite !filter_app; simpl. rewrite <- app_assoc. auto. }
  destruct (net W url) as [e | r]; [exact H2 |].
  unfold raise_for_status.
  destruct (_ && _)%bool; [exact H2 |].
  destruct (_ && _)%bool; [exact H2 |].
  unfold ret. destruct (Hk r s2) as (? & ? & ?).
  destruct H2 as (? & ? & ?). repeat split; congruence.
Qed.

Lemma page_scraper_sleeps_then_gets (W : world) (url msg : string)
  (extract : node -> M dict) :
  (forall soup, silent (extract soup)) ->
  sleeps_then_gets W url
    (logger_info msg ;;
     soup <- _get_page W url ;;
     match soup with
     | None => ret []
     | Some soup => extract soup
     end).
Proof.
  intro Hex. unfold logger_info. apply sleeps_then_gets_after_log.
  apply sleeps_then_gets_then.
  - unfold _get_page. apply sleeps_then_gets_try.
    + apply sleeps_then_gets_prefix. intro r. unfold BeautifulSoup.
      apply silent_bind; [apply silent_lift | intro; apply silent_ret].
    + intro e.
      apply silent_bind; [apply silent_log | intro; apply silent_ret].
  - intros [soup |]; [apply Hex | apply silent_ret].
Qed.





Lemma next_delay_ordered (W : world) (st : state) :
  (fst (delay_range (self st)) <= snd (delay_range (self st)))%Q ->
  (fst (delay_range (self st)) <= next_delay W st
   /\ next_delay W st <= snd (delay_range (self st)))%Q.
Proof.
  intro Hord. unfold next_delay.
  destruct (random_in_unit (random_bits W (draws st))) as [Hlo Hhi].
  revert Hord Hlo Hhi.
  generalize (Qmake (random_bits W (draws st) mod Zpos two53) two53).
  generalize (fst (delay_range (self st))), (snd (delay_range (self st))).
  intros a b r Hord Hlo Hhi. cbv zeta.
  split; nra.
Qed.


(** *** A range below zero *)

Lemma next_delay_between (W : world) (st : state) (lo hi : Q) :
  (lo <= fst (delay_range (self st)))%Q ->
  (lo <= snd (delay_range (self st)))%Q ->
  (fst (delay_range (self st)) <= hi)%Q ->
  (snd (delay_range (self st)) <= hi)%Q ->
  (lo <= next_delay W st /\ next_delay W st <= hi)%Q.
Proof.
  unfold next_delay.
  destruct (random_in_unit (random_bits W (draws st))) as [Hlo Hhi].
  revert Hlo Hhi.
  generalize (Qmake (random_bits W (draws st) mod Zpos two53) two53).
  generalize (fst (delay_range (self st))), (snd (delay_range (self st))).
  intros a b r Hlo Hhi Ha Hb Ha' Hb'. cbv zeta.
  split; nra.
Qed.

(** A negative delay that fits the clock is refused for its sign. *)
Lemma time_sleep_refuses (d : Q) :
  (- longest_sleep <= d)%Q -> (d < 0)%Q -> time_sleep d = raise sleep_error.
Proof.
  intros Hlo Hneg. unfold time_sleep, fits_clock.
  assert (H1 : Qle_bool (inject_Z (- two63)) (nanoseconds d) = true).
  { apply Qle_bool_iff. unfold nanoseconds, longest_sleep in *.
    change (inject_Z (- two63)) with (-9223372036854775808 # 1)%Q.
    unfold inject_Z in *. lra. }
  assert (H2 : Qle_bool (inject_Z two63) (nanoseconds d) = false).
  { destruct (Qle_bool (inject_Z two63) (nanoseconds d)) eqn:E;
      [| reflexivity].
    apply Qle_bool_iff in E. unfold nanoseconds in *.
    change (inject_Z two63) with (9223372036854775808 # 1)%Q in E.
    unfold inject_Z in *. lra. }
  assert (H3 : Qle_bool 0 d = false).
  { destruct (Qle_bool 0 d) eqn:E; [| reflexivity].
    apply Qle_bool_iff in E. lra. }
  rewrite H1, H2, H3. reflexivity.
Qed.

Lemma next_delay_negative (W : world) (st : state) :
  (fst (delay_range (self st)) < 0)%Q ->
  (snd (delay_range (self st)) < 0)%Q ->
  (- longest_sleep <= fst (delay_range (self st)))%Q ->
  (- longest_sleep <= snd (delay_range (self st)))%Q ->
  time_sleep (next_delay W st) = raise sleep_error.
Proof.
  intros Ha Hb Ha' Hb'.
  assert (Hneg : (next_delay W st < 0)%Q).
  { unfold next_delay.
    destruct (random_in_unit (random_bits W (draws st))) as [Hlo Hhi].
    revert Ha Hb Hlo Hhi.
    generalize (Qmake (random_bits W (draws st) mod Zpos two53) two53).
    generalize (fst (delay_range (self st))), (snd (delay_range (self st))).
    intros a b r Ha Hb Hlo Hhi. cbv zeta. nra. }
  apply time_sleep_refuses; [| exact Hneg].
  apply (next_delay_between W st (- longest_sleep) 0); auto;
    apply Qlt_le_weak; assumption.
Qed.

Lemma rate_limit_refused (W : world) (st : state) :
  time_sleep (next_delay W st) = raise sleep_error ->
  _rate_limit W st
  = (Raise sleep_error,
     mkState (self st) (S (draws st)) (events st) (files st)).
Proof.
  intro Hsleep.
  unfold _rate_limit, get_self, random_uniform, random_random, bind, ret.
  fold (next_delay W st). rewrite Hsleep. reflexivity.
Qed.

Lemma fetch_prefix_refused {A : Type} (W : world) (url : string)
  (st : state) (k : response -> M A) :
  time_sleep (next_delay W st) = raise sleep_error ->
  (_rate_limit W ;;
   response <- session_get W url ;;
   raise_for_status response ;;
   k response) st
  = (Raise sleep_error,
     mkState (self st) (S (draws st)) (events st) (files st)).
Proof.
  intro Hsleep. unfold bind at 1.
  rewrite (rate_limit_refused W st Hsleep). reflexivity.
Qed.

Lemma page_scraper_refused_sleep (W : world) (url msg : string)
  (extract : node -> M dict) (st : state) :
  time_sleep (next_delay W st) = raise sleep_error ->
  (logger_info msg ;;
   soup <- _get_page W url ;;
   match soup with
   | None => ret []
   | Some soup => extract soup
   end) st
  = (Raise sleep_error, after_refused_sleep msg st).
Proof.
  intro Hsleep. unfold logger_info. rewrite bind_emit. unfold bind at 1.
  unfold _get_page, try_except.
  rewrite (fetch_prefix_refused W url (snd (emit (Log INFO msg) st)) _ Hsleep).
  reflexivity.
Qed.

Lemma scrape_news_site_refused_sleep (W : world) (url : string) (st : state) :
  time_sleep (next_delay W st) = raise sleep_error ->
  scrape_news_site W url st
  = (Raise sleep_error,
     after_refused_sleep ("Scraping news site: " +++ url) st).
Proof. unfold scrape_news_site. apply page_scraper_refused_sleep. Qed.

Lemma scrape_quotes_site_refused_sleep (W : world) (url : string)
  (st : state) :
  time_sleep (next_delay W st) = raise sleep_error ->
  scrape_quotes_site W url st
  = (Raise sleep_error,
     after_refused_sleep ("Scraping quotes site: " +++ url) st).
Proof. unfold scrape_quotes_site. apply page_scraper_refused_sleep. Qed.

Lemma scrape_books_site_refused_sleep (W : world) (url : string)
  (st : state) :
  time_sleep (next_delay W st) = raise sleep_error ->
  scrape_books_site W url st
  = (Raise sleep_error,
     after_refused_sleep ("Scraping books site: " +++ url) st).
Proof. unfold scrape_books_site. apply page_scraper_refused_sleep. Qed.

Lemma scrape_json_api_refused_sleep (W : world) (url : string) (st : state) :
  time_sleep (next_delay W st) = raise sleep_error ->
  scrape_json_api W url st
  = (Raise sleep_error,
     after_refused_sleep ("Scraping JSON API: " +++ url) st).
Proof.
  intro Hsleep. unfold scrape_json_api, logger_info. rewrite bind_emit.
  unfold try_except.
  rewrite (fetch_prefix_refused W url
             (snd (emit (Log INFO ("Scraping JSON API: " +++ url)) st)) _
             Hsleep).
  reflexivity.
Qed.

Lemma run_scraper_refused_sleep (all_data : list dict) (name : string)
  (scraper : M dict) (announcement : string) (st : state) :
  scraper st = (Raise sleep_error, after_refused_sleep announcement st) ->
  run_scraper all_data (name, scraper) st
  = (Ok all_data,
     mkState (self st) (S (draws st))
             (events st ++ [Log INFO announcement; refused_sleep_line name])
             (files st)).
Proof.
  intro H. unfold run_scraper, try_except. unfold bind at 1. cbn [snd fst].
  rewrite H. unfold is_Exception, logger_error. rewrite bind_emit.
  unfold ret, emit, after_refused_sleep, refused_sleep_line, sleep_error.
  cbn [snd self draws events files exn_msg]. rewrite <- app_assoc.
  reflexivity.
Qed.

(** X2.  With a delay range whose two bounds are negative, and not
    below what the clock of [time.sleep] can count, every drawn delay is
    negative and [time.sleep] refuses it for its sign: each scraper raises
    before its request, the batch logs one ERROR line per scraper and
    returns an empty store.  Nothing is slept, nothing is requested and no
    file is touched. *)
Theorem negative_range_fetches_nothing (W : world) (st : state) :
  (fst (delay_range (self st)) < 0)%Q ->
  (snd (delay_range (self st)) < 0)%Q ->
  (- longest_sleep <= fst (delay_range (self st)))%Q ->
  (- longest_sleep <= snd (delay_range (self st)))%Q ->
  exists st',
    run_all_scrapers W st = (Ok [], st')
    /\ scraped_data (self st') = []
    /\ files st' = files st
    /\ events st'
       = events st
         ++ [Log INFO ("Scraping news site: " +++ default_news_url);
             refused_sleep_line "scrape_news_site";
             Log INFO ("Scraping quotes site: " +++ default_quotes_url);
             refused_sleep_line "scrape_quotes_site";
             Log INFO ("Scraping books site: " +++ default_books_url);
             refused_sleep_line "scrape_books_site";
             Log INFO ("Scraping JSON API: " +++ default_api_url);
             refused_sleep_line "scrape_json_api"]
    /\ traffic_of (events st') = traffic_of (events st).
Proof.
  intros Ha Hb Ha' Hb'.
  assert (Hneg : forall s, self s = self st ->
                           time_sleep (next_delay W s) = raise sleep_error).
  { intros s Hs. apply next_delay_negative; rewrite Hs; assumption. }
  unfold run_all_scrapers, scrapers. unfold bind at 1. cbn [for_each].
  unfold bind at 1.
  rewrite (run_scraper_refused_sleep [] "scrape_news_site" _ _ st
             (scrape_news_site_refused_sleep W _ st (Hneg st eq_refl))).
  set (s1 := mkState _ _ _ _).
  unfold bind at 1.
  rewrite (run_scraper_refused_sleep [] "scrape_quotes_site" _ _ s1
             (scrape_quotes_site_refused_sleep W _ s1 (Hneg s1 eq_refl))).
  set (s2 := mkState _ _ _ _).
  unfold bind at 1.
  rewrite (run_scraper_refused_sleep [] "scrape_books_site" _ _ s2
             (scrape_books_site_refused_sleep W _ s2 (Hneg s2 eq_refl))).
  set (s3 := mkState _ _ _ _).
  unfold bind at 1.
  rewrite (run_scraper_refused_sleep [] "scrape_json_api" _ _ s3
             (scrape_json_api_refused_sleep W _ s3 (Hneg s3 eq_refl))).
  unfold ret, set_scraped_data, bind.
  eexists. split; [reflexivity |]. cbn [self scraped_data files events].
  split; [reflexivity |]. split; [reflexivity |].
  subst s3 s2 s1. cbn [events].
  rewrite <- !app_assoc. cbn [app]. split; [reflexivity |].
  unfold traffic_of. rewrite filter_app. cbn [filter]. unfold refused_sleep_line.
  cbn [filter is_traffic]. apply app_nil_r.
Qed.

(** *** Status codes *)

Lemma fetch_attempt_error_status (W : world) (url : string) (st : state)
  (r : response) :
  can_sleep (next_delay W st) = true ->
  net W url = GetReturns r ->
  (400 <= status_code r < 600)%Z ->
  exists msg st1,
    fetch_attempt W url st = (Raise (mkExn HTTPError msg), st1).
Proof.
  intros Hsleep Hnet Hcode.
  unfold fetch_attempt, _rate_limit, get_self, random_uniform, random_random,
    session_get, bind, ret.
  fold (next_delay W st). rewrite (time_sleep_accepts _ Hsleep).
  unfold emit; simpl. rewrite Hnet. unfold raise_for_status, raise.
  destruct (Z.leb_spec 400 (status_code r)); [| lia].
  destruct (Z.ltb_spec (status_code r) 500); cbn [andb].
  - eexists _, _. reflexivity.
  - destruct (Z.leb_spec 500 (status_code r)); [| lia].
    destruct (Z.ltb_spec (status_code r) 600); [| lia].
    cbn [andb]. eexists _, _. reflexivity.
Qed.

Lemma status_passes_outside (r : response) :
  (status_code r < 400 \/ 600 <= status_code r)%Z -> status_passes r = true.
Proof.
  intro H. unfold status_passes.
  destruct (Z.leb_spec 400 (status_code r));
    destruct (Z.ltb_spec (status_code r) 600); simpl; auto; lia.
Qed.

(** X3.  Once the request has returned a response, a status from 400 to
    599 makes every scraper return [{}] and log one ERROR line, whatever
    the body holds and whether the parser would accept it or not.  With any
    other status, 1xx and 3xx included, the quotes and catalog scrapers go
    on to parse the body: when the parser accepts it they return a record
    without logging an error, and when it rejects it they end on its
    exception, which they do not catch unless it is a request error. *)
Theorem status_code_decides_fetch (W : world) (url : string) (st : state)
  (r : response) :
  can_sleep (next_delay W st) = true ->
  net W url = GetReturns r ->
  ((400 <= status_code r < 600)%Z ->
   forall kind,
   exists st',
     run_extractor W kind url st = (Ok [], st')
     /\ errors_logged st' = S (errors_logged st))
  /\ ((status_code r < 400 \/ 600 <= status_code r)%Z ->
      forall kind,
        kind = QuoteList \/ kind = Catalog ->
        (forall soup,
            content_soup r = Ok soup ->
            exists record st',
              run_extractor W kind url st = (Ok record, st')
              /\ record <> []
              /\ errors_logged st' = errors_logged st)
        /\ (forall e,
              content_soup r = Raise e ->
              ends_on_failure W kind url st e)).
Proof.
  intros Hsleep Hnet. split.
  - intros Hcode kind.
    destruct (fetch_attempt_error_status W url st r Hsleep Hnet Hcode)
      as (msg & st1 & Hf).
    destruct kind; cbn [run_extractor].
    + apply (page_scraper_failed_fetch W url _ _ st _ st1 Hf).
    + apply (page_scraper_failed_fetch W url _ _ st _ st1 Hf).
    + apply (page_scraper_failed_fetch W url _ _ st _ st1 Hf).
    + apply (scrape_json_api_failed_fetch W url st _ st1 Hf).
  - intros Hcode kind Hkind.
    assert (Hok : fetch_succeeds W url st r)
      by (repeat split; auto using status_passes_outside).
    split.
    + intros soup Hsoup. destruct Hkind as [-> | ->]; cbn [run_extractor].
      * destruct (scrape_quotes_site_ok W url st r soup Hok Hsoup)
          as (title & st' & Hrun).
        pose proof (scrape_quotes_site_logs_own_failure W url st) as Hlog.
        rewrite Hrun in Hlog.
        eexists _, st'. split; [exact Hrun |].
        split; [discriminate | exact Hlog].
      * destruct (scrape_books_site_ok W url st r soup Hok Hsoup)
          as (title & st' & Hrun).
        pose proof (scrape_books_site_logs_own_failure W url st) as Hlog.
        rewrite Hrun in Hlog.
        eexists _, st'. split; [exact Hrun |].
        split; [discriminate | exact Hlog].
    + intros e Hsoup. unfold ends_on_failure.
      destruct Hkind as [-> | ->]; cbn [handled run_extractor].
      * apply (page_scraper_rejected_markup W url _ _ st r e Hok Hsoup).
      * apply (page_scraper_rejected_markup W url _ _ st r e Hok Hsoup).
Qed.

(** *** Bodies of the API *)

(** X4.  When the endpoint answers with a passing status but
    [response.json()] raises, what follows depends on the exception.  The
    decode error of a body that is not JSON is caught: the API scraper logs
    the decoder's message in one ERROR line, after the request, and returns
    [{}].  Any other exception, such as the ValueError of a number of too
    many digits or a RecursionError, is not caught: it reaches the caller
    after the request, and no ERROR line is logged. *)
Theorem undecodable_body_returns_empty_dict (W : world) (url : string)
  (st : state) (r : response) (e : exn) :
  fetch_succeeds W url st r ->
  content_json r = Raise e ->
  (handled JsonApi e = true ->
   exists st',
     scrape_json_api W url st = (Ok [], st')
     /\ events st'
        = events st
          ++ [Log INFO ("Scraping JSON API: " +++ url);
              Sleep (next_delay W st);
              Get url;
              Log ERROR ("Error fetching JSON API " +++ url +++ ": "
                         +++ exn_msg e)]
     /\ files st' = files st)
  /\ (handled JsonApi e = false ->
      exists st',
        scrape_json_api W url st = (Raise e, st')
        /\ events st'
           = events st
             ++ [Log INFO ("Scraping JSON API: " +++ url);
                 Sleep (next_delay W st);
                 Get url]
        /\ files st' = files st).
Proof.
  intros H Hjson.
  assert (Hrun : scrape_json_api W url st
                 = try_except (lift (Raise e))
                     (fun e => is_RequestException e || is_JSONDecodeError e)
                     (fun e =>
                        logger_error ("Error fetching JSON API " +++ url
                                      +++ ": " +++ exn_msg e) ;;
                        ret [])
                     (after_fetch W url
                        (snd (emit (Log INFO ("Scraping JSON API: " +++ url))
                                   st)))).
  { unfold scrape_json_api, logger_info. rewrite bind_emit.
    unfold try_except.
    rewrite (fetch_prefix W url _ r _
               (fetch_succeeds_after_log W url st r _ H)).
    unfold response_json. rewrite Hjson, bind_lift_raise. reflexivity. }
  rewrite Hrun. unfold try_except, lift. cbn [handled].
  split; intro Hcaught; rewrite Hcaught.
  - unfold logger_error. rewrite bind_emit. unfold ret.
    eexists. split; [reflexivity |].
    unfold emit, after_fetch. cbn [snd events files self draws].
    split; [| reflexivity].
    rewrite <- !app_assoc. reflexivity.
  - eexists. split; [reflexivity |].
    unfold emit, after_fetch. cbn [snd events files self draws].
    split; [| reflexivity].
    rewrite <- !app_assoc. reflexivity.
Qed.

(** X5.  On a fetched endpoint whose body [response.json()] decodes, the
    API scraper always returns a record, never [{}].  A list of at most ten
    elements, the empty list included, is stored unchanged with
    [total_items] its length.  Any value that is not a list (an object, a
    string, a number, a boolean, null) is stored unchanged with
    [total_items] 1. *)
Theorem json_api_short_lists_and_scalars (W : world) (url : string)
  (st : state) (r : response) (data : pyval) :
  fetch_succeeds W url st r ->
  content_json r = Ok data ->
  exists record st',
    scrape_json_api W url st = (Ok record, st')
    /\ record <> []
    /\ Py.lookup "type" record = Some (PStr "json_api")
    /\ (forall items,
          data = PList items ->
          List.length items <= 10 ->
          Py.lookup "api_data" record = Some (PList items)
          /\ Py.lookup "total_items" record
             = Some (PInt (Z.of_nat (List.length items))))
    /\ ((forall items, data <> PList items) ->
        Py.lookup "api_data" record = Some data
        /\ Py.lookup "total_items" record = Some (PInt 1)).
Proof.
  intros H Hjson.
  destruct (scrape_json_api_ok W url st r data H Hjson) as (st' & Hrun).
  eexists _, st'. split; [exact Hrun |]. split; [discriminate |].
  split; [reflexivity |]. split.
  - intros items -> Hlen. cbn [limit_posts total_items_of].
    rewrite (firstn_all2 items) by exact Hlen.
    split; reflexivity.
  - intro Hnot. destruct data; try (split; reflexivity).
    exfalso. eapply Hnot. reflexivity.
Qed.

(** *** The generic page *)

Lemma anchor_has_href (soup link : node) :
  In link (anchors soup) -> exists href, soup_getitem link "href" = Ok href.
Proof.
  unfold anchors, Soup.find_all. intro H. apply filter_In in H as [_ H].
  apply andb_prop in H as [_ H].
  destruct link as [s | name cl at_ cs]; [discriminate |].
  unfold Soup.has_attr in H. unfold soup_getitem.
  destruct (Soup.attr_lookup "href" at_); [eauto | discriminate].
Qed.

Lemma links_loop_ok (W : world) (url : string) (links : list node) :
  Forall (fun link => exists full, resolves_to W url link full) links ->
  forall acc st,
  exists entries,
    for_each (links_step W url) links acc st = (Ok (acc ++ entries), st)
    /\ Forall2 (entry_of_link W url) links entries.
Proof.
  induction 1 as [| link links (full & href & Hhref & Hjoin) _ IH];
    intros acc st; simpl.
  - exists []. rewrite app_nil_r. split; [reflexivity | constructor].
  - unfold bind at 1. unfold links_step at 1.
    unfold bind, lift, ret. rewrite Hhref, Hjoin.
    destruct (IH (acc ++ [PDict [("text", PStr (PyStr.strip (Soup.get_text link)));
                                 ("url", PStr full)]]) st)
      as (entries & Hloop & Hall).
    fold (@bind (list pyval) (list pyval)) in Hloop.
    eexists (_ :: entries). rewrite <- app_assoc in Hloop. split.
    + exact Hloop.
    + constructor; [| exact Hall]. exists full. split; [| reflexivity].
      exists href. auto.
Qed.

Lemma Forall2_firstn {A B : Type} (R : A -> B -> Prop) (n : nat)
  (xs : list A) (ys : list B) :
  Forall2 R xs ys -> Forall2 R (firstn n xs) (firstn n ys).
Proof.
  intro H. revert n. induction H as [| x y xs ys Hxy _ IH]; intro n.
  - rewrite !firstn_nil. constructor.
  - destruct n; simpl; constructor; auto.
Qed.

Lemma nonblank_paragraphs (ps : list node) :
  Forall nonempty_text
    (map PStr
       (map (fun p => PyStr.strip (Soup.get_text p))
          (filter
             (fun p => negb (PyStr.is_empty (PyStr.strip (Soup.get_text p))))
             ps))).
Proof.
  induction ps as [| p ps IH]; simpl; [constructor |].
  destruct (PyStr.is_empty (PyStr.strip (Soup.get_text p))) eqn:E; simpl.
  - exact IH.
  - constructor; [| exact IH]. eexists. split; [reflexivity |].
    intro H. rewrite H in E. discriminate.
Qed.

(** X6.  When the generic page is fetched and parsed and [urljoin]
    resolves the reference of each of its anchors, the record holds under
    [links] the entries of the first ten anchors that carry an [href], in
    document order, each with its stripped text and its resolved URL (all
    of them when there are fewer than ten); under [paragraphs] no empty
    text, the paragraphs that are blank once stripped being left out; under
    [headings] one text per heading tag, blank or not; and no count field
    at all. *)
Theorem news_record_contents (W : world) (url : string) (st : state)
  (r : response) (soup : node) :
  fetch_succeeds W url st r ->
  content_soup r = Ok soup ->
  Forall (fun link => exists full, resolves_to W url link full)
         (anchors soup) ->
  exists record st' links paragraphs headings,
    scrape_news_site W url st = (Ok record, st')
    /\ Py.lookup "links" record = Some (PList links)
    /\ Forall2 (entry_of_link W url) (firstn 10 (anchors soup)) links
    /\ List.length links = Nat.min 10 (List.length (anchors soup))
    /\ Py.lookup "paragraphs" record = Some (PList paragraphs)
    /\ Forall nonempty_text paragraphs
    /\ Py.lookup "headings" record = Some (PList headings)
    /\ List.length headings
       = List.length (Soup.find_all ["h1"; "h2"; "h3"] Soup.any soup)
    /\ stored_item_count record = None.
Proof.
  intros H Hsoup Hall.
  unfold scrape_news_site, logger_info. rewrite bind_emit. unfold bind at 1.
  rewrite (_get_page_ok W url _ r soup
             (fetch_succeeds_after_log W url st r _ H) Hsoup).
  fold (anchors soup).
  destruct (links_loop_ok W url _ Hall [] (after_fetch W url
              (snd (emit (Log INFO ("Scraping news site: " +++ url)) st))))
    as (entries & Hloop & Hentries).
  unfold bind at 1. rewrite Hloop. unfold ret. cbn [app].
  eexists _, _, _, _, _. split; [reflexivity |].
  split; [reflexivity |].
  split; [apply Forall2_firstn; exact Hentries |].
  split; [rewrite length_firstn, (Forall2_length Hentries); reflexivity |].
  split; [reflexivity |].
  split; [apply nonblank_paragraphs |].
  split; [reflexivity |].
  split; [rewrite !length_map; reflexivity |].
  reflexivity.
Qed.

(** X7.  When the generic page is fetched and parsed but [urljoin] raises
    on the reference of one of its anchors, the scraper raises that
    exception and returns no record, without logging an ERROR line itself;
    this holds wherever the anchor stands, also past the tenth anchor,
    whose entry would have been cut from the record anyway. *)
Theorem unresolvable_link_loses_the_page (W : world) (url : string)
  (st : state) (r : response) (soup : node) (before : list node)
  (link : node) (after : list node) (e : exn) :
  fetch_succeeds W url st r ->
  content_soup r = Ok soup ->
  anchors soup = before ++ link :: after ->
  Forall (fun l => exists full, resolves_to W url l full) before ->
  fails_to_resolve W url link e ->
  exists st',
    scrape_news_site W url st = (Raise e, st')
    /\ errors_logged st' = errors_logged st.
Proof.
  intros H Hsoup Hanchors Hbefore Hfail.
  pose proof (scrape_news_site_logs_own_failure W url st) as Hlog.
  destruct (scrape_news_site_unresolvable W url st r soup before link after e
              H Hsoup Hanchors Hbefore Hfail) as (st' & Hrun & _).
  rewrite Hrun in Hlog. exists st'. split; [exact Hrun | exact Hlog].
Qed.

(** *** The catalog entries *)

Lemma books_step_entry (books : list pyval) (c : node) :
  book_emitted c = true ->
  exists b, entry_of_book c b /\ books_step books c = books ++ [b].
Proof.
  unfold book_emitted, books_step, entry_of_book, title_anchor. intro H.
  destruct (match Soup.find "h3" Soup.any c with
            | Some h3 => Soup.find "a" Soup.any h3
            | None => None
            end) as [a |]; [| discriminate].
  destruct (Soup.find "p" (Soup.has_class "price_color") c) as [p |];
    [| discriminate].
  eexists. split; [| reflexivity].
  eexists a, p, _, _. auto.
Qed.

Lemma books_entries_loop (cs : list node) :
  forall books,
  exists emitted,
    fold_left books_step cs books = books ++ emitted
    /\ Forall2 entry_of_book (filter book_emitted cs) emitted.
Proof.
  induction cs as [| c cs IH]; intro books; simpl.
  - exists []. rewrite app_nil_r. auto.
  - destruct (book_emitted c) eqn:Hc.
    + destruct (books_step_entry books c Hc) as (b & Hb & Hstep).
      rewrite Hstep. destruct (IH (books ++ [b])) as (em & Hfold & Hall).
      exists (b :: em). rewrite Hfold, <- app_assoc. simpl. auto.
    + rewrite (books_step_skipped books c Hc). apply IH.
Qed.

(** X8.  When the catalog page is fetched and parsed, the [books] list holds, in
    document order, exactly one entry for each product container that has
    an anchor below its first [h3] and a price element; every other
    container is left out without an error.  The title of an entry is the
    stripped [title] attribute of that anchor, the empty text when the
    anchor has no such attribute, and its price is the stripped text of the
    price element.  [total_books] is the number of entries. *)
Theorem catalog_entries (W : world) (url : string) (st : state)
  (r : response) (soup : node) :
  fetch_succeeds W url st r ->
  content_soup r = Ok soup ->
  let emitted := filter book_emitted (product_containers soup) in
  exists record st' books,
    scrape_books_site W url st = (Ok record, st')
    /\ Py.lookup "books" record = Some (PList books)
    /\ Forall2 entry_of_book emitted books
    /\ Py.lookup "total_books" record
       = Some (PInt (Z.of_nat (List.length emitted)))
    /\ List.length books <= List.length (product_containers soup).
Proof.
  intros H Hsoup emitted.
  destruct (scrape_books_site_ok W url st r soup H Hsoup)
    as (title & st' & Hrun).
  destruct (books_entries_loop (product_containers soup) [])
    as (books & Hfold & Hall).
  simpl in Hfold. rewrite Hfold in Hrun.
  eexists _, st', books. split; [exact Hrun |].
  pose proof (Forall2_length Hall) as Hlen. fold emitted in Hlen.
  split; [reflexivity |]. split; [exact Hall |].
  split; [unfold Py.len_Z; rewrite Hlen; reflexivity |].
  rewrite <- Hlen. subst emitted. apply filter_length_le.
Qed.

(** *** The order of the store *)

Lemma page_scraper_returns_source (W : world) (url msg type_ : string)
  (extract : node -> M dict) :
  (forall soup st d st',
      extract soup st = (Ok d, st') -> record_of_source type_ url d) ->
  returns_source type_ url
    (logger_info msg ;;
     soup <- _get_page W url ;;
     match soup with
     | None => ret []
     | Some soup => extract soup
     end).
Proof.
  intros Hex st d st' H.
  apply page_scraper_result in H as [-> | (soup & s1 & H)]; [auto |].
  right. eapply Hex. exact H.
Qed.

Lemma scrape_news_site_returns_source (W : world) (url : string) :
  returns_source "news_site" url (scrape_news_site W url).
Proof.
  unfold scrape_news_site. apply page_scraper_returns_source.
  intros soup st d st'. unfold bind.
  destruct (for_each _ _ _ st) as [[links | e] s1]; [| discriminate].
  unfold ret. intros [= <- _]. split; reflexivity.
Qed.

Lemma scrape_quotes_site_returns_source (W : world) (url : string) :
  returns_source "quotes_site" url (scrape_quotes_site W url).
Proof.
  unfold scrape_quotes_site. apply page_scraper_returns_source.
  intros soup st d st'. unfold ret. intros [= <- _]. split; reflexivity.
Qed.

Lemma scrape_books_site_returns_source (W : world) (url : string) :
  returns_source "books_site" url (scrape_books_site W url).
Proof.
  unfold scrape_books_site. apply page_scraper_returns_source.
  intros soup st d st'. unfold ret. intros [= <- _]. split; reflexivity.
Qed.

Lemma scrape_json_api_returns_source (W : world) (url : string) :
  returns_source "json_api" url (scrape_json_api W url).
Proof.
  intros st d st' H.
  pose proof (scrape_json_api_result W url st d st' H) as [-> | Hrec];
    [auto |].
  right. revert H. unfold scrape_json_api, logger_info.
  rewrite bind_emit. unfold try_except, bind.
  destruct (_rate_limit W _) as [[[] | e] s1].
  - destruct (session_get W url s1) as [[r | e] s2].
    + destruct (raise_for_status r s2) as [[[] | e] s3].
      * destruct (response_json r s3) as [[v | e] s4].
        -- unfold ret. intros [= <- _]. split; reflexivity.
        -- destruct (_ || _)%bool; [| discriminate].
           unfold logger_error, emit, ret. intros [= <- _]. inversion Hrec.
      * destruct (_ || _)%bool; [| discriminate].
        unfold logger_error, emit, ret. intros [= <- _]. inversion Hrec.
    + destruct (_ || _)%bool; [| discriminate].
      unfold logger_error, emit, ret. intros [= <- _]. inversion Hrec.
  - destruct (_ || _)%bool; [| discriminate].
    unfold logger_error, emit, ret. intros [= <- _]. inversion Hrec.
Qed.

Lemma run_scraper_appends (type_ url : string) (all_data : list dict)
  (name : string) (scraper : M dict) (st : state) :
  returns_source type_ url scraper ->
  exists new st',
    run_scraper all_data (name, scraper) st = (Ok (all_data ++ new), st')
    /\ at_most_one type_ url new.
Proof.
  intro Hs. unfold run_scraper, try_except. unfold bind at 1.
  specialize (Hs st). cbn [fst snd].
  destruct (scraper st) as [[d | e] s1].
  - destruct d as [| kv d]; cbn [Py.dict_truthy].
    + exists [], s1. rewrite app_nil_r. split; [reflexivity | left; reflexivity].
    + unfold logger_info. rewrite bind_emit. unfold ret.
      eexists [_], _. split; [reflexivity |]. right.
      eexists. split; [reflexivity |].
      destruct (Hs _ _ eq_refl) as [Hd | Hd]; [discriminate | exact Hd].
  - unfold is_Exception, logger_error. rewrite bind_emit. unfold ret.
    exists [], (snd (emit (Log ERROR ("Error running scraper " +++ name
                                      +++ ": " +++ exn_msg e)) s1)).
    rewrite app_nil_r. split; [reflexivity | left; reflexivity].
Qed.

(** X9.  The store a run returns is laid out in the fixed order of the
    sources, whichever of them fail: at most one record of the generic
    page, then at most one of the quotes page, then at most one of the
    catalog, then at most one of the API, each carrying the type and the
    default URL of its source.  What the store held before the run is not
    part of it. *)
Theorem store_follows_source_order (W : world) (st : state) :
  exists news quotes books api st',
    run_all_scrapers W st = (Ok (news ++ quotes ++ books ++ api), st')
    /\ scraped_data (self st') = news ++ quotes ++ books ++ api
    /\ at_most_one "news_site" default_news_url news
    /\ at_most_one "quotes_site" default_quotes_url quotes
    /\ at_most_one "books_site" default_books_url books
    /\ at_most_one "json_api" default_api_url api.
Proof.
  unfold run_all_scrapers, scrapers. unfold bind at 1. cbn [for_each].
  destruct (run_scraper_appends _ _ [] "scrape_news_site" _ st
              (scrape_news_site_returns_source W default_news_url))
    as (news & st1 & R1 & A1).
  unfold bind at 1. rewrite R1.
  destruct (run_scraper_appends _ _ ([] ++ news) "scrape_quotes_site" _ st1
              (scrape_quotes_site_returns_source W default_quotes_url))
    as (quotes & st2 & R2 & A2).
  unfold bind at 1. rewrite R2.
  destruct (run_scraper_appends _ _ (([] ++ news) ++ quotes)
              "scrape_books_site" _ st2
              (scrape_books_site_returns_source W default_books_url))
    as (books & st3 & R3 & A3).
  unfold bind at 1. rewrite R3.
  destruct (run_scraper_appends _ _ ((([] ++ news) ++ quotes) ++ books)
              "scrape_json_api" _ st3
              (scrape_json_api_returns_source W default_api_url))
    as (api & st4 & R4 & A4).
  unfold bind at 1. rewrite R4.
  unfold ret, set_scraped_data, bind.
  exists news, quotes, books, api. eexists.
  cbn [app]. rewrite <- !app_assoc.
  split; [reflexivity |]. split; [reflexivity |]. auto.
Qed.

(** *** Summaries of arbitrary stores *)

Lemma read_put_other (name other text : string)
  (fs : list (string * string)) :
  other <> name -> Fs.read other (Fs.put name text fs) = Fs.read other fs.
Proof.
  intro Hne. induction fs as [| [n t] fs IH]; simpl.
  - destruct (String.eqb_spec other name); [contradiction | reflexivity].
  - destruct (String.eqb_spec name n) as [-> | Hn]; simpl.
    + destruct (String.eqb_spec other n); [contradiction | reflexivity].
    + destruct (String.eqb other n); [reflexivity | exact IH].
Qed.

Lemma items_count_of_pure (record : dict) :
  items_count_of record = lift (count_of record).
Proof.
  unfold items_count_of, count_of.
  destruct (Py.contains "quotes" record); [reflexivity |].
  destruct (Py.contains "books" record); [reflexivity |].
  destruct (Py.contains "api_data" record); [reflexivity |].
  destruct (Py.contains "paragraphs" record); [| reflexivity].
  unfold bind, lift, ret.
  destruct (py_len (Py.get record "paragraphs" (PList []))); reflexivity.
Qed.

(** The loop of [save_to_csv] over any store: it appends the rows of
    [rows_written] to the open file, ends as [rows_written] says, and
    touches nothing else. *)
Lemma csv_loop_any (filename : string) (store : list dict) :
  forall st old,
    Fs.read filename (files st) = Some old ->
    exists st',
      for_each (csv_step filename) store tt st
      = (fst (rows_written store), st')
      /\ Fs.read filename (files st')
         = Some (old +++ lines_text (map Csv.row_line
                                         (snd (rows_written store))))
      /\ same_files_but filename (files st) (files st')
      /\ self st' = self st
      /\ draws st' = draws st
      /\ events st' = events st.
Proof.
  induction store as [| record store IH]; intros st old Hold; cbn [for_each].
  - exists st. cbn. rewrite append_empty_r.
    repeat split; auto; try (intros other _; reflexivity).
  - unfold bind at 1. unfold csv_step at 1.
    rewrite items_count_of_pure. unfold bind at 1. unfold lift at 1.
    cbn [rows_written].
    destruct (count_of record) as [count | e].
    + unfold writerow.
      destruct (f_write_appends filename
                  (Csv.row_line [Py.get record "url" (PStr EmptyString);
                                 Py.get record "title" (PStr EmptyString);
                                 Py.get record "type" (PStr EmptyString);
                                 count]) old st Hold)
        as (s1 & Hw & Hread).
      rewrite Hw.
      assert (Hs1 : same_files_but filename (files st) (files s1)
                    /\ self s1 = self st /\ draws s1 = draws st
                    /\ events s1 = events st).
      { unfold f_write in Hw. injection Hw as <-. cbn.
        repeat split. intros other Hne. apply read_put_other. exact Hne. }
      destruct Hs1 as (Hf1 & Hself1 & Hd1 & He1).
      destruct (IH s1 _ Hread) as (s2 & Hloop & Hread2 & Hf2 & Hself2 & Hd2 & He2).
      exists s2. cbn [fst snd]. split; [exact Hloop |]. split.
      * rewrite Hread2. cbn [map lines_text fold_right].
        rewrite append_assoc. reflexivity.
      * repeat split; try congruence.
        intros other Hne. rewrite (Hf2 other Hne). apply Hf1. exact Hne.
    + exists st. cbn. rewrite append_empty_r.
      repeat split; auto; try (intros other _; reflexivity).
Qed.

(** What [save_to_csv] does on a store that is not empty. *)
Lemma save_to_csv_any (filename : string) (st : state) :
  scraped_data (self st) <> [] ->
  exists st',
    save_to_csv filename st
    = (fst (rows_written (scraped_data (self st))), st')
    /\ Fs.read filename (files st')
       = Some (lines_text
                 (map Csv.row_line
                      (csv_header
                       :: snd (rows_written (scraped_data (self st))))))
    /\ same_files_but filename (files st) (files st')
    /\ self st' = self st
    /\ draws st' = draws st
    /\ events st'
       = events st
         ++ match fst (rows_written (scraped_data (self st))) with
            | Ok _ => [Log INFO ("Summary saved to " +++ filename)]
            | Raise _ => []
            end.
Proof.
  intro Hne.
  unfold save_to_csv, get_self. unfold bind at 1.
  destruct (scraped_data (self st)) as [| record store] eqn:Hstore;
    [contradiction |].
  unfold open_w. unfold bind at 1.
  set (s1 := mkState _ _ _ _).
  assert (H1 : Fs.read filename (files s1) = Some EmptyString)
    by (apply read_put).
  unfold writerow at 1.
  destruct (f_write_appends filename (Csv.row_line csv_header) _ s1 H1)
    as (s2 & Hw & H2).
  unfold bind at 1. rewrite Hw.
  assert (Hs2 : same_files_but filename (files st) (files s2)
                /\ self s2 = self st /\ draws s2 = draws st
                /\ events s2 = events st).
  { unfold f_write in Hw. injection Hw as <-. subst s1. cbn.
    repeat split. intros other Hother.
    rewrite !read_put_other by exact Hother. reflexivity. }
  destruct Hs2 as (Hf2 & Hself2 & Hd2 & He2).
  destruct (csv_loop_any filename (record :: store) s2 _ H2)
    as (s3 & Hloop & H3 & Hf3 & Hself3 & Hd3 & He3).
  unfold bind at 1. rewrite Hloop.
  destruct (fst (rows_written (record :: store))) as [[] | e].
  - unfold logger_info, emit. eexists. split; [reflexivity |].
    cbn [files self draws events]. split; [rewrite H3; reflexivity |].
    repeat split; try congruence.
    intros other Hother. rewrite (Hf3 other Hother). apply Hf2. exact Hother.
  - eexists. split; [reflexivity |].
    split; [rewrite H3; reflexivity |].
    rewrite app_nil_r. repeat split; try congruence.
    intros other Hother. rewrite (Hf3 other Hother). apply Hf2. exact Hother.
Qed.

Lemma count_of_sized (record : dict) :
  unsized_paragraphs record = false -> exists count, count_of record = Ok count.
Proof.
  unfold unsized_paragraphs, count_of, Py.get.
  destruct (Py.contains "quotes" record); [eauto |].
  destruct (Py.contains "books" record); [eauto |].
  destruct (Py.contains "api_data" record); [eauto |].
  cbn [negb andb].
  destruct (Py.contains "paragraphs" record); [| eauto].
  destruct (Py.lookup "paragraphs" record) as [[| | | | |] |];
    cbn [py_len]; intro H; try discriminate; eauto.
Qed.

Lemma contains_lookup (key : string) (record : dict) :
  Py.contains key record = false -> Py.lookup key record = None.
Proof.
  induction record as [| [k v] record IH]; simpl; [reflexivity |].
  destruct (String.eqb key k); simpl; [discriminate | exact IH].
Qed.



Lemma rows_written_sized (store : list dict) :
  Forall (fun record => unsized_paragraphs record = false) store ->
  fst (rows_written store) = Ok tt
  /\ Forall2 row_of store (snd (rows_written store)).
Proof.
  induction 1 as [| record store Hrec _ [IHres IHrows]]; cbn [rows_written].
  - split; [reflexivity | constructor].
  - destruct (count_of_sized record Hrec) as (count & Hcount).
    rewrite Hcount. cbn [fst snd]. split; [exact IHres |].
    constructor; [| exact IHrows]. exists count. auto.
Qed.




(** *** Exporting twice *)

Lemma save_to_json_any (filename : string) (st : state) :
  exists st',
    save_to_json filename st = (Ok tt, st')
    /\ Fs.read filename (files st')
       = Some (Json.dumps (PList (map PDict (scraped_data (self st)))))
    /\ same_files_but filename (files st) (files st')
    /\ self st' = self st
    /\ draws st' = draws st
    /\ events st' = events st ++ [Log INFO ("Data saved to " +++ filename)].
Proof.
  unfold save_to_json, get_self, open_w, f_write, logger_info, emit, bind.
  cbn [self draws events files]. eexists. split; [reflexivity |].
  cbn [self draws events files]. rewrite !read_put. cbn [String.append].
  split; [reflexivity |].
  repeat split. intros other Hother.
  rewrite !read_put_other by exact Hother. reflexivity.
Qed.

Lemma save_to_csv_empty (filename : string) (st : state) :
  scraped_data (self st) = [] ->
  save_to_csv filename st
  = (Ok tt, mkState (self st) (draws st)
                    (events st ++ [Log WARNING "No data to save"]) (files st)).
Proof.
  intro H. unfold save_to_csv, get_self. unfold bind at 1. rewrite H.
  reflexivity.
Qed.

(** X12.  The exports can be repeated: a second [save_to_csv] to the same
    name ends as the first did and leaves the same text in the file (or no
    file, for an empty store), and a second [save_to_json] leaves the same
    document.  Neither export changes the store, so each describes the
    store the other describes, and neither touches a file of another
    name. *)
Theorem exports_can_be_repeated (csv_name json_name : string) (st : state) :
  let once_csv := save_to_csv csv_name st in
  let twice_csv := save_to_csv csv_name (snd once_csv) in
  let once_json := save_to_json json_name st in
  let twice_json := save_to_json json_name (snd once_json) in
  fst twice_csv = fst once_csv
  /\ Fs.read csv_name (files (snd twice_csv))
     = Fs.read csv_name (files (snd once_csv))
  /\ fst twice_json = fst once_json
  /\ Fs.read json_name (files (snd twice_json))
     = Fs.read json_name (files (snd once_json))
  /\ self (snd once_csv) = self st
  /\ self (snd once_json) = self st
  /\ same_files_but csv_name (files st) (files (snd once_csv))
  /\ same_files_but json_name (files st) (files (snd once_json)).
Proof.
  cbv zeta.
  destruct (save_to_json_any json_name st)
    as (j1 & Hj1 & Hjr1 & Hjf1 & Hjs1 & _ & _).
  rewrite Hj1. cbn [fst snd].
  destruct (save_to_json_any json_name j1)
    as (j2 & Hj2 & Hjr2 & _ & _ & _ & _).
  rewrite Hj2. cbn [fst snd]. rewrite Hjr2, Hjr1, Hjs1.
  destruct (scraped_data (self st)) as [| record store] eqn:Hstore.
  - rewrite (save_to_csv_empty csv_name st Hstore). cbn [fst snd].
    rewrite save_to_csv_empty by exact Hstore. cbn [fst snd files self].
    repeat split; auto; try (intros other _; reflexivity).
  - assert (Hne : scraped_data (self st) <> [])
      by (rewrite Hstore; discriminate).
    destruct (save_to_csv_any csv_name st Hne)
      as (c1 & Hc1 & Hcr1 & Hcf1 & Hcs1 & _ & _).
    rewrite Hc1. cbn [fst snd].
    assert (Hne1 : scraped_data (self c1) <> []) by (rewrite Hcs1; exact Hne).
    destruct (save_to_csv_any csv_name c1 Hne1)
      as (c2 & Hc2 & Hcr2 & _ & _ & _ & _).
    rewrite Hc2. cbn [fst snd]. rewrite Hcr2, Hcr1, Hcs1.
    repeat split; auto.
Qed.

(** *** Files during a run *)

Lemma keeps_files_ret {A : Type} (a : A) : keeps_files (ret a).
Proof. intro st; reflexivity. Qed.

Lemma keeps_files_raise {A : Type} (e : exn) : keeps_files (@raise A e).
Proof. intro st; reflexivity. Qed.

Lemma keeps_files_lift {A : Type} (r : result A) : keeps_files (lift r).
Proof. intro st; reflexivity. Qed.

Lemma keeps_files_emit (e : event) : keeps_files (emit e).
Proof. intro st; reflexivity. Qed.

Lemma keeps_files_bind {A B : Type} (m : M A) (k : A -> M B) :
  keeps_files m -> (forall a, keeps_files (k a)) -> keeps_files (bind m k).
Proof.
  intros Hm Hk st. unfold bind. specialize (Hm st).
  destruct (m st) as [[a | e] s1]; simpl in Hm.
  - rewrite Hk. exact Hm.
  - exact Hm.
Qed.

Lemma keeps_files_try {A : Type} (body : M A) (catches : exn -> bool)
  (handler : exn -> M A) :
  keeps_files body -> (forall e, keeps_files (handler e)) ->
  keeps_files (try_except body catches handler).
Proof.
  intros Hm Hh st. unfold try_except. specialize (Hm st).
  destruct (body st) as [[a | e] s1]; simpl in Hm.
  - exact Hm.
  - destruct (catches e); [| exact Hm]. rewrite Hh. exact Hm.
Qed.

Lemma keeps_files_for_each {A B : Type} (body : B -> A -> M B)
  (xs : list A) :
  (forall acc x, keeps_files (body acc x)) ->
  forall acc, keeps_files (for_each body xs acc).
Proof.
  intros Hbody. induction xs as [| x rest IH]; intro acc; simpl.
  - apply keeps_files_ret.
  - apply keeps_files_bind; [apply Hbody | intro; apply IH].
Qed.

Lemma keeps_files_fetch {A : Type} (W : world) (url : string)
  (k : response -> M A) :
  (forall r, keeps_files (k r)) ->
  keeps_files
    (_rate_limit W ;;
     response <- session_get W url ;;
     raise_for_status response ;;
     k response).
Proof.
  intro Hk.
  apply keeps_files_bind.
  - unfold _rate_limit. apply keeps_files_bind; [intro st; reflexivity |].
    intro me. apply keeps_files_bind.
    + unfold random_uniform. apply keeps_files_bind; [intro st; reflexivity |].
      intro; apply keeps_files_ret.
    + intro d. unfold time_sleep.
      destruct (negb (fits_clock d)); [apply keeps_files_raise |].
      destruct (Qle_bool 0 d).
      * apply keeps_files_emit.
      * apply keeps_files_raise.
  - intros _. apply keeps_files_bind.
    + unfold session_get. apply keeps_files_bind; [apply keeps_files_emit |].
      intros _. destruct (net W url);
        [apply keeps_files_raise | apply keeps_files_ret].
    + intro r. apply keeps_files_bind; [| intros _; apply Hk].
      unfold raise_for_status.
      destruct (_ && _)%bool; [apply keeps_files_raise |].
      destruct (_ && _)%bool; [apply keeps_files_raise | apply keeps_files_ret].
Qed.

Lemma keeps_files_page_scraper (W : world) (url msg : string)
  (extract : node -> M dict) :
  (forall soup, keeps_files (extract soup)) ->
  keeps_files
    (logger_info msg ;;
     soup <- _get_page W url ;;
     match soup with
     | None => ret []
     | Some soup => extract soup
     end).
Proof.
  intro Hex. apply keeps_files_bind; [apply keeps_files_emit | intros _].
  apply keeps_files_bind.
  - unfold _get_page. apply keeps_files_try.
    + apply keeps_files_fetch. intro r. unfold BeautifulSoup.
      apply keeps_files_bind; [apply keeps_files_lift |].
      intro; apply keeps_files_ret.
    + intro e. apply keeps_files_bind; [apply keeps_files_emit |].
      intro; apply keeps_files_ret.
  - intros [soup |]; [apply Hex | apply keeps_files_ret].
Qed.

Lemma keeps_files_run_scraper (all_data : list dict) (name : string)
  (scraper : M dict) :
  keeps_files scraper -> keeps_files (run_scraper all_data (name, scraper)).
Proof.
  intro Hs. unfold run_scraper. apply keeps_files_try.
  - apply keeps_files_bind; [exact Hs |]. intro data.
    destruct (Py.dict_truthy data); [| apply keeps_files_ret].
    apply keeps_files_bind; [apply keeps_files_emit |].
    intro; apply keeps_files_ret.
  - intro e. apply keeps_files_bind; [apply keeps_files_emit |].
    intro; apply keeps_files_ret.
Qed.

Lemma keeps_files_run_all_scrapers (W : world) :
  keeps_files (run_all_scrapers W).
Proof.
  unfold run_all_scrapers.
  apply keeps_files_bind;
    [| intro; apply keeps_files_bind;
       [intro st; reflexivity | intro; apply keeps_files_ret]].
  unfold scrapers. cbn [for_each].
  repeat (apply keeps_files_bind;
          [apply keeps_files_run_scraper | intro]);
    try apply keeps_files_ret.
  - unfold scrape_news_site. apply keeps_files_page_scraper. intro soup.
    apply keeps_files_bind; [| intro; apply keeps_files_ret].
    apply keeps_files_for_each. intros acc link. unfold links_step.
    apply keeps_files_bind; [apply keeps_files_lift | intro].
    apply keeps_files_bind; [apply keeps_files_lift | intro].
    apply keeps_files_ret.
  - unfold scrape_quotes_site. apply keeps_files_page_scraper.
    intro; apply keeps_files_ret.
  - unfold scrape_books_site. apply keeps_files_page_scraper.
    intro; apply keeps_files_ret.
  - unfold scrape_json_api.
    apply keeps_files_bind; [apply keeps_files_emit | intros _].
    apply keeps_files_try.
    + apply keeps_files_fetch. intro r.
      apply keeps_files_bind; [| intro; apply keeps_files_ret].
      unfold response_json. apply keeps_files_lift.
    + intro e. apply keeps_files_bind; [apply keeps_files_emit |].
      intro; apply keeps_files_ret.
Qed.

Lemma batch_returns (l : list (string * M dict)) :
  forall all_data st,
  exists all_data' st',
    for_each run_scraper l all_data st = (Ok all_data', st').
Proof.
  induction l as [| scraper l IH]; intros all_data st; simpl.
  - eexists _, _. reflexivity.
  - unfold bind.
    destruct (run_scraper_returns all_data scraper st) as (d1 & s1 & ->).
    apply IH.
Qed.

Lemma run_all_scrapers_returns (W : world) (st : state) :
  exists all_data st',
    run_all_scrapers W st = (Ok all_data, st')
    /\ Forall is_record all_data
    /\ scraped_data (self st') = all_data
    /\ files st' = files st.
Proof.
  pose proof (keeps_files_run_all_scrapers W st) as Hfiles.
  assert (Hret : exists all_data st',
             run_all_scrapers W st = (Ok all_data, st')).
  { unfold run_all_scrapers, bind.
    destruct (batch_returns (scrapers W) [] st) as (d & s1 & ->).
    unfold set_scraped_data, ret. eexists _, _. reflexivity. }
  destruct Hret as (d & st' & Hrun). rewrite Hrun in Hfiles.
  destruct (run_all_scrapers_stores_records W st d st' Hrun) as [Hrec Hstore].
  exists d, st'. auto.
Qed.

(** *** Printing *)

Lemma bind_print {B : Type} (s : string) (k : M B) (st : state) :
  (print_ s ;; k) st = k (snd (print_ s st)).
Proof. reflexivity. Qed.

Lemma print_appends (s : string) (st : state) :
  printed (snd (print_ s st)) = printed st +++ s +++ PyStr.newline
  /\ same_files_but stdout (files st) (files (snd (print_ s st)))
  /\ self (snd (print_ s st)) = self st
  /\ draws (snd (print_ s st)) = draws st
  /\ events (snd (print_ s st)) = events st.
Proof.
  unfold print_, f_write, printed. cbn [snd files self draws events].
  rewrite read_put. repeat split.
  intros other Hother. apply read_put_other. exact Hother.
Qed.

Lemma same_files_but_trans (name : string) (a b c : list (string * string)) :
  same_files_but name a b -> same_files_but name b c -> same_files_but name a c.
Proof.
  intros Hab Hbc other Hother. rewrite (Hbc other Hother). apply Hab, Hother.
Qed.

Lemma same_files_but_refl (name : string) (a : list (string * string)) :
  same_files_but name a a.
Proof. intros other _. reflexivity. Qed.

Lemma only_prints_print (s : string) (st : state) :
  only_prints (s +++ PyStr.newline) st (snd (print_ s st)).
Proof. apply print_appends. Qed.

Lemma only_prints_trans (t1 t2 : string) (a b c : state) :
  only_prints t1 a b -> only_prints t2 b c -> only_prints (t1 +++ t2) a c.
Proof.
  intros (Hp1 & Hf1 & Hs1 & Hd1 & He1) (Hp2 & Hf2 & Hs2 & Hd2 & He2).
  repeat split; try congruence.
  - rewrite Hp2, Hp1. apply append_assoc.
  - eapply same_files_but_trans; eassumption.
Qed.

Lemma is_record_sized (record : dict) :
  is_record record -> unsized_paragraphs record = false.
Proof. destruct 1; reflexivity. Qed.

Lemma summary_step_record (record : dict) (st : state) :
  is_record record ->
  exists st' block,
    summary_step tt record st = (Ok tt, st')
    /\ only_prints block st st'
    /\ block_of record block.
Proof.
  intro Hrec. unfold summary_step. rewrite !bind_print.
  set (s1 := snd (print_ _ st)). set (s2 := snd (print_ _ s1)).
  set (s3 := snd (print_ _ s2)).
  pose proof (only_prints_print
                ("Site: " +++ Py.str (Py.get record "title" (PStr "Unknown")))
                st) as P1.
  pose proof (only_prints_print
                ("URL: " +++ Py.str (Py.get record "url" (PStr "Unknown")))
                s1) as P2.
  pose proof (only_prints_print
                ("Type: " +++ Py.str (Py.get record "type" (PStr "Unknown")))
                s2) as P3.
  fold s1 in P1, P2. fold s2 in P2, P3. fold s3 in P3.
  pose proof (only_prints_trans _ _ _ _ _ P1
                (only_prints_trans _ _ _ _ _ P2 P3)) as P123.
  assert (Hfound : exists label count,
             count_of record = Ok count
             /\ ((Py.contains "quotes" record = true
                  /\ label = "Quotes found: ")
                 \/ (Py.contains "quotes" record = false
                     /\ Py.contains "books" record = true
                     /\ label = "Books found: ")
                 \/ (Py.contains "quotes" record = false
                     /\ Py.contains "books" record = false
                     /\ Py.contains "api_data" record = true
                     /\ label = "API items: ")
                 \/ (Py.contains "quotes" record = false
                     /\ Py.contains "books" record = false
                     /\ Py.contains "api_data" record = false
                     /\ Py.contains "paragraphs" record = true
                     /\ label = "Paragraphs found: "))
             /\ forall s, print_found record s
                          = print_ (label +++ Py.str count) s).
  { destruct Hrec.
    - exists "Paragraphs found: ", (PInt (Py.len_Z paragraphs)).
      split; [reflexivity |]. split; [tauto |]. intro s. reflexivity.
    - exists "Quotes found: ", (PInt (Py.len_Z quotes)).
      split; [reflexivity |]. split; [tauto |]. intro s. reflexivity.
    - exists "Books found: ", (PInt (Py.len_Z books)).
      split; [reflexivity |]. split; [tauto |]. intro s. reflexivity.
    - exists "API items: ", (PInt (total_items_of (limit_posts data))).
      split; [reflexivity |]. split; [tauto |]. intro s. reflexivity. }
  destruct Hfound as (label & count & Hcount & Hlabel & Hprint).
  unfold bind at 1. rewrite Hprint.
  pose proof (only_prints_print (label +++ Py.str count) s3) as P4.
  set (s4 := snd (print_ _ s3)) in *.
  pose proof (only_prints_print (str_times "-" 30) s4) as P5.
  change (print_ (label +++ Py.str count) s3) with (Ok tt, s4).
  cbv iota beta.
  change (print_ (str_times "-" 30) s4)
    with (Ok tt, snd (print_ (str_times "-" 30) s4)).
  eexists _, _. split; [reflexivity |]. split.
  - exact (only_prints_trans _ _ _ _ _ P123 (only_prints_trans _ _ _ _ _ P4 P5)).
  - exists label, count. split; [exact Hcount |]. split; [exact Hlabel |].
    cbn [lines_text map fold_right]. rewrite append_empty_r.
    rewrite !append_assoc. reflexivity.
Qed.

Lemma only_prints_refl (st : state) : only_prints EmptyString st st.
Proof.
  repeat split; auto using same_files_but_refl.
  symmetry. apply append_empty_r.
Qed.

Lemma summary_loop (store : list dict) :
  Forall is_record store ->
  forall st,
  exists st' blocks,
    for_each summary_step store tt st = (Ok tt, st')
    /\ only_prints (lines_text blocks) st st'
    /\ Forall2 block_of store blocks.
Proof.
  induction 1 as [| record store Hrec _ IH]; intro st; cbn [for_each].
  - exists st, []. split; [reflexivity |].
    split; [apply only_prints_refl | constructor].
  - destruct (summary_step_record record st Hrec) as (s1 & block & Hstep & Hp & Hb).
    unfold bind at 1. rewrite Hstep.
    destruct (IH s1) as (s2 & blocks & Hloop & Hp2 & Hbs).
    exists s2, (block :: blocks). split; [exact Hloop |].
    split; [| constructor; assumption].
    cbn [lines_text fold_right]. eapply only_prints_trans; eassumption.
Qed.

(** *** web_scraper.main *)

Lemma main_unfolds (W : world) (st : state) :
  main W st
  = (data <- run_all_scrapers W ;;
     match data with
     | _ :: _ =>
         save_to_json default_json_filename ;;
         save_to_csv default_csv_filename ;;
         logger_info ("Scraping completed! Collected data from "
                      +++ PyStr.of_Z (Py.len_Z data) +++ " sites") ;;
         print_ (PyStr.newline +++ str_times "=" 50) ;;
         print_ "SCRAPING SUMMARY" ;;
         print_ (str_times "=" 50) ;;
         for_each summary_step data tt
     | [] => logger_warning "No data was scraped successfully"
     end) (main_start st).
Proof. reflexivity. Qed.

Lemma stdout_is_no_export :
  default_json_filename <> stdout /\ default_csv_filename <> stdout
  /\ default_json_filename <> default_csv_filename.
Proof. repeat split; discriminate. Qed.

(** All that [main] does. *)
Lemma main_run (W : world) (st : state) :
  exists st',
    main W st = (Ok tt, st')
    /\ Forall is_record (scraped_data (self st'))
    /\ (scraped_data (self st') = [] ->
        files st' = files st
        /\ exists earlier,
            events st'
            = earlier ++ [Log WARNING "No data was scraped successfully"])
    /\ (scraped_data (self st') <> [] ->
        Fs.read default_json_filename (files st')
        = Some (Json.dumps (PList (map PDict (scraped_data (self st')))))
        /\ (exists rows,
               Fs.read default_csv_filename (files st')
               = Some (lines_text (map Csv.row_line (csv_header :: rows)))
               /\ Forall2 row_of (scraped_data (self st')) rows)
        /\ (exists blocks,
               printed st'
               = printed st +++ summary_heading +++ lines_text blocks
               /\ Forall2 block_of (scraped_data (self st')) blocks)).
Proof.
  rewrite main_unfolds.
  destruct (run_all_scrapers_returns W (main_start st))
    as (data & s1 & Hrun & Hrec & Hstore & Hfiles).
  unfold bind at 1. rewrite Hrun.
  destruct data as [| record data].
  - unfold logger_warning, emit. eexists. split; [reflexivity |].
    cbn [self files events]. rewrite Hstore. split; [constructor |].
    split; [| intro H; contradiction H; reflexivity].
    intros _. split; [exact Hfiles | eauto].
  - destruct (save_to_json_any default_json_filename s1)
      as (j & Hj & Hjread & Hjfiles & Hjself & _ & _).
    unfold bind at 1. rewrite Hj.
    assert (Hne : scraped_data (self j) <> [])
      by (rewrite Hjself, Hstore; discriminate).
    destruct (save_to_csv_any default_csv_filename j Hne)
      as (c & Hc & Hcread & Hcfiles & Hcself & _ & _).
    assert (Hsized : Forall (fun r => unsized_paragraphs r = false)
                            (scraped_data (self j))).
    { rewrite Hjself, Hstore. eapply Forall_impl; [| exact Hrec].
      apply is_record_sized. }
    destruct (rows_written_sized _ Hsized) as [Hres Hrows].
    rewrite Hres in Hc. unfold bind at 1. rewrite Hc.
    unfold logger_info at 1. rewrite bind_emit. rewrite !bind_print.
    set (c1 := snd (emit _ c)).
    set (p1 := snd (print_ _ c1)). set (p2 := snd (print_ _ p1)).
    set (p3 := snd (print_ _ p2)).
    pose proof (only_prints_print (PyStr.newline +++ str_times "=" 50) c1)
      as P1.
    pose proof (only_prints_print "SCRAPING SUMMARY" p1) as P2.
    pose proof (only_prints_print (str_times "=" 50) p2) as P3.
    fold p1 in P1, P2. fold p2 in P2, P3. fold p3 in P3.
    destruct (summary_loop (record :: data) Hrec p3)
      as (st' & blocks & Hloop & P4 & Hblocks).
    rewrite Hloop.
    pose proof (only_prints_trans _ _ _ _ _ P1
                  (only_prints_trans _ _ _ _ _ P2
                     (only_prints_trans _ _ _ _ _ P3 P4)))
      as (Hprinted & Hsame & Hself & _ & _).
    destruct stdout_is_no_export as (Hjs & Hcs & Hjc).
    assert (Hstore' : scraped_data (self st') = record :: data).
    { rewrite Hself. subst c1. cbn [emit snd self].
      rewrite Hcself, Hjself. exact Hstore. }
    exists st'. split; [reflexivity |]. rewrite Hstore'.
    split; [exact Hrec |]. split; [discriminate |].
    intros _. split; [| split].
    + rewrite (Hsame _ Hjs). subst c1. cbn [emit snd files].
      rewrite (Hcfiles _ Hjc), Hjread, Hstore. reflexivity.
    + exists (snd (rows_written (scraped_data (self j)))).
      split.
      * rewrite (Hsame _ Hcs). subst c1. cbn [emit snd files]. exact Hcread.
      * rewrite Hjself, Hstore in Hrows. rewrite Hjself, Hstore. exact Hrows.
    + exists blocks. split; [| exact Hblocks].
      assert (Hout : printed c1 = printed st).
      { unfold printed. subst c1. cbn [emit snd files].
        rewrite (Hcfiles stdout) by (intro E; apply Hcs; symmetry; exact E).
        rewrite (Hjfiles stdout) by (intro E; apply Hjs; symmetry; exact E).
        rewrite Hfiles. reflexivity. }
      rewrite Hprinted, Hout. f_equal.
Qed.

(** X13.  [main] calls both exports outside any [try], so it returns
    normally only when both succeed.  A run of [main] that returns
    normally has done this: when no source could be scraped it has
    written no file at all and its last log line is the warning "No data
    was scraped successfully"; when at least one source was scraped it has
    written both exports of the store it scraped: scraped_data.json holds
    the JSON document of the store, and scraped_summary.csv holds the
    header row and one row per record, in store order. *)
Theorem main_exports_what_it_scraped (W : world) (st st' : state) :
  main W st = (Ok tt, st') ->
  Forall is_record (scraped_data (self st'))
  /\ (scraped_data (self st') = [] ->
      files st' = files st
      /\ exists earlier,
          events st'
          = earlier ++ [Log WARNING "No data was scraped successfully"])
  /\ (scraped_data (self st') <> [] ->
      Fs.read default_json_filename (files st')
      = Some (Json.dumps (PList (map PDict (scraped_data (self st')))))
      /\ exists rows,
          Fs.read default_csv_filename (files st')
          = Some (lines_text (map Csv.row_line (csv_header :: rows)))
          /\ Forall2 row_of (scraped_data (self st')) rows).
Proof.
  intro Hreturns.
  destruct (main_run W st) as (st0 & Hrun & Hrec & Hempty & Hfull).
  rewrite Hreturns in Hrun. injection Hrun as <-.
  split; [exact Hrec |]. split; [exact Hempty |]. intro Hne.
  destruct (Hfull Hne) as (Hjson & Hcsv & _). auto.
Qed.

(** X14.  A run of [main] that has scraped at least one source and
    returns normally has printed, after the heading, one block per record
    of the store, in store order: the title, the URL and the type of the
    record, then its count under the label of its collection, then a rule.
    The count printed for a record is the count the chain of [save_to_csv]
    gives for it, so the printed summary and the CSV summary show the same
    counts.  A run that scraped nothing prints nothing. *)
Theorem main_prints_the_summary (W : world) (st st' : state) :
  main W st = (Ok tt, st') ->
  (scraped_data (self st') <> [] ->
   exists blocks rows,
     printed st' = printed st +++ summary_heading +++ lines_text blocks
     /\ Forall2 block_of (scraped_data (self st')) blocks
     /\ Fs.read default_csv_filename (files st')
        = Some (lines_text (map Csv.row_line (csv_header :: rows)))
     /\ Forall2 row_of (scraped_data (self st')) rows)
  /\ (scraped_data (self st') = [] -> printed st' = printed st).
Proof.
  intro Hreturns.
  destruct (main_run W st) as (st0 & Hrun & Hrec & Hempty & Hfull).
  rewrite Hreturns in Hrun. injection Hrun as <-.
  split.
  - intro Hne.
    destruct (Hfull Hne) as (_ & (rows & Hcsv & Hrows) & (blocks & Hp & Hb)).
    exists blocks, rows. auto.
  - intro He. destruct (Hempty He) as (Hfiles & _).
    unfold printed. rewrite Hfiles. reflexivity.
Qed.

(** *** example_usage.py *)

Lemma bind_new_scraper {B : Type} (range : Q * Q) (k : M B) (st : state) :
  (new_scraper range ;; k) st
  = k (mkState (mkWebScraper range []) (draws st) (events st) (files st)).
Proof. reflexivity. Qed.

Lemma print_other_file (s : string) (st : state) (name : string) :
  name <> stdout ->
  Fs.read name (files (snd (print_ s st))) = Fs.read name (files st).
Proof.
  intro Hne. destruct (print_appends s st) as (_ & Hsame & _).
  apply Hsame. exact Hne.
Qed.

Lemma example_files_are_no_stdout :
  example_json_filename <> stdout /\ example_csv_filename <> stdout
  /\ example_json_filename <> example_csv_filename
  /\ example_csv_filename <> example_json_filename.
Proof. repeat split; discriminate. Qed.

(** All that [example_basic_usage] does. *)
Lemma example_basic_usage_run (W : world) (st : state) :
  exists data st',
    example_basic_usage W st = (Ok data, st')
    /\ Forall is_record data
    /\ scraped_data (self st') = data
    /\ Fs.read example_json_filename (files st')
       = Some (Json.dumps (PList (map PDict data)))
    /\ (data = [] ->
        Fs.read example_json_filename (files st') = Some "[]"
        /\ Fs.read example_csv_filename (files st')
           = Fs.read example_csv_filename (files st))
    /\ (data <> [] ->
        exists rows,
          Fs.read example_csv_filename (files st')
          = Some (lines_text (map Csv.row_line (csv_header :: rows)))
          /\ Forall2 row_of data rows).
Proof.
  destruct example_files_are_no_stdout as (Hjs & Hcs & Hjc & Hcj).
  unfold example_basic_usage.
  rewrite bind_print, bind_new_scraper, bind_print.
  set (p1 := snd (print_ "=== Basic Usage Example ===" st)).
  set (n1 := mkState _ _ _ _).
  set (p2 := snd (print_ "Running all scrapers..." n1)).
  destruct (run_all_scrapers_returns W p2)
    as (data & s1 & Hrun & Hrec & Hstore & Hfiles).
  unfold bind at 1. rewrite Hrun.
  destruct (save_to_json_any example_json_filename s1)
    as (j & Hj & Hjread & Hjfiles & Hjself & _ & _).
  unfold bind at 1. rewrite Hj. rewrite Hstore in Hjread.
  assert (Hcsv_before :
            Fs.read example_csv_filename (files j)
            = Fs.read example_csv_filename (files st)).
  { rewrite (Hjfiles _ Hcj), Hfiles. subst p2.
    rewrite (print_other_file _ _ _ Hcs). subst n1. cbn [files]. subst p1.
    apply print_other_file. exact Hcs. }
  destruct data as [| record data].
  - assert (He : scraped_data (self j) = []) by (rewrite Hjself; exact Hstore).
    unfold bind at 1. rewrite (save_to_csv_empty _ j He).
    rewrite bind_print. unfold ret.
    eexists [], _. split; [reflexivity |].
    split; [constructor |].
    destruct (print_appends
                ("Successfully scraped " +++ PyStr.of_Z (Py.len_Z (@nil dict))
                 +++ " sites")
                (mkState (self j) (draws j)
                         (events j ++ [Log WARNING "No data to save"])
                         (files j)))
      as (_ & Hsame & Hself & _ & _).
    split; [rewrite Hself; exact He |].
    rewrite (Hsame _ Hjs), (Hsame _ Hcs). cbn [files].
    split; [exact Hjread |]. split; [| intro H; contradiction H; reflexivity].
    intros _. split; [exact Hjread | exact Hcsv_before].
  - assert (Hne : scraped_data (self j) <> [])
      by (rewrite Hjself, Hstore; discriminate).
    destruct (save_to_csv_any example_csv_filename j Hne)
      as (c & Hc & Hcread & Hcfiles & Hcself & _ & _).
    assert (Hsized : Forall (fun r => unsized_paragraphs r = false)
                            (scraped_data (self j))).
    { rewrite Hjself, Hstore. eapply Forall_impl; [| exact Hrec].
      apply is_record_sized. }
    destruct (rows_written_sized _ Hsized) as [Hres Hrows].
    rewrite Hres in Hc. unfold bind at 1. rewrite Hc.
    rewrite bind_print. unfold ret.
    eexists (record :: data), _. split; [reflexivity |].
    split; [exact Hrec |].
    destruct (print_appends
                ("Successfully scraped "
                 +++ PyStr.of_Z (Py.len_Z (record :: data)) +++ " sites") c)
      as (_ & Hsame & Hself & _ & _).
    split; [rewrite Hself, Hcself, Hjself; exact Hstore |].
    rewrite (Hsame _ Hjs), (Hsame _ Hcs), (Hcfiles _ Hjc).
    split; [exact Hjread |]. split; [discriminate |].
    intros _. exists (snd (rows_written (scraped_data (self j)))).
    split; [exact Hcread |].
    rewrite Hjself, Hstore in Hrows |- *. exact Hrows.
Qed.

(** X15.  [example_basic_usage] calls both exports outside any [try],
    so it returns normally only when both succeed; it then returns the
    store of its run.  Unlike [web_scraper.main] it exports without
    looking at the store: when it returns, example_output.json has been
    written and holds the JSON document of the store, which is [] when
    nothing was scraped, while example_summary.csv has been written only
    for a store that is not empty, and then holds the header row and one
    row per record. *)
Theorem example_basic_usage_exports (W : world) (st : state)
  (data : list dict) (st' : state) :
  example_basic_usage W st = (Ok data, st') ->
  Forall is_record data
  /\ scraped_data (self st') = data
  /\ Fs.read example_json_filename (files st')
     = Some (Json.dumps (PList (map PDict data)))
  /\ (data = [] ->
      Fs.read example_json_filename (files st') = Some "[]"
      /\ Fs.read example_csv_filename (files st')
         = Fs.read example_csv_filename (files st))
  /\ (data <> [] ->
      exists rows,
        Fs.read example_csv_filename (files st')
        = Some (lines_text (map Csv.row_line (csv_header :: rows)))
        /\ Forall2 row_of data rows).
Proof.
  intro Hreturns.
  destruct (example_basic_usage_run W st) as (data0 & st0 & Hrun & H).
  rewrite Hreturns in Hrun. injection Hrun as <- <-. exact H.
Qed.

(** *** Scrapers on a network that fails only as they handle *)

Lemma fetch_attempt_cases (W : world) (url : string) (st : state) :
  (forall e, net W url = GetRaises e -> is_RequestException e = true) ->
  can_sleep (next_delay W st) = true ->
  (exists r, fetch_succeeds W url st r)
  \/ (exists e st1,
         fetch_attempt W url st = (Raise e, st1)
         /\ is_RequestException e = true).
Proof.
  intros Hnet Hsleep.
  destruct (net W url) as [e | r] eqn:Hget.
  - right. exists e. eexists. split; [| exact (Hnet e eq_refl)].
    unfold fetch_attempt, _rate_limit, get_self, random_uniform,
      random_random, session_get, bind, ret.
    fold (next_delay W st). rewrite (time_sleep_accepts _ Hsleep).
    unfold emit; simpl. rewrite Hget. reflexivity.
  - destruct (status_passes r) eqn:Hstatus.
    + left. exists r. repeat split; assumption.
    + right.
      assert (Hcode : (400 <= status_code r < 600)%Z).
      { unfold status_passes in Hstatus.
        destruct (Z.leb_spec 400 (status_code r));
          destruct (Z.ltb_spec (status_code r) 600);
          simpl in Hstatus; try discriminate; lia. }
      destruct (fetch_attempt_error_status W url st r Hsleep Hget Hcode)
        as (msg & st1 & Hf).
      eexists _, st1. split; [exact Hf | reflexivity].
Qed.

Lemma serves_pages_errors (W : world) (url : string) :
  serves_pages W ->
  forall e, net W url = GetRaises e -> is_RequestException e = true.
Proof. intros H e He. specialize (H url). rewrite He in H. exact H. Qed.

Lemma serves_pages_markup (W : world) (url : string) (st : state)
  (r : response) :
  serves_pages W -> fetch_succeeds W url st r ->
  exists soup, content_soup r = Ok soup.
Proof.
  intros H (_ & Hnet & _). specialize (H url). rewrite Hnet in H. exact H.
Qed.

Lemma serves_json_errors (W : world) (url : string) :
  serves_json W ->
  forall e, net W url = GetRaises e -> is_RequestException e = true.
Proof. intros H e He. specialize (H url). rewrite He in H. exact H. Qed.

Lemma page_scraper_request_error (W : world) (url msg : string)
  (extract : node -> M dict) (st : state) (e : exn) (st1 : state) :
  fetch_attempt W url st = (Raise e, st1) ->
  is_RequestException e = true ->
  exists st',
    (logger_info msg ;;
     soup <- _get_page W url ;;
     match soup with
     | None => ret []
     | Some soup => extract soup
     end) st = (Ok [], st').
Proof.
  intros Hf He.
  pose proof (page_scraper_failed_fetch W url msg extract st e st1 Hf) as H.
  rewrite He in H. destruct H as (st' & Hrun & _). exists st'. exact Hrun.
Qed.

Lemma entries_are_quote_shaped (cs : list node) (emitted : list pyval) :
  Forall2 entry_of_quote cs emitted -> Forall quote_shaped emitted.
Proof.
  induction 1 as [| c q cs emitted (t & a & _ & _ & ->) _ IH];
    constructor; [| exact IH].
  eexists _, _, _. reflexivity.
Qed.


Lemma scrape_quotes_site_outcome (W : world) (url : string) (st : state) :
  serves_pages W ->
  can_sleep (next_delay W st) = true ->
  exists d st',
    scrape_quotes_site W url st = (Ok d, st')
    /\ well_shaped "quotes" quote_shaped d
    /\ (d = [] \/ record_of_source "quotes_site" url d).
Proof.
  intros Hnet Hsleep.
  destruct (fetch_attempt_cases W url st (serves_pages_errors W url Hnet)
              Hsleep)
    as [(r & Hok) | (e & st1 & Hf & He)].
  - destruct (serves_pages_markup W url st r Hnet Hok) as (soup & Hsoup).
    destruct (scrape_quotes_site_ok W url st r soup Hok Hsoup)
      as (title & st' & Hrun).
    destruct (quotes_loop (quote_containers soup) [])
      as (emitted & Hfold & Hall).
    cbn [app] in Hfold. rewrite Hfold in Hrun.
    eexists _, st'. split; [exact Hrun |]. split.
    + right. exists emitted. split; [reflexivity |].
      eapply entries_are_quote_shaped. exact Hall.
    + right. split; reflexivity.
  - assert (H : exists st', scrape_quotes_site W url st = (Ok [], st')).
    { unfold scrape_quotes_site.
      eapply page_scraper_request_error; eassumption. }
    destruct H as (st' & Hrun).
    exists [], st'. split; [exact Hrun |]. split; left; reflexivity.
Qed.


Lemma scrape_json_api_outcome (W : world) (url : string) (st : state) :
  serves_json W ->
  can_sleep (next_delay W st) = true ->
  exists d st',
    scrape_json_api W url st = (Ok d, st')
    /\ (d = [] \/ record_of_source "json_api" url d).
Proof.
  intros Hnet Hsleep.
  destruct (fetch_attempt_cases W url st (serves_json_errors W url Hnet)
              Hsleep)
    as [(r & Hok) | (e & st1 & Hf & He)].
  - pose proof (Hnet url) as Hjson.
    destruct Hok as (Hs & Hget & Hstatus). rewrite Hget in Hjson.
    assert (Hok : fetch_succeeds W url st r) by (repeat split; assumption).
    destruct (content_json r) as [data | e] eqn:Hbody.
    + destruct (scrape_json_api_ok W url st r data Hok Hbody) as (st' & Hrun).
      eexists _, st'. split; [exact Hrun |]. right. split; reflexivity.
    + pose proof (scrape_json_api_refused_body W url st r e Hok Hbody) as H.
      rewrite Hjson in H. destruct H as (st' & Hrun & _).
      exists [], st'. split; [exact Hrun | left; reflexivity].
  - pose proof (scrape_json_api_failed_fetch W url st e st1 Hf) as H.
    cbn [handled] in H. rewrite He in H. cbn [orb] in H.
    destruct H as (st' & Hrun & _).
    exists [], st'. split; [exact Hrun | left; reflexivity].
Qed.

Lemma scrape_quotes_site_sleeps_then_gets (W : world) (url : string) :
  sleeps_then_gets W url (scrape_quotes_site W url).
Proof.
  unfold scrape_quotes_site. apply page_scraper_sleeps_then_gets.
  intro; apply silent_ret.
Qed.


Lemma scrape_json_api_sleeps_then_gets (W : world) (url : string) :
  sleeps_then_gets W url (scrape_json_api W url).
Proof.
  unfold scrape_json_api, logger_info. apply sleeps_then_gets_after_log.
  apply sleeps_then_gets_try.
  - apply sleeps_then_gets_prefix. intro r.
    apply silent_bind; [| intro; apply silent_ret].
    unfold response_json.
    apply silent_lift.
  - intro e.
    apply silent_bind; [apply silent_log | intro; apply silent_ret].
Qed.




Lemma sane_delay (W : world) (st : state) (lo hi : Q) :
  delay_range (self st) = (lo, hi) ->
  (0 <= lo)%Q -> (lo <= hi)%Q -> (hi <= longest_sleep)%Q ->
  can_sleep (next_delay W st) = true
  /\ delay_between (lo, hi) (next_delay W st).
Proof.
  intros Hrange Hpos Hord Hcap.
  assert (Hord' : (fst (delay_range (self st))
                   <= snd (delay_range (self st)))%Q)
    by (rewrite Hrange; exact Hord).
  destruct (next_delay_ordered W st Hord') as [Hlo Hhi].
  rewrite Hrange in Hlo, Hhi. cbn [fst snd] in Hlo, Hhi.
  split; [| split; assumption].
  apply (can_sleep_within _ hi); auto.
  eapply Qle_trans; eassumption.
Qed.




(** All that [example_custom_configuration] does on a network that
    serves pages and JSON. *)
Lemma example_custom_configuration_run (W : world) (st : state) :
  serves_pages W ->
  serves_json W ->
  exists quotes api st' d1 d2,
    example_custom_configuration W st = (Ok (quotes ++ api), st')
    /\ at_most_one "quotes_site" quotes_page2_url quotes
    /\ at_most_one "json_api" users_url api
    /\ traffic_of (events st')
       = traffic_of (events st)
         ++ [Sleep d1; Get quotes_page2_url; Sleep d2; Get users_url]
    /\ delay_between (2, 4)%Q d1
    /\ delay_between (2, 4)%Q d2.
Proof.
  intros Hnet Hjson. unfold example_custom_configuration.
  rewrite bind_print, bind_new_scraper. cbv zeta.
  set (p1 := snd (print_ _ st)). set (n1 := mkState _ _ _ _).
  assert (Hn1 : delay_range (self n1) = (2, 4)%Q
                /\ traffic_of (events n1) = traffic_of (events st)).
  { subst n1. cbn [self events delay_range].
    destruct (print_appends
                (PyStr.newline +++ "=== Custom Configuration Example ===") st)
      as (_ & _ & _ & _ & He1).
    fold p1 in He1. rewrite He1. auto. }
  destruct Hn1 as (Hr1 & Ht1).
  destruct (sane_delay W n1 2 4 Hr1) as (Hsleep1 & Hd1);
    [unfold Qle; simpl; lia | unfold Qle; simpl; lia
     | unfold Qle; simpl; lia |].
  destruct (scrape_quotes_site_outcome W quotes_page2_url n1 Hnet Hsleep1)
    as (page2 & s1 & Hq & _ & Hqsrc).
  pose proof (scrape_quotes_site_sleeps_then_gets W quotes_page2_url n1
                Hsleep1) as (Hrs1 & _ & Htr1).
  rewrite Hq in Hrs1, Htr1. cbn [snd] in Hrs1, Htr1.
  unfold bind at 1. rewrite Hq.
  assert (Hfirst : exists quotes s2,
             (if Py.dict_truthy page2
              then print_ ("Page 2 quotes: "
                           +++ Py.str (Py.get page2 "total_quotes" (PInt 0))) ;;
                   ret ([] ++ [page2])
              else ret []) s1 = (Ok quotes, s2)
             /\ at_most_one "quotes_site" quotes_page2_url quotes
             /\ self s2 = self s1 /\ events s2 = events s1).
  { destruct page2 as [| kv page2]; cbn [Py.dict_truthy].
    - exists [], s1. split; [reflexivity |]. split; [left; reflexivity | auto].
    - rewrite bind_print. unfold ret.
      destruct (print_appends
                  ("Page 2 quotes: "
                   +++ Py.str (Py.get (kv :: page2) "total_quotes" (PInt 0)))
                  s1) as (_ & _ & Hs & _ & He).
      eexists [_], _. split; [reflexivity |]. split; [| auto].
      right. eexists. split; [reflexivity |].
      destruct Hqsrc as [H | H]; [discriminate | exact H]. }
  destruct Hfirst as (quotes & s2 & Hstep & Hquotes & Hs2 & He2).
  unfold bind at 1. rewrite Hstep.
  assert (Hr2 : delay_range (self s2) = (2, 4)%Q) by congruence.
  destruct (sane_delay W s2 2 4 Hr2) as (Hsleep2 & Hd2);
    [unfold Qle; simpl; lia | unfold Qle; simpl; lia
     | unfold Qle; simpl; lia |].
  destruct (scrape_json_api_outcome W users_url s2 Hjson Hsleep2)
    as (users & s3 & Ha & Hasrc).
  pose proof (scrape_json_api_sleeps_then_gets W users_url s2 Hsleep2)
    as (_ & _ & Htr3).
  rewrite Ha in Htr3. cbn [snd] in Htr3.
  unfold bind at 1. rewrite Ha.
  destruct users as [| kv users]; cbn [Py.dict_truthy].
  - exists quotes, [], s3, (next_delay W n1), (next_delay W s2).
    rewrite app_nil_r. split; [reflexivity |].
    split; [exact Hquotes |]. split; [left; reflexivity |].
    split; [| split; assumption].
    rewrite Htr3, He2, Htr1, Ht1, <- app_assoc. reflexivity.
  - rewrite bind_print. unfold ret.
    destruct (print_appends
                ("API users: "
                 +++ Py.str (Py.get (kv :: users) "total_items" (PInt 0)))
                s3) as (_ & _ & _ & _ & He).
    eexists quotes, [_], _, (next_delay W n1), (next_delay W s2).
    split; [reflexivity |]. split; [exact Hquotes |].
    split.
    + right. eexists. split; [reflexivity |].
      destruct Hasrc as [H | H]; [discriminate | exact H].
    + split; [| split; assumption].
      rewrite He, Htr3, He2, Htr1, Ht1, <- app_assoc. reflexivity.
Qed.

(** X17.  On a network where a request raises nothing but request errors,
    the parser accepts the markup of every response and [response.json()]
    raises nothing but the decode error, [example_custom_configuration]
    returns the records it could scrape from its two custom URLs, in this
    order: at most one record of page 2 of the quotes site, then at most
    one record of the users endpoint.  It sends exactly these two requests,
    each after one sleep of 2 to 4 seconds. *)
Theorem example_custom_configuration_collects (W : world) (st : state) :
  serves_pages W ->
  serves_json W ->
  exists quotes api st' traffic,
    example_custom_configuration W st = (Ok (quotes ++ api), st')
    /\ at_most_one "quotes_site" quotes_page2_url quotes
    /\ at_most_one "json_api" users_url api
    /\ traffic_of (events st') = traffic_of (events st) ++ traffic
    /\ paced (delay_between (2, 4)%Q) [quotes_page2_url; users_url] traffic.
Proof.
  intros Hnet Hjson.
  destruct (example_custom_configuration_run W st Hnet Hjson)
    as (quotes & api & st' & d1 & d2 & Hrun & Hq & Ha & Htraffic & H1 & H2).
  exists quotes, api, st',
    [Sleep d1; Get quotes_page2_url; Sleep d2; Get users_url].
  split; [exact Hrun |]. split; [exact Hq |]. split; [exact Ha |].
  split; [exact Htraffic |].
  apply paced_cons; [assumption |].
  apply paced_cons; [assumption | apply paced_nil].
Qed.

(** *** The main of the examples *)

Lemma display_step_record (record : dict) (st : state) :
  is_record record ->
  exists st' text,
    display_step tt record st = (Ok tt, st') /\ only_prints text st st'.
Proof.
  intro Hrec. unfold display_step. rewrite !bind_print.
  set (s1 := snd (print_ _ st)). set (s2 := snd (print_ _ s1)).
  set (s3 := snd (print_ _ s2)).
  pose proof (only_prints_print
                ("Site: " +++ Py.str (Py.get record "title" (PStr "Unknown")))
                st) as P1.
  pose proof (only_prints_print
                ("URL: " +++ Py.str (Py.get record "url" (PStr "Unknown")))
                s1) as P2.
  pose proof (only_prints_print
                ("Type: " +++ Py.str (Py.get record "type" (PStr "Unknown")))
                s2) as P3.
  fold s1 in P1, P2. fold s2 in P2, P3. fold s3 in P3.
  assert (Hdata : exists line, forall s, print_data record s = print_ line s).
  { destruct Hrec; eexists; intro s; reflexivity. }
  destruct Hdata as (line & Hprint).
  unfold bind at 1. rewrite Hprint.
  pose proof (only_prints_print line s3) as P4.
  set (s4 := snd (print_ line s3)) in *.
  pose proof (only_prints_print (str_times "-" 40) s4) as P5.
  change (print_ line s3) with (Ok tt, s4). cbv iota beta.
  change (print_ (str_times "-" 40) s4)
    with (Ok tt, snd (print_ (str_times "-" 40) s4)).
  eexists _, _. split; [reflexivity |].
  exact (only_prints_trans _ _ _ _ _ P1
           (only_prints_trans _ _ _ _ _ P2
              (only_prints_trans _ _ _ _ _ P3
                 (only_prints_trans _ _ _ _ _ P4 P5)))).
Qed.

Lemma display_summary_prints (data : list dict) (st : state) :
  Forall is_record data ->
  exists st' text,
    display_summary data st = (Ok tt, st') /\ only_prints text st st'.
Proof.
  intro Hrec. unfold display_summary. rewrite !bind_print.
  set (s1 := snd (print_ _ st)). set (s2 := snd (print_ _ s1)).
  pose proof (only_prints_print
                (PyStr.newline +++ "=== SCRAPING SUMMARY ===") st) as P1.
  pose proof (only_prints_print (str_times "-" 40) s1) as P2.
  fold s1 in P1, P2. fold s2 in P2.
  assert (Hloop : forall s, exists s' text,
             for_each display_step data tt s = (Ok tt, s')
             /\ only_prints text s s').
  { induction Hrec as [| record data Hr _ IH]; intro s; cbn [for_each].
    - exists s, EmptyString. split; [reflexivity | apply only_prints_refl].
    - destruct (display_step_record record s Hr) as (a & t1 & Hstep & Pa).
      unfold bind at 1. rewrite Hstep.
      destruct (IH a) as (b & t2 & Hrest & Pb).
      exists b, (t1 +++ t2). split; [exact Hrest |].
      eapply only_prints_trans; eassumption. }
  destruct (Hloop s2) as (s3 & text & Hrun & P3).
  eexists s3, _. split; [exact Hrun |].
  exact (only_prints_trans _ _ _ _ _ P1 (only_prints_trans _ _ _ _ _ P2 P3)).
Qed.




(** ** Further concrete runs *)

Lemma sample_serves_pages : serves_pages Sample.all_up.
Proof.
  intro url. unfold Sample.all_up. cbn [net].
  destruct (String.eqb url default_quotes_url); [eexists; reflexivity |].
  destruct (String.eqb url default_books_url); [eexists; reflexivity |].
  destruct (String.eqb url default_api_url); eexists; reflexivity.
Defined.

Lemma sample_serves_json : serves_json Sample.all_up.
Proof.
  intro url. unfold Sample.all_up. cbn [net].
  destruct (String.eqb url default_quotes_url); [reflexivity |].
  destruct (String.eqb url default_books_url); [reflexivity |].
  destruct (String.eqb url default_api_url); [exact I | reflexivity].
Defined.

Lemma sample_main_returns :
  main Sample.all_up Sample.start = (Ok tt, Cases.after_main).
Proof. vm_compute. reflexivity. Defined.

Lemma sample_main_scrapes : scraped_data (self Cases.after_main) <> [].
Proof. vm_compute. discriminate. Defined.

Lemma sample_basic_returns :
  example_basic_usage Sample.all_up Sample.start
  = (Ok (scraped_data (self Cases.after_basic)), Cases.after_basic).
Proof. vm_compute. reflexivity. Defined.



(** With the range (-2, -1) nothing is requested, and each of the four
    scrapers is reported with the sleep that was refused. *)
Lemma negative_range_fetches_nothing_witness :
  (fst (delay_range (self Cases.below_zero)) < 0)%Q
  /\ (snd (delay_range (self Cases.below_zero)) < 0)%Q
  /\ (- longest_sleep <= fst (delay_range (self Cases.below_zero)))%Q
  /\ (- longest_sleep <= snd (delay_range (self Cases.below_zero)))%Q
  /\ exists st',
       run_all_scrapers Sample.all_up Cases.below_zero = (Ok [], st')
       /\ traffic_of (events st') = []
       /\ errors_logged st' = 4.
Proof.
  assert (H1 : (fst (delay_range (self Cases.below_zero)) < 0)%Q)
    by (unfold Qlt; simpl; lia).
  assert (H2 : (snd (delay_range (self Cases.below_zero)) < 0)%Q)
    by (unfold Qlt; simpl; lia).
  assert (H3 : (- longest_sleep
                <= fst (delay_range (self Cases.below_zero)))%Q)
    by (unfold Qle; simpl; lia).
  assert (H4 : (- longest_sleep
                <= snd (delay_range (self Cases.below_zero)))%Q)
    by (unfold Qle; simpl; lia).
  split; [exact H1 |]. split; [exact H2 |].
  split; [exact H3 |]. split; [exact H4 |].
  destruct (negative_range_fetches_nothing Sample.all_up Cases.below_zero
              H1 H2 H3 H4) as (st' & Hrun & _ & _ & Hev & Htraffic).
  exists st'. split; [exact Hrun |]. split; [exact Htraffic |].
  unfold errors_logged. rewrite Hev. reflexivity.
Defined.

(** The quotes page under three statuses: a 404 gives [{}] and one ERROR
    line; a 302 is parsed and gives a record; a 200 whose markup the parser
    rejects reaches the caller as the parser's exception. *)
Lemma status_code_decides_fetch_witness :
  (exists st',
      scrape_quotes_site Cases.not_found default_quotes_url Sample.start
      = (Ok [], st')
      /\ errors_logged st' = 1)
  /\ (exists record st',
        scrape_quotes_site Cases.moved default_quotes_url Sample.start
        = (Ok record, st')
        /\ record <> []
        /\ errors_logged st' = 0)
  /\ (exists st',
        scrape_quotes_site Cases.rejecting default_quotes_url Sample.start
        = (Raise Cases.rejected_markup, st')
        /\ errors_logged st' = 0).
Proof.
  split; [| split].
  - assert (Hsleep : can_sleep (next_delay Cases.not_found Sample.start)
                     = true) by (vm_compute; reflexivity).
    destruct (status_code_decides_fetch Cases.not_found default_quotes_url
                Sample.start Cases.not_found_response Hsleep eq_refl)
      as (Hfail & _).
    assert (Hcode : (400 <= status_code Cases.not_found_response < 600)%Z)
      by (simpl; lia).
    exact (Hfail Hcode QuoteList).
  - assert (Hsleep : can_sleep (next_delay Cases.moved Sample.start) = true)
      by (vm_compute; reflexivity).
    destruct (status_code_decides_fetch Cases.moved default_quotes_url
                Sample.start Cases.moved_response Hsleep eq_refl)
      as (_ & Hpass).
    assert (Hcode : (status_code Cases.moved_response < 400
                     \/ 600 <= status_code Cases.moved_response)%Z)
      by (left; simpl; lia).
    destruct (Hpass Hcode QuoteList (or_introl eq_refl)) as (Hparsed & _).
    exact (Hparsed Sample.quotes_page eq_refl).
  - assert (Hsleep : can_sleep (next_delay Cases.rejecting Sample.start)
                     = true) by (vm_compute; reflexivity).
    destruct (status_code_decides_fetch Cases.rejecting default_quotes_url
                Sample.start Cases.rejected_response Hsleep eq_refl)
      as (_ & Hpass).
    assert (Hcode : (status_code Cases.rejected_response < 400
                     \/ 600 <= status_code Cases.rejected_response)%Z)
      by (left; simpl; lia).
    destruct (Hpass Hcode QuoteList (or_introl eq_refl)) as (_ & Hrejected).
    exact (Hrejected Cases.rejected_markup eq_refl).
Defined.

(** The generic page, asked as an API, is no JSON: [{}] and one ERROR
    line.  A body with a number of 5000 digits is refused with a
    ValueError, which reaches the caller. *)
Lemma undecodable_body_returns_empty_dict_witness :
  (exists st',
      scrape_json_api Sample.all_up default_news_url Sample.start
      = (Ok [], st')
      /\ errors_logged st' = 1)
  /\ (exists st',
        scrape_json_api Cases.long_numbers default_api_url Sample.start
        = (Raise Cases.long_number, st')
        /\ errors_logged st' = 0).
Proof.
  split.
  - destruct (undecodable_body_returns_empty_dict
                Sample.all_up default_news_url Sample.start
                Sample.news_response
                (mkExn JSONDecodeError
                       "Expecting value: line 1 column 1 (char 0)")
                sample_fetch_succeeds_news eq_refl)
      as (Hcaught & _).
    destruct (Hcaught eq_refl) as (st' & Hrun & Hev & _).
    exists st'. split; [exact Hrun |].
    unfold errors_logged. rewrite Hev. reflexivity.
  - assert (Hfetch : fetch_succeeds Cases.long_numbers default_api_url
                       Sample.start Cases.long_number_response)
      by (repeat split; vm_compute; reflexivity).
    destruct (undecodable_body_returns_empty_dict
                Cases.long_numbers default_api_url Sample.start
                Cases.long_number_response Cases.long_number Hfetch eq_refl)
      as (_ & Hpassed).
    destruct (Hpassed eq_refl) as (st' & Hrun & Hev & _).
    exists st'. split; [exact Hrun |].
    unfold errors_logged. rewrite Hev. reflexivity.
Defined.

(** A list of two posts is stored whole, with [total_items] 2; a single
    object is stored as it is, with [total_items] 1. *)
Lemma json_api_short_lists_and_scalars_witness :
  (exists record st',
      scrape_json_api Cases.short_api default_api_url Sample.start
      = (Ok record, st')
      /\ Py.lookup "api_data" record = Some (PList Cases.two_posts)
      /\ Py.lookup "total_items" record = Some (PInt 2))
  /\ (exists record st',
        scrape_json_api Sample.object_api default_api_url Sample.start
        = (Ok record, st')
        /\ Py.lookup "api_data" record = Some Sample.one_object
        /\ Py.lookup "total_items" record = Some (PInt 1)).
Proof.
  split.
  - assert (Hfetch : fetch_succeeds Cases.short_api default_api_url
                       Sample.start Cases.two_posts_response)
      by (repeat split; vm_compute; reflexivity).
    destruct (json_api_short_lists_and_scalars
                Cases.short_api default_api_url Sample.start
                Cases.two_posts_response (PList Cases.two_posts)
                Hfetch eq_refl)
      as (record & st' & Hrun & _ & _ & Hlist & _).
    exists record, st'. split; [exact Hrun |].
    apply (Hlist Cases.two_posts eq_refl). simpl. lia.
  - destruct (json_api_short_lists_and_scalars
                Sample.object_api default_api_url Sample.start
                Sample.object_response Sample.one_object
                sample_fetch_succeeds_object eq_refl)
      as (record & st' & Hrun & _ & _ & _ & Hscalar).
    exists record, st'. split; [exact Hrun |].
    apply Hscalar. intros items Heq. discriminate Heq.
Defined.

(** The sample generic page has one link, [/next], which [urljoin]
    resolves against https://httpbin.org/html to https://httpbin.org/next:
    the record holds this one link and stores no count. *)
Lemma news_record_contents_witness :
  fetch_succeeds Sample.all_up default_news_url Sample.start
                 Sample.news_response
  /\ anchors Sample.news_page = [Cases.next_link]
  /\ resolves_to Sample.all_up default_news_url Cases.next_link
       "https://httpbin.org/next"
  /\ exists record st',
       scrape_news_site Sample.all_up default_news_url Sample.start
       = (Ok record, st')
       /\ Py.lookup "links" record
          = Some (PList [PDict [("text", PStr "next");
                                ("url", PStr "https://httpbin.org/next")]])
       /\ stored_item_count record = None.
Proof.
  assert (Hjoin : resolves_to Sample.all_up default_news_url Cases.next_link
                    "https://httpbin.org/next")
    by (exists "/next"; split; vm_compute; reflexivity).
  assert (Hanchors : anchors Sample.news_page = [Cases.next_link])
    by (vm_compute; reflexivity).
  split; [exact sample_fetch_succeeds_news |].
  split; [exact Hanchors |]. split; [exact Hjoin |].
  assert (Hall : Forall (fun link =>
                           exists full,
                             resolves_to Sample.all_up default_news_url
                                         link full)
                        (anchors Sample.news_page)).
  { rewrite Hanchors. apply Forall_cons; [| apply Forall_nil].
    exists "https://httpbin.org/next". exact Hjoin. }
  destruct (news_record_contents
              Sample.all_up default_news_url Sample.start Sample.news_response
              Sample.news_page sample_fetch_succeeds_news eq_refl Hall)
    as (record & st' & links & ps & hs & Hrun & Hlinks & Hentries & _ & _ & _
        & _ & _ & Hcount).
  exists record, st'. split; [exact Hrun |]. split; [| exact Hcount].
  rewrite Hlinks. rewrite Hanchors in Hentries. cbn [firstn] in Hentries.
  inversion Hentries as [| link entry links0 rest Hentry Hrest]; subst.
  inversion Hrest; subst.
  destruct Hentry as (full & (href & Hhref & Hfull) & ->).
  vm_compute in Hhref. injection Hhref as <-.
  vm_compute in Hfull. injection Hfull as <-.
  vm_compute. reflexivity.
Defined.

(** On the page with the links [/next] and [http://[::1], the first is
    resolved and the second makes [urljoin] raise: the scraper raises the
    ValueError and logs no ERROR line. *)
Lemma unresolvable_link_loses_the_page_witness :
  anchors Cases.broken_page = [Cases.next_link] ++ Cases.broken_link :: []
  /\ fails_to_resolve Cases.strict default_news_url Cases.broken_link
       (mkExn ValueError "Invalid IPv6 URL")
  /\ exists st',
       scrape_news_site Cases.strict default_news_url Sample.start
       = (Raise (mkExn ValueError "Invalid IPv6 URL"), st')
       /\ errors_logged st' = 0.
Proof.
  assert (Ha : anchors Cases.broken_page
               = [Cases.next_link] ++ Cases.broken_link :: [])
    by (vm_compute; reflexivity).
  assert (Hf : fails_to_resolve Cases.strict default_news_url
                 Cases.broken_link (mkExn ValueError "Invalid IPv6 URL"))
    by (exists "http://[::1"; split; vm_compute; reflexivity).
  assert (Hok : fetch_succeeds Cases.strict default_news_url Sample.start
                               Cases.broken_response)
    by (repeat split; vm_compute; reflexivity).
  assert (Hbefore : Forall (fun l =>
                              exists full,
                                resolves_to Cases.strict default_news_url
                                            l full)
                           [Cases.next_link]).
  { apply Forall_cons; [| apply Forall_nil].
    exists "https://httpbin.org/next", "/next".
    split; vm_compute; reflexivity. }
  split; [exact Ha |]. split; [exact Hf |].
  exact (unresolvable_link_loses_the_page
           Cases.strict default_news_url Sample.start Cases.broken_response
           Cases.broken_page [Cases.next_link] Cases.broken_link [] _
           Hok eq_refl Ha Hbefore Hf).
Defined.

(** The sample catalog gives three entries. *)
Lemma catalog_entries_witness :
  fetch_succeeds Sample.all_up default_books_url Sample.start
                 Sample.books_response
  /\ content_soup Sample.books_response = Ok Sample.books_page
  /\ exists record st' books,
       scrape_books_site Sample.all_up default_books_url Sample.start
       = (Ok record, st')
       /\ Py.lookup "books" record = Some (PList books)
       /\ Forall2 entry_of_book
            [Sample.three_stars; Sample.odd_stars; Sample.bare] books
       /\ Py.lookup "total_books" record = Some (PInt 3).
Proof.
  split; [exact sample_fetch_succeeds_books |]. split; [reflexivity |].
  destruct (catalog_entries
              Sample.all_up default_books_url Sample.start
              Sample.books_response Sample.books_page
              sample_fetch_succeeds_books eq_refl)
    as (record & st' & books & Hrun & Hbooks & Hall & Htotal & _).
  exists record, st', books. auto.
Defined.



(** On the sample network [main] returns, with a store of four records
    and both exports written. *)
Lemma main_exports_what_it_scraped_witness :
  main Sample.all_up Sample.start = (Ok tt, Cases.after_main)
  /\ List.length (scraped_data (self Cases.after_main)) = 4
  /\ Fs.read default_json_filename (files Cases.after_main)
     = Some (Json.dumps
               (PList (map PDict (scraped_data (self Cases.after_main)))))
  /\ exists rows,
       Fs.read default_csv_filename (files Cases.after_main)
       = Some (lines_text (map Csv.row_line (csv_header :: rows)))
       /\ Forall2 row_of (scraped_data (self Cases.after_main)) rows.
Proof.
  split; [exact sample_main_returns |].
  split; [vm_compute; reflexivity |].
  destruct (main_exports_what_it_scraped
              Sample.all_up Sample.start Cases.after_main
              sample_main_returns)
    as (_ & _ & Hfull).
  exact (Hfull sample_main_scrapes).
Defined.

(** On the sample network [main] prints four blocks after the heading. *)
Lemma main_prints_the_summary_witness :
  main Sample.all_up Sample.start = (Ok tt, Cases.after_main)
  /\ exists blocks,
       printed Cases.after_main
       = printed Sample.start +++ summary_heading +++ lines_text blocks
       /\ Forall2 block_of (scraped_data (self Cases.after_main)) blocks
       /\ List.length blocks = 4.
Proof.
  split; [exact sample_main_returns |].
  destruct (main_prints_the_summary
              Sample.all_up Sample.start Cases.after_main
              sample_main_returns)
    as (Hfull & _).
  destruct (Hfull sample_main_scrapes) as (blocks & rows & Hp & Hb & _).
  exists blocks. split; [exact Hp |]. split; [exact Hb |].
  rewrite <- (Forall2_length Hb). vm_compute. reflexivity.
Defined.

(** On the sample network [example_basic_usage] returns its store of four
    records, with both exports written. *)
Lemma example_basic_usage_exports_witness :
  example_basic_usage Sample.all_up Sample.start
  = (Ok (scraped_data (self Cases.after_basic)), Cases.after_basic)
  /\ List.length (scraped_data (self Cases.after_basic)) = 4
  /\ Fs.read example_json_filename (files Cases.after_basic)
     = Some (Json.dumps
               (PList (map PDict (scraped_data (self Cases.after_basic)))))
  /\ exists rows,
       Fs.read example_csv_filename (files Cases.after_basic)
       = Some (lines_text (map Csv.row_line (csv_header :: rows)))
       /\ Forall2 row_of (scraped_data (self Cases.after_basic)) rows.
Proof.
  split; [exact sample_basic_returns |].
  split; [vm_compute; reflexivity |].
  destruct (example_basic_usage_exports
              Sample.all_up Sample.start _ Cases.after_basic
              sample_basic_returns)
    as (_ & _ & Hjson & _ & Hfull).
  split; [exact Hjson |].
  apply Hfull. vm_compute. discriminate.
Defined.


(** On the sample network the example of custom URLs collects. *)
Lemma example_custom_configuration_collects_witness :
  serves_pages Sample.all_up
  /\ serves_json Sample.all_up
  /\ exists quotes api st' traffic,
       example_custom_configuration Sample.all_up Sample.start
       = (Ok (quotes ++ api), st')
       /\ at_most_one "quotes_site" quotes_page2_url quotes
       /\ at_most_one "json_api" users_url api
       /\ traffic_of (events st') = traffic
       /\ paced (delay_between (2, 4)%Q) [quotes_page2_url; users_url] traffic.
Proof.
  split; [exact sample_serves_pages |]. split; [exact sample_serves_json |].
  exact (example_custom_configuration_collects Sample.all_up Sample.start
           sample_serves_pages sample_serves_json).
Defined.
